(** * ActProof: static detection to EU AI Act compliance pipeline

    A shallow embedding of the compliance core of the [actproof] package:

    - [actproof/models/ai_bom.py]             (module [AiBom])
    - [actproof/utils/config_extractor.py]    (module [ConfigExtractor])
    - [actproof/bom/generator.py]             (module [Generator])
    - [actproof/compliance/requirements.py]   (module [Requirements])
    - [actproof/compliance/validators.py]     (module [Validators])
    - [actproof/compliance/policy_engine_ext.py] (module [PolicyEngineExt])
    - [actproof/compliance/policy_engine.py]  (module [PolicyEngine])
    - [actproof/compliance/diff_engine.py]    (module [DiffEngine])
    - [actproof/compliance/evidence_pack.py]  (module [EvidencePack])
    - [actproof/integrations/github_action.py] (module [GithubAction])

    followed by sample inputs (module [Samples]), the notions that the
    properties are stated with (module [Notions]) and the properties.

    Conventions of the embedding.

    - Python [str] values are Rocq [string]s, read as UTF-8 byte strings.
      [str.lower], [str.upper] and [str.title] act on the ASCII letters,
      which is what Python does on ASCII text; a property whose subject
      is the comparison of names up to letter case is stated for ASCII
      names ([is_ascii]).  The blank characters of [str.split] and of the
      class [\s] are those of Python, in one, two or three bytes.
    - A Python exception is the [Raise] outcome of the [Result] monad; a
      function that cannot raise is a plain function.
    - [Dict[str, Any]] is an association list from keys to [PyVal]s in
      insertion order, with distinct keys.
    - A Python set is a [gset]; its order of iteration is [elements].
    - Compliance scores are Python floats that the engine only ever builds
      as a ratio of two small naturals (or as the literals 0.0 and 1.0);
      they are embedded as rationals [Q], a ratio standing for the double
      nearest to it.  The ratios k/13 and k/14 stay clear of the threshold
      0.85, so that comparison comes out the same in floating point.  The
      diff engine subtracts two scores and compares the difference with
      0.01: there the rounding of binary64 arithmetic is modelled
      ([nearest_double], [float_sub]).
    - A pydantic model is a record of its fields; constructing one from
      values of the declared types cannot fail unless the model has a
      validator or a bound, which is then modelled.
    - What the host gives (the [str] of a dict, [float], the coercions
      pydantic applies to untyped metadata, the file system, number
      formats, SHA-256 and [json.dumps]) is a field of the class [Host];
      every definition and every theorem is parametric in it.  A reading
      of the clock is an argument [now] of the function that takes it. *)

From stdpp Require Import base option list gmap strings sets sorting.
From Stdlib Require Import String Ascii List ZArith QArith Qabs Bool Lia.
From Stdlib Require Import OrderedTypeEx.
Import ListNotations.
Set Warnings "-register-all".
Local Open Scope string_scope.
Local Open Scope list_scope.

(* ===================================================================== *)
(** * Python values, exceptions and strings                               *)
(* ===================================================================== *)

Module Py.

(** Exceptions that can leave the modelled functions. *)
Inductive PyError : Type :=
  | ValidationError (fields : list string)
  | TypeError (what : string)
  | OverflowError (what : string).

Inductive Result (A : Type) : Type :=
  | Ok (a : A)
  | Raise (e : PyError).
Arguments Ok {A} a.
Arguments Raise {A} e.

Definition bind {A B : Type} (r : Result A) (k : A -> Result B) : Result B :=
  match r with
  | Ok a => k a
  | Raise e => Raise e
  end.

(** [Any]: the values that can sit in a metadata dictionary. *)
Inductive PyVal : Type :=
  | PyNone
  | PyBool (b : bool)
  | PyInt (z : Z)
  | PyFloat (q : Q)
  | PyStr (s : string)
  | PyList (l : list PyVal)
  | PyDict (d : list (string * PyVal)).

Definition Dict : Type := list (string * PyVal).

(** [key in d] *)
Definition dict_has (key : string) (d : Dict) : bool :=
  existsb (fun kv => String.eqb (fst kv) key) d.

(** [d.get(key)], with Python's [None] as Rocq's [None]. *)
Fixpoint dict_get (key : string) (d : Dict) : option PyVal :=
  match d with
  | [] => None
  | (k, v) :: rest => if String.eqb k key then Some v else dict_get key rest
  end.

(** Truth value of a collection: [if xs:] *)
Definition nonempty {A : Type} (l : list A) : bool :=
  match l with [] => false | _ :: _ => true end.

(** [a < b] and [a >= b] on numbers. *)
Definition qlt (a b : Q) : bool := if Qlt_le_dec a b then true else false.
Definition qge (a b : Q) : bool := negb (qlt a b).

(** ** Floats

    A [float] is an IEEE 754 binary64 number.  The floats that are
    subtracted here are scores, fields that pydantic bounds by 0 and 1, so
    they are finite and far from the largest double; a float is given by
    its value, a rational, and the two zeros are one.  A rational that is
    not a double stands for the double nearest to it, which is what the
    quotient of two integers and a decimal literal give in Python.  An
    operation gives the exact result rounded to the nearest double, of two
    that are equally near the one with an even last digit. *)

(** The integer nearest to [n / d], the even one of two that are equally
    near, for [0 <= n] and [0 < d]. *)
Definition round_half_even (n d : Z) : Z :=
  let q := (n / d)%Z in
  let r := (n mod d)%Z in
  match (2 * r ?= d)%Z with
  | Lt => q
  | Gt => (q + 1)%Z
  | Eq => if Z.even q then q else (q + 1)%Z
  end.

(** The exponent [e] with [2 ^ e <= n / d < 2 ^ (e + 1)]. *)
Definition binade (n d : positive) : Z :=
  let e := (Z.log2 (Zpos n) - Z.log2 (Zpos d))%Z in
  if (Zpos n * 2 ^ Z.max 0 (- e) <? Zpos d * 2 ^ Z.max 0 e)%Z
  then (e - 1)%Z else e.

(** The double nearest to [n / d]: 53 significant bits, the last place
    not below [2 ^ -1074]. *)
Definition nearest_positive (n d : positive) : Q :=
  let p := Z.max (binade n d - 52) (-1074) in
  let m :=
    round_half_even (Zpos n * 2 ^ Z.max 0 (- p)) (Zpos d * 2 ^ Z.max 0 p) in
  Qred (inject_Z m * 2 ^ p)%Q.

(** The double that a number stands for. *)
Definition nearest_double (q : Q) : Q :=
  match Qnum (Qred q) with
  | Z0 => 0%Q
  | Zpos n => nearest_positive n (Qden (Qred q))
  | Zneg n => (- nearest_positive n (Qden (Qred q)))%Q
  end.

(** [a - b] on floats *)
Definition float_sub (a b : Q) : Q :=
  nearest_double (nearest_double a - nearest_double b)%Q.

(** ** Strings *)

Definition is_upper (c : ascii) : bool :=
  let n := nat_of_ascii c in (65 <=? n)%nat && (n <=? 90)%nat.

Definition is_lower (c : ascii) : bool :=
  let n := nat_of_ascii c in (97 <=? n)%nat && (n <=? 122)%nat.

Definition lower_char (c : ascii) : ascii :=
  if is_upper c then ascii_of_nat (nat_of_ascii c + 32) else c.

Definition upper_char (c : ascii) : ascii :=
  if is_lower c then ascii_of_nat (nat_of_ascii c - 32) else c.

Fixpoint map_string (f : ascii -> ascii) (s : string) : string :=
  match s with
  | EmptyString => EmptyString
  | String c r => String (f c) (map_string f r)
  end.

(** [s.lower()], [s.upper()]: the ASCII letters are folded and every
    other byte is kept, which is what Python does on ASCII text. *)
Definition lower (s : string) : string := map_string lower_char s.
Definition upper (s : string) : string := map_string upper_char s.

(** [s.isascii()] *)
Definition is_ascii (s : string) : bool :=
  forallb (fun c => (nat_of_ascii c <? 128)%nat) (list_ascii_of_string s).

(** [s.replace(a, b)] for one-character [a] and [b]. *)
Definition replace_char (a b : ascii) (s : string) : string :=
  map_string (fun c => if Ascii.eqb c a then b else c) s.


(** [sub in s] *)
Fixpoint contains (sub s : string) : bool :=
  String.prefix sub s ||
  match s with
  | EmptyString => false
  | String _ r => contains sub r
  end.

(** [any(k in s for k in keys)] *)
Definition any_in (keys : list string) (s : string) : bool :=
  existsb (fun k => contains k s) keys.

(** [x in xs] for a list of strings. *)
Definition str_in (x : string) (xs : list string) : bool :=
  existsb (String.eqb x) xs.

(** [sep.join(parts)] *)
Definition join (sep : string) (parts : list string) : string :=
  String.concat sep parts.

(** [xs[:n]] *)
Definition take_upto {A : Type} (n : nat) (l : list A) : list A := firstn n l.

(** [s[n:]] *)
Fixpoint str_drop (n : nat) (s : string) : string :=
  match n, s with
  | S n', String _ r => str_drop n' r
  | _, _ => s
  end.

(** [s.replace(old, "")] for a non-empty [old]: the occurrences are
    removed from left to right.  Every turn consumes a character, so the
    fuel, the length of [s], is never used up. *)
Fixpoint str_remove_aux (fuel : nat) (old s : string) : string :=
  match fuel with
  | O => s
  | S f =>
      match s with
      | EmptyString => EmptyString
      | String c r =>
          if String.prefix old s
          then str_remove_aux f old (str_drop (String.length old) s)
          else String c (str_remove_aux f old r)
      end
  end.

Definition str_remove (old s : string) : string :=
  str_remove_aux (String.length s) old s.

(** [s[:n]] *)
Fixpoint str_take (n : nat) (s : string) : string :=
  match n, s with
  | S n', String c r => String c (str_take n' r)
  | _, _ => EmptyString
  end.

(** The blank characters of [str.isspace], [str.split] and the class [\s]
    of [re], in the UTF-8 encoding of the text: in one byte U+0009 to
    U+000D and U+001C to U+0020, in two bytes U+0085 and U+00A0, in three
    bytes U+1680, U+2000 to U+200A, U+2028, U+2029, U+202F, U+205F and
    U+3000.  No byte of such an encoding occurs inside the encoding of
    another character, so a scan byte by byte finds them where Python
    does. *)
Definition is_space (c : ascii) : bool :=
  let n := nat_of_ascii c in
  (n =? 32)%nat || ((9 <=? n)%nat && (n <=? 13)%nat) ||
  ((28 <=? n)%nat && (n <=? 31)%nat).

Definition is_space2 (c1 c2 : ascii) : bool :=
  let n1 := nat_of_ascii c1 in
  let n2 := nat_of_ascii c2 in
  (n1 =? 194)%nat && ((n2 =? 133)%nat || (n2 =? 160)%nat).

Definition is_space3 (c1 c2 c3 : ascii) : bool :=
  let n1 := nat_of_ascii c1 in
  let n2 := nat_of_ascii c2 in
  let n3 := nat_of_ascii c3 in
  ((n1 =? 225)%nat && (n2 =? 154)%nat && (n3 =? 128)%nat) ||
  ((n1 =? 226)%nat && (n2 =? 128)%nat &&
   (((128 <=? n3)%nat && (n3 <=? 138)%nat) ||
    (n3 =? 168)%nat || (n3 =? 169)%nat || (n3 =? 175)%nat)) ||
  ((n1 =? 226)%nat && (n2 =? 129)%nat && (n3 =? 159)%nat) ||
  ((n1 =? 227)%nat && (n2 =? 128)%nat && (n3 =? 128)%nat).

(** The longest prefix of [s] made of blank characters, and the rest. *)
Fixpoint span_blanks (s : string) : string * string :=
  match s with
  | EmptyString => (EmptyString, EmptyString)
  | String c1 r1 =>
      if is_space c1
      then let (a, b) := span_blanks r1 in (String c1 a, b)
      else
        match r1 with
        | EmptyString => (EmptyString, s)
        | String c2 r2 =>
            if is_space2 c1 c2
            then let (a, b) := span_blanks r2 in (String c1 (String c2 a), b)
            else
              match r2 with
              | EmptyString => (EmptyString, s)
              | String c3 r3 =>
                  if is_space3 c1 c2 c3
                  then let (a, b) := span_blanks r3 in
                       (String c1 (String c2 (String c3 a)), b)
                  else (EmptyString, s)
              end
        end
  end.

(** [s.split()]: the maximal runs of non-blank characters. *)
Fixpoint split_ws_aux (s : string) (cur : string) : list string :=
  let flush := if String.eqb cur EmptyString then [] else [cur] in
  match s with
  | EmptyString => flush
  | String c1 r1 =>
      if is_space c1 then flush ++ split_ws_aux r1 EmptyString
      else
        match r1 with
        | EmptyString => split_ws_aux r1 (cur ++ String c1 EmptyString)
        | String c2 r2 =>
            if is_space2 c1 c2 then flush ++ split_ws_aux r2 EmptyString
            else
              match r2 with
              | EmptyString => split_ws_aux r1 (cur ++ String c1 EmptyString)
              | String c3 r3 =>
                  if is_space3 c1 c2 c3
                  then flush ++ split_ws_aux r3 EmptyString
                  else split_ws_aux r1 (cur ++ String c1 EmptyString)
              end
        end
  end.

Definition split_ws (s : string) : list string := split_ws_aux s EmptyString.

(** [s.title()]: a letter that follows a letter is lowered, any other
    letter is raised. *)
Fixpoint title_aux (prev_cased : bool) (s : string) : string :=
  match s with
  | EmptyString => EmptyString
  | String c r =>
      let cased := is_upper c || is_lower c in
      String (if prev_cased then lower_char c else upper_char c)
             (title_aux cased r)
  end.

Definition title (s : string) : string := title_aux false s.

(** Decimal digits of a natural, [str(n)]. *)
Definition digit (n : nat) : ascii := ascii_of_nat (48 + n mod 10).

Fixpoint nat_digits (fuel n : nat) (acc : string) : string :=
  match fuel with
  | O => acc
  | S f =>
      let acc' := String (digit n) acc in
      if (n <? 10)%nat then acc' else nat_digits f (n / 10) acc'
  end.

Definition str_of_nat (n : nat) : string := nat_digits (S n) n EmptyString.

(** [f"{n:03d}"], [f"{n:02d}"] *)
Fixpoint zeros (n : nat) : string :=
  match n with
  | O => EmptyString
  | S m => String "0" (zeros m)
  end.

Definition zero_pad (width : nat) (s : string) : string :=
  zeros (width - String.length s) ++ s.

Definition fmt_0d (width n : nat) : string := zero_pad width (str_of_nat n).

(** [sorted(xs)] on strings: insertion sort by code units, stable. *)
Fixpoint insert_sorted (x : string) (l : list string) : list string :=
  match l with
  | [] => [x]
  | y :: r => if String.leb x y then x :: l else y :: insert_sorted x r
  end.

Definition sorted (l : list string) : list string :=
  fold_right insert_sorted [] l.

End Py.
Export Py.

Notation "'let*' x ':=' r 'in' k" := (Py.bind r (fun x => k))
  (at level 10, x name, r at level 100, k at level 200).

(* ===================================================================== *)
(** * The host: Python built-ins, pydantic coercions, files, hashing      *)
(* ===================================================================== *)

(** Outcome of [float(v)] under [except (ValueError, TypeError)]. *)
Inductive FloatConv : Type :=
  | FloatOk (q : Q)
  | FloatCaught
  | FloatOverflow.

Definition Path : Type := string.

(** JSON values handed to [json.dumps(..., sort_keys=True)]. *)
Inductive Json : Type :=
  | JNull
  | JBool (b : bool)
  | JNum (q : Q)
  | JStr (s : string)
  | JArr (l : list Json)
  | JObj (members : list (string * Json)).

Class Host : Type := {
  (** [str(d)] of a dictionary *)
  py_str_dict : Dict -> string;
  (** [float(v)] *)
  py_float : PyVal -> FloatConv;
  (** what [list.extend(v)] appends, [None] when [v] is not iterable *)
  py_iter : PyVal -> option (list PyVal);
  (** pydantic coercion of an untyped value into an [int], a [str] and a
      [List[str]] field; [None] is a validation error *)
  pydantic_int : PyVal -> option Z;
  pydantic_str : PyVal -> option string;
  pydantic_list_str : PyVal -> option (list string);
  (** [Path.exists], [Path.rglob], [Path.glob], [Path.read_text] (which
      gives [None] when it raises) *)
  path_exists : Path -> bool;
  path_rglob : Path -> string -> list Path;
  path_glob : Path -> string -> list Path;
  path_read_text : Path -> option string;
  (** the formats [.1%], [+.1%] and [.0f] of a float *)
  fmt_percent1 : Q -> string;
  fmt_percent1_signed : Q -> string;
  fmt_float0 : Q -> string;
  (** [hashlib.sha256(s.encode()).hexdigest()] *)
  sha256_hex : string -> string;
  (** [json.dumps(v, sort_keys=True)] *)
  json_dumps_sorted : Json -> string
}.

(* ===================================================================== *)
(** * actproof/models/ai_bom.py                                           *)
(* ===================================================================== *)

Module AiBom.

Inductive ModelType : Type :=
  | MT_LLM | MT_VISION | MT_AUDIO | MT_EMBEDDING | MT_FINE_TUNED | MT_CUSTOM.

(** [ModelType.value] *)
Definition ModelType_value (t : ModelType) : string :=
  match t with
  | MT_LLM => "llm"
  | MT_VISION => "vision"
  | MT_AUDIO => "audio"
  | MT_EMBEDDING => "embedding"
  | MT_FINE_TUNED => "fine_tuned"
  | MT_CUSTOM => "custom"
  end.

Inductive DatasetType : Type :=
  | DT_TRAINING | DT_VALIDATION | DT_TEST | DT_PRODUCTION.

Inductive LicenseType : Type :=
  | APACHE_2_0 | MIT | GPL_3_0 | PROPRIETARY | LICENSE_UNKNOWN.

(** The component records keep the fields that some modelled function
    reads or writes; [license], [source_location] and [parameters] of a
    model, [license] and [vulnerability_score] of a dependency, and the
    [detection_locations] lists are only carried to the serialised
    document and are left out. *)
Record ModelComponent : Type := {
  mc_name : string;
  mc_version : option string;
  mc_model_type : ModelType;
  mc_provider : option string;
  mc_api_endpoint : option string;
  mc_detected_in : list string;
  mc_usage_context : option string
}.

Record DatasetComponent : Type := {
  ds_name : string;
  ds_dataset_type : DatasetType;
  ds_source_location : option string;
  ds_size : option Z;
  ds_license : option LicenseType;
  ds_gdpr_compliant : option bool;
  ds_detected_in : list string;
  ds_metadata : option Dict
}.

Record DependencyComponent : Type := {
  dep_name : string;
  dep_version : option string;
  dep_package_manager : option string;
  dep_is_ai_related : bool;
  dep_detected_in : list string
}.

(** [created] and [scan_timestamp] are clock readings and are left out. *)
Record AIBOM : Type := {
  spdx_version : string;
  data_license : string;
  spdx_id : string;
  name : string;
  document_namespace : string;
  creator : string;
  models : list ModelComponent;
  datasets : list DatasetComponent;
  dependencies : list DependencyComponent;
  repository_url : option string;
  repository_commit : option string;
  metadata : Dict
}.




End AiBom.
Export AiBom.

(* ===================================================================== *)
(** * actproof/utils/config_extractor.py                                  *)
(* ===================================================================== *)

Module ConfigExtractor.

(** One entry of the lists the manifest readers return: the dictionary
    with the keys [name], [version], [package_manager], [source_file].
    A key that is absent is [None]. *)
Record ConfigDep : Type := {
  cd_name : option string;
  cd_version : option string;
  cd_package_manager : option string;
  cd_source_file : option string
}.

Definition ai_keywords : list string :=
  [ (* Major AI/LLM providers *)
    "openai"; "anthropic"; "cohere"; "replicate"; "together";
    "groq"; "fireworks"; "mistralai"; "google-generativeai";
    "vertexai"; "bedrock"; "ollama";
    (* ML frameworks *)
    "torch"; "tensorflow"; "keras"; "sklearn"; "scikit-learn";
    "pytorch"; "jax"; "flax"; "onnx"; "xgboost"; "lightgbm";
    "catboost"; "prophet"; "statsmodels";
    (* HuggingFace ecosystem *)
    "transformers"; "huggingface"; "huggingface-hub"; "datasets";
    "tokenizers"; "accelerate"; "peft"; "trl"; "evaluate";
    "sentence-transformers"; "sentence_transformers";
    (* LLM frameworks *)
    "langchain"; "llama-index"; "llama_index"; "llamaindex";
    "haystack"; "guidance"; "semantic-kernel"; "autogen";
    "crewai"; "dspy"; "instructor"; "outlines"; "vllm";
    (* Vector databases *)
    "chromadb"; "pinecone"; "weaviate"; "qdrant"; "milvus";
    "faiss"; "pgvector"; "lancedb";
    (* ML utilities *)
    "mlflow"; "wandb"; "neptune"; "clearml"; "optuna";
    "ray"; "dask"; "polars";
    (* Data science *)
    "pandas"; "numpy"; "scipy"; "matplotlib"; "seaborn";
    "plotly"; "bokeh"; "altair";
    (* Computer vision *)
    "opencv"; "cv2"; "pillow"; "torchvision"; "detectron2";
    "ultralytics"; "yolo";
    (* Audio/Speech *)
    "whisper"; "speechrecognition"; "torchaudio"; "librosa";
    (* NLP *)
    "spacy"; "nltk"; "gensim"; "flair"; "stanza";
    (* Fairness/explainability *)
    "fairlearn"; "aif360"; "shap"; "lime"; "alibi";
    "interpret"; "eli5" ].

(** [ConfigExtractor.is_ai_related] *)
Definition is_ai_related (package_name : string) : bool :=
  let package_lower :=
    replace_char "." "_" (replace_char "-" "_" (lower package_name)) in
  existsb (fun keyword => contains (replace_char "-" "_" keyword) package_lower)
          ai_keywords.

(** [json.load] of a package.json, then the loop of
    [ConfigExtractor.extract_from_package_json].  [data] is [None] when the
    file does not exist or is not JSON.  A dependency table that is not an
    object makes [.items()] raise; the handler returns what was collected. *)
Definition package_json_items (source_file : string) (items : Dict) : list ConfigDep :=
  List.map
    (fun entry : string * PyVal =>
       {| cd_name := Some (lower (fst entry));
          cd_version := match snd entry with PyStr s => Some s | _ => None end;
          cd_package_manager := Some "npm";
          cd_source_file := Some source_file |})
    items.

Fixpoint package_json_tables (source_file : string) (data : Dict)
    (dep_types : list string) : list ConfigDep :=
  match dep_types with
  | [] => []
  | dep_type :: rest =>
      match dict_get dep_type data with
      | None => package_json_tables source_file data rest
      | Some (PyDict items) =>
          package_json_items source_file items ++
          package_json_tables source_file data rest
      | Some _ => []
      end
  end.

Definition extract_from_package_json (file_path : Path) (data : option PyVal)
    : list ConfigDep :=
  match data with
  | Some (PyDict d) =>
      package_json_tables file_path d
        ["dependencies"; "devDependencies"; "peerDependencies"]
  | _ => []
  end.

End ConfigExtractor.

(* ===================================================================== *)
(** * actproof/bom/generator.py                                           *)
(* ===================================================================== *)

Module Generator.
Import ConfigExtractor.

(** A detection of the [ml_libraries] bucket: [detection["match"]["text"]]
    and [detection["file"]], each with its [.get] default. *)
Record Detection : Type := {
  det_match_text : string;
  det_file : string
}.

Definition is_word_char (c : ascii) : bool :=
  is_upper c || is_lower c ||
  (let n := nat_of_ascii c in (48 <=? n)%nat && (n <=? 57)%nat) ||
  Ascii.eqb c "_".

(** The longest prefix of [s] whose characters satisfy [p], and the rest. *)
Fixpoint span (p : ascii -> bool) (s : string) : string * string :=
  match s with
  | EmptyString => (EmptyString, EmptyString)
  | String c r =>
      if p c then let (a, b) := span p r in (String c a, b)
      else (EmptyString, s)
  end.

(** A match of [import\s+([a-zA-Z0-9_]+)] that starts at the head of [s];
    the value is group 1.  The two repetitions are greedy and over
    disjoint character classes, so there is nothing to backtrack. *)
Definition match_import_here (s : string) : option string :=
  if String.prefix "import" s then
    let (ws, rest) := span_blanks (str_drop 6 s) in
    if String.eqb ws EmptyString then None
    else
      let (word, _) := span is_word_char rest in
      if String.eqb word EmptyString then None else Some word
  else None.

(** [re.search(r"import\s+([a-zA-Z0-9_]+)", s)]: the leftmost match. *)
Fixpoint search_import (s : string) : option string :=
  match match_import_here s with
  | Some w => Some w
  | None =>
      match s with
      | EmptyString => None
      | String _ r => search_import r
      end
  end.

(** The loop state of [_extract_dependencies]: the list built so far and
    the set [seen_deps]. *)
Definition DepState : Type := (list DependencyComponent * gset string)%type.

(** One turn of the loop over the manifest entries. *)
Definition add_config_dep (st : DepState) (dep : ConfigDep) : DepState :=
  let '(dependencies, seen_deps) := st in
  let name := default EmptyString (cd_name dep) in
  if negb (String.eqb name EmptyString) && bool_decide (name ∉ seen_deps)
  then
    let is_ai := is_ai_related name in
    (dependencies ++
       [ {| dep_name := name;
            dep_version := cd_version dep;
            dep_package_manager := cd_package_manager dep;
            dep_is_ai_related := is_ai;
            dep_detected_in := [default EmptyString (cd_source_file dep)] |} ],
     {[ name ]} ∪ seen_deps)
  else st.

(** One turn of the loop over the detected imports. *)
Definition add_import_dep (st : DepState) (detection : Detection) : DepState :=
  let '(dependencies, seen_deps) := st in
  match search_import (det_match_text detection) with
  | Some g =>
      let lib_name := lower g in
      if bool_decide (lib_name ∉ seen_deps)
      then
        (dependencies ++
           [ {| dep_name := lib_name;
                dep_version := None;
                dep_package_manager := None;
                dep_is_ai_related := true;
                dep_detected_in := [det_file detection] |} ],
         {[ lib_name ]} ∪ seen_deps)
      else st
  | None => st
  end.

(** [AIBOMGenerator._extract_dependencies]; [ml_libraries] is
    [scan_results.get("ml_libraries", [])]. *)
Definition _extract_dependencies
    (ml_libraries : list Detection) (config_dependencies : list ConfigDep)
    : list DependencyComponent :=
  let st0 : DepState := ([], ∅) in
  let st1 := fold_left add_config_dep config_dependencies st0 in
  let st2 := fold_left add_import_dep ml_libraries st1 in
  fst st2.

(** [AIBOMGenerator._infer_model_type] *)
Definition _infer_model_type (model_name : string) : ModelType :=
  let model_name_lower := lower model_name in
  if any_in [ "bert"; "gpt"; "llama"; "mistral"; "falcon"; "gemma"; "phi";
              "qwen"; "t5"; "bart"; "roberta" ] model_name_lower
  then MT_LLM
  else if any_in ["vit"; "resnet"; "clip"; "dino"; "sam"; "yolo"; "detr"]
                 model_name_lower
  then MT_VISION
  else if any_in ["embed"; "sentence-transformer"; "all-minilm"; "bge"; "e5"]
                 model_name_lower
  then MT_EMBEDDING
  else MT_CUSTOM.

(** The [ModelComponent] that each of the three Hugging Face branches of
    [_extract_models] appends for a model name found in [file_path]. *)
Definition huggingface_component (model_name file_path : string) : ModelComponent :=
  {| mc_name := model_name;
     mc_version := None;
     mc_model_type := _infer_model_type model_name;
     mc_provider := Some "HuggingFace";
     mc_api_endpoint := None;
     mc_detected_in := [file_path];
     mc_usage_context := Some "inference" |}.

End Generator.

(* ===================================================================== *)
(** * actproof/compliance/requirements.py                                *)
(* ===================================================================== *)

Module Requirements.

Inductive RiskLevel : Type := MINIMAL | LIMITED | HIGH | PROHIBITED.

Definition RiskLevel_value (r : RiskLevel) : string :=
  match r with
  | MINIMAL => "minimal"
  | LIMITED => "limited"
  | HIGH => "high"
  | PROHIBITED => "prohibited"
  end.

Definition RiskLevel_eqb (a b : RiskLevel) : bool :=
  match a, b with
  | MINIMAL, MINIMAL | LIMITED, LIMITED | HIGH, HIGH
  | PROHIBITED, PROHIBITED => true
  | _, _ => false
  end.

Inductive SystemType : Type := STANDALONE | COMPONENT | PRODUCT.

(** A clock reading, [datetime.utcnow()]. *)
Definition Timestamp : Type := Z.

(** [TechnicalDocumentation]: the identification, the four required
    descriptions, and every field that the policy engine reads.  The
    optional free-text fields, the GDPR block and the two timestamps are
    left out. *)
Record TechnicalDocumentation : Type := {
  system_name : string;
  system_type : SystemType;
  td_risk_level : RiskLevel;
  general_description : string;
  intended_purpose : string;
  context_of_use : string;
  logic_description : string;
  technical_specifications : Dict;
  software_dependencies : list string;
  accuracy_metrics : list (string * Q);
  risk_management : Dict;
  identified_risks : list string;
  human_oversight : option Dict;
  oversight_measures : list string;
  transparency_measures : list string
}.

(** [technical_doc.risk_level = level] *)
Definition set_risk_level (d : TechnicalDocumentation) (level : RiskLevel)
    : TechnicalDocumentation :=
  {| system_name := system_name d;
     system_type := system_type d;
     td_risk_level := level;
     general_description := general_description d;
     intended_purpose := intended_purpose d;
     context_of_use := context_of_use d;
     logic_description := logic_description d;
     technical_specifications := technical_specifications d;
     software_dependencies := software_dependencies d;
     accuracy_metrics := accuracy_metrics d;
     risk_management := risk_management d;
     identified_risks := identified_risks d;
     human_oversight := human_oversight d;
     oversight_measures := oversight_measures d;
     transparency_measures := transparency_measures d |}.

(** ** Article 10 *)

Record DataQualityMetrics : Type := {
  completeness : option Q;
  consistency : option Q;
  accuracy : option Q;
  timeliness : option Q;
  overall_score : option Q
}.

Record BiasAssessment : Type := {
  bias_detected : bool;
  bias_categories : list string;
  bias_mitigation_measures : list string
}.

Record DataLineage : Type := {
  source : option string;
  collection_method : option string;
  processing_steps : list string;
  transformations : list string;
  data_owners : list string
}.

Record DataGovernance : Type := {
  datasets_documented : bool;
  data_quality_metrics : option DataQualityMetrics;
  bias_assessment : option BiasAssessment;
  data_lineage : option DataLineage;
  data_relevance_documented : bool;
  representativeness_assessed : bool;
  gdpr_compliance_verified : bool;
  data_governance_policies : list string
}.

(** [DataGovernance.compliant] *)
Definition DataGovernance_compliant (self : DataGovernance) : bool :=
  datasets_documented self &&
  data_relevance_documented self &&
  representativeness_assessed self &&
  gdpr_compliance_verified self.

(** ** Article 9 *)

Inductive RiskCategory : Type :=
  | FUNDAMENTAL_RIGHTS | HEALTH_SAFETY | BIAS_DISCRIMINATION | CYBERSECURITY
  | DATA_PRIVACY | TRANSPARENCY | ENVIRONMENTAL | RC_OTHER.

Inductive RiskSeverity : Type :=
  | SEV_CRITICAL | SEV_HIGH | SEV_MEDIUM | SEV_LOW | SEV_NEGLIGIBLE.

Inductive RiskLikelihood : Type :=
  | LK_VERY_HIGH | LK_HIGH | LK_MEDIUM | LK_LOW | LK_VERY_LOW.

Inductive RiskStatus : Type :=
  | IDENTIFIED | ASSESSED | MITIGATED | ACCEPTED | TRANSFERRED | AVOIDED.

Definition is_critical (s : RiskSeverity) : bool :=
  match s with SEV_CRITICAL => true | _ => false end.

Definition is_identified (s : RiskStatus) : bool :=
  match s with IDENTIFIED => true | _ => false end.

(** [Risk], without the residual assessment, the owner and the dates,
    which no modelled function sets or reads. *)
Record Risk : Type := {
  risk_id : string;
  risk_title : string;
  risk_description : string;
  category : RiskCategory;
  severity : RiskSeverity;
  likelihood : RiskLikelihood;
  affected_stakeholders : list string;
  mitigation_measures : list string;
  status : RiskStatus
}.

(** [Risk.risk_score] *)
Definition risk_score (self : Risk) : nat :=
  let severity_score :=
    match severity self with
    | SEV_CRITICAL => 5 | SEV_HIGH => 4 | SEV_MEDIUM => 3
    | SEV_LOW => 2 | SEV_NEGLIGIBLE => 1
    end%nat in
  let likelihood_score :=
    match likelihood self with
    | LK_VERY_HIGH => 5 | LK_HIGH => 4 | LK_MEDIUM => 3
    | LK_LOW => 2 | LK_VERY_LOW => 1
    end%nat in
  (severity_score * likelihood_score)%nat.

Record RiskManagementSystem : Type := {
  continuous_process_established : bool;
  risk_register : list Risk;
  risk_assessment_methodology : option string;
  residual_risks_acceptable : bool;
  periodic_review_frequency : option string
}.

(** [RiskManagementSystem.critical_risks_count] *)
Definition critical_risks_count (self : RiskManagementSystem) : nat :=
  List.length (List.filter (fun r => is_critical (severity r)) (risk_register self)).

(** [RiskManagementSystem.unmitigated_risks_count] *)
Definition unmitigated_risks_count (self : RiskManagementSystem) : nat :=
  List.length (List.filter (fun r => is_identified (status r)) (risk_register self)).

(** [RiskManagementSystem.compliant] *)
Definition RiskManagementSystem_compliant (self : RiskManagementSystem) : bool :=
  continuous_process_established self &&
  (0 <? List.length (risk_register self))%nat &&
  (critical_risks_count self =? 0)%nat &&
  residual_risks_acceptable self.

(** ** Article 12 *)

Record LoggingCapability : Type := {
  automatic_logging_enabled : bool;
  logging_library_detected : option string;
  retention_period_months : option Z;
  audit_trail_immutable : bool;
  events_logged : list string;
  log_storage_location : option string;
  log_format : option string;
  access_control_implemented : bool
}.

(** Validation of [retention_period_months: Optional[int] = Field(None, ge=6)]
    on a value that comes untyped out of the metadata. *)
Definition validate_retention `{Host} (v : PyVal) : Result (option Z) :=
  match v with
  | PyNone => Ok None
  | _ =>
      match pydantic_int v with
      | None => Raise (ValidationError ["retention_period_months"])
      | Some n =>
          if (6 <=? n)%Z then Ok (Some n)
          else Raise (ValidationError ["retention_period_months"])
      end
  end.

(** [LoggingCapability.compliant] *)
Definition LoggingCapability_compliant (self : LoggingCapability) : bool :=
  let required_events := ["input_data"; "output_data"; "decisions"; "timestamp"] in
  let has_required_events :=
    forallb (fun e => str_in e (events_logged self)) required_events in
  automatic_logging_enabled self &&
  (6 <=? default 0%Z (retention_period_months self))%Z &&
  audit_trail_immutable self &&
  has_required_events.

(** ** Annex III *)

Inductive AnnexIIICategory : Type :=
  | BIOMETRIC | CRITICAL_INFRASTRUCTURE | EDUCATION | EMPLOYMENT
  | ESSENTIAL_SERVICES | LAW_ENFORCEMENT | MIGRATION_ASYLUM
  | JUSTICE_DEMOCRACY | CAT_NONE.

Definition AnnexIIICategory_value (c : AnnexIIICategory) : string :=
  match c with
  | BIOMETRIC => "biometric_identification_categorization"
  | CRITICAL_INFRASTRUCTURE => "critical_infrastructure"
  | EDUCATION => "education_vocational_training"
  | EMPLOYMENT => "employment_workers_management"
  | ESSENTIAL_SERVICES => "essential_services"
  | LAW_ENFORCEMENT => "law_enforcement"
  | MIGRATION_ASYLUM => "migration_asylum_border"
  | JUSTICE_DEMOCRACY => "justice_democratic_processes"
  | CAT_NONE => "none"
  end.

Definition AnnexIIICategory_eqb (a b : AnnexIIICategory) : bool :=
  String.eqb (AnnexIIICategory_value a) (AnnexIIICategory_value b).

Record HighRiskClassification : Type := {
  is_high_risk : bool;
  annex_iii_categories : list AnnexIIICategory;
  classification_rationale : string;
  keywords_detected : list string;
  additional_requirements : list string;
  notified_body_required : bool
}.

(** ** Annex X-XIII *)

Inductive GPAIModelType : Type :=
  | GPAI_LLM | GPAI_VISION | GPAI_MULTIMODAL | GPAI_EMBEDDING
  | GPAI_CODE_GENERATION | GPAI_OTHER.

Inductive GPAIRole : Type := PROVIDER | DEPLOYER | BOTH.

(** [GPAIModel]; [estimated_flops] is always [None] and is left out. *)
Record GPAIModel : Type := {
  gm_name : string;
  gm_provider : string;
  gm_model_type : GPAIModelType;
  gm_version : option string;
  gm_api_endpoint : option string;
  systemic_risk_threshold : bool
}.

Record GPAICompliance : Type := {
  gpai_models_detected : list GPAIModel;
  user_role : GPAIRole;
  technical_doc_provided : bool;
  transparency_info_users : bool;
  ai_generated_content_disclosed : bool;
  systemic_risk_assessment_required : bool;
  systemic_risk_assessment_performed : bool;
  code_of_practice_compliant : bool;
  upstream_provider_compliance_verified : bool;
  intended_use_documented : bool;
  downstream_risk_assessment : bool
}.

(** [GPAICompliance.compliant_as_deployer] *)
Definition compliant_as_deployer (self : GPAICompliance) : bool :=
  transparency_info_users self &&
  ai_generated_content_disclosed self &&
  upstream_provider_compliance_verified self &&
  intended_use_documented self &&
  downstream_risk_assessment self.

(** ** Articles 16 and 17 *)

Record ProviderObligation : Type := {
  obligation_id : string;
  po_description : string;
  article_reference : string;
  po_compliant : bool;
  evidence : option string
}.

(** [QualityManagementSystem], without the two audit dates. *)
Record QualityManagementSystem : Type := {
  qms_established : bool;
  compliance_management_strategy : bool;
  design_development_control : bool;
  testing_validation_procedures : bool;
  post_market_monitoring_plan : bool;
  change_management_procedure : bool;
  documentation_maintenance : bool;
  corrective_preventive_actions : bool;
  qms_iso_42001_compliant : bool
}.

(** [QualityManagementSystem.compliant] *)
Definition QualityManagementSystem_compliant (self : QualityManagementSystem) : bool :=
  qms_established self &&
  compliance_management_strategy self &&
  design_development_control self &&
  testing_validation_procedures self &&
  post_market_monitoring_plan self &&
  change_management_procedure self.

Record ProviderObligations : Type := {
  obligations : list ProviderObligation;
  qms : option QualityManagementSystem;
  conformity_assessment_completed : bool;
  technical_documentation_maintained : bool;
  po_automatic_logging_enabled : bool;
  instructions_for_use_provided : bool;
  corrective_actions_for_nonconformance : bool
}.

(** [ProviderObligations.compliance_percentage] *)
Definition compliance_percentage (self : ProviderObligations) : Q :=
  if negb (nonempty (obligations self)) then 0
  else
    let compliant_count :=
      List.length (List.filter po_compliant (obligations self)) in
    inject_Z (Z.of_nat compliant_count) /
    inject_Z (Z.of_nat (List.length (obligations self))).

(** ** Article 61 *)

(** [EUDatabaseRegistration], without the fields that are always [None]. *)
Record EUDatabaseRegistration : Type := {
  registration_required : bool;
  registration_completed : bool;
  registration_id : option string;
  reg_system_name : option string
}.

(** [EUDatabaseRegistration.compliant] *)
Definition EUDatabaseRegistration_compliant (self : EUDatabaseRegistration) : bool :=
  if negb (registration_required self) then true
  else registration_completed self && bool_decide (registration_id self <> None).

(** ** Articles 72 and 73 *)

(** [PostMarketMonitoring]; the incident list, which stays empty, is kept
    as its length. *)
Record PostMarketMonitoring : Type := {
  monitoring_plan_established : bool;
  monitoring_frequency : option string;
  incident_reporting_procedure : bool;
  incident_contact_designated : bool;
  incident_contact_email : option string;
  incidents_count : nat;
  serious_incidents_count : Z;
  user_feedback_collection : bool;
  user_feedback_analysis : bool;
  corrective_actions_procedure : bool;
  preventive_actions_procedure : bool
}.

(** [PostMarketMonitoring.compliant] *)
Definition PostMarketMonitoring_compliant (self : PostMarketMonitoring) : bool :=
  monitoring_plan_established self &&
  incident_reporting_procedure self &&
  incident_contact_designated self &&
  corrective_actions_procedure self.

(** ** Article 8 *)

Record Article8Compliance : Type := {
  all_requirements_met : bool;
  conformity_declaration_signed : bool;
  ce_marking_affixed : bool;
  obligations_throughout_lifecycle : bool
}.

(** [Article8Compliance.compliant] *)
Definition Article8Compliance_compliant (self : Article8Compliance) : bool :=
  all_requirements_met self && conformity_declaration_signed self.

(** ** Article 15 *)

Record AccuracyRequirements : Type := {
  metrics_defined : bool;
  performance_metrics : list (string * Q);
  testing_procedures_documented : bool;
  model_evaluation_performed : bool;
  benchmark_datasets_used : list string
}.

(** [AccuracyRequirements.compliant] *)
Definition AccuracyRequirements_compliant (self : AccuracyRequirements) : bool :=
  metrics_defined self &&
  testing_procedures_documented self &&
  model_evaluation_performed self.

Record RobustnessRequirements : Type := {
  error_handling_implemented : bool;
  fallback_mechanisms : bool;
  input_validation : bool;
  adversarial_testing : bool;
  fault_tolerance_measures : list string;
  resilience_testing_performed : bool;
  edge_case_handling : bool
}.

(** [RobustnessRequirements.compliant] *)
Definition RobustnessRequirements_compliant (self : RobustnessRequirements) : bool :=
  error_handling_implemented self &&
  fallback_mechanisms self &&
  input_validation self &&
  (0 <? List.length (fault_tolerance_measures self))%nat.

(** [CybersecurityRequirements], without [last_security_audit], a date
    that is parsed under a handler and only copied to the report. *)
Record CybersecurityRequirements : Type := {
  security_measures_implemented : bool;
  data_encryption : bool;
  access_controls : bool;
  vulnerability_scanning : bool;
  penetration_testing : bool;
  incident_response_plan : bool;
  security_frameworks : list string;
  security_patches_updated : bool;
  authentication_mechanisms : list string
}.

(** [CybersecurityRequirements.compliant] *)
Definition CybersecurityRequirements_compliant (self : CybersecurityRequirements) : bool :=
  security_measures_implemented self &&
  data_encryption self &&
  access_controls self &&
  incident_response_plan self &&
  (0 <? List.length (security_frameworks self))%nat.

(** ** The aggregate *)

(** [AnnexIVRequirements]: the second class of that name in the module,
    which replaces the first. *)
Record AnnexIVRequirements : Type := {
  article_11_compliant : bool;
  article_11_missing_fields : list string;
  article_13_compliant : bool;
  article_14_compliant : bool;
  human_oversight_required : bool;
  article_15_compliant : bool;
  accuracy_metrics_provided : bool;
  article_8 : option Article8Compliance;
  article_9 : option RiskManagementSystem;
  article_9_compliant : bool;
  article_10 : option DataGovernance;
  article_10_compliant : bool;
  article_12 : option LoggingCapability;
  article_12_compliant : bool;
  article_15_accuracy : option AccuracyRequirements;
  article_15_robustness : option RobustnessRequirements;
  article_15_cybersecurity : option CybersecurityRequirements;
  article_16_17 : option ProviderObligations;
  article_16_compliant : bool;
  article_17_compliant : bool;
  annex_iii : option HighRiskClassification;
  gpai : option GPAICompliance;
  gpai_compliant : bool;
  article_61 : option EUDatabaseRegistration;
  article_61_compliant : bool;
  article_72_73 : option PostMarketMonitoring;
  article_72_compliant : bool;
  article_73_compliant : bool;
  iso_42001_compliant : bool;
  management_system_established : bool;
  compliance_score : Q;
  critical_gaps : list string;
  recommendations : list string
}.

(** [AnnexIVRequirements.total_articles_checked] *)
Definition total_articles_checked (self : AnnexIVRequirements) : nat := 13.

(** [sum(bools)] *)
Definition count_true (l : list bool) : nat :=
  List.length (List.filter (fun b => b) l).

(** [AnnexIVRequirements.articles_compliant_count] *)
Definition articles_compliant_count (self : AnnexIVRequirements) : nat :=
  count_true
    [ match article_8 self with
      | Some a => Article8Compliance_compliant a
      | None => false
      end;
      article_9_compliant self;
      article_10_compliant self;
      article_11_compliant self;
      article_12_compliant self;
      article_13_compliant self;
      article_14_compliant self;
      article_15_compliant self;
      article_16_compliant self;
      article_17_compliant self;
      article_61_compliant self;
      article_72_compliant self;
      article_73_compliant self ].

(** Assignments to the three fields that [evaluate_compliance] fills in
    after construction; pydantic does not validate on assignment. *)
Definition set_score_gaps_recs (r : AnnexIVRequirements)
    (score : Q) (gaps recs : list string) : AnnexIVRequirements :=
  {| article_11_compliant := article_11_compliant r;
     article_11_missing_fields := article_11_missing_fields r;
     article_13_compliant := article_13_compliant r;
     article_14_compliant := article_14_compliant r;
     human_oversight_required := human_oversight_required r;
     article_15_compliant := article_15_compliant r;
     accuracy_metrics_provided := accuracy_metrics_provided r;
     article_8 := article_8 r;
     article_9 := article_9 r;
     article_9_compliant := article_9_compliant r;
     article_10 := article_10 r;
     article_10_compliant := article_10_compliant r;
     article_12 := article_12 r;
     article_12_compliant := article_12_compliant r;
     article_15_accuracy := article_15_accuracy r;
     article_15_robustness := article_15_robustness r;
     article_15_cybersecurity := article_15_cybersecurity r;
     article_16_17 := article_16_17 r;
     article_16_compliant := article_16_compliant r;
     article_17_compliant := article_17_compliant r;
     annex_iii := annex_iii r;
     gpai := gpai r;
     gpai_compliant := gpai_compliant r;
     article_61 := article_61 r;
     article_61_compliant := article_61_compliant r;
     article_72_73 := article_72_73 r;
     article_72_compliant := article_72_compliant r;
     article_73_compliant := article_73_compliant r;
     iso_42001_compliant := iso_42001_compliant r;
     management_system_established := management_system_established r;
     compliance_score := score;
     critical_gaps := gaps;
     recommendations := recs |}.

(** [ComplianceResult], without the free-form [compliance_report] and
    the optional [evaluated_by]. *)
Record ComplianceResult : Type := {
  system_id : string;
  compliant : bool;
  risk_level : RiskLevel;
  technical_documentation : option TechnicalDocumentation;
  requirements_check : AnnexIVRequirements;
  evaluated_at : Timestamp;
  ai_bom_id : option string
}.

End Requirements.
Export Requirements.

(* ===================================================================== *)
(** * actproof/compliance/validators.py                                   *)
(* ===================================================================== *)

Module Validators.

(** [if d:] for an optional dictionary. *)
Definition dict_truthy (d : option Dict) : bool :=
  match d with
  | Some (_ :: _) => true
  | _ => false
  end.

(** [if s:] for an optional string. *)
Definition str_truthy (s : option string) : bool :=
  match s with
  | Some (String _ _) => true
  | _ => false
  end.

(** [list(set(xs))]: the distinct elements, in an order that the
    language does not fix. *)
Definition list_of_set (xs : list string) : list string :=
  elements (list_to_set xs : gset string).

(** The fields of a model that failed validation. *)
Definition failed {A : Type} (field : string) (r : option A) : list string :=
  match r with
  | None => [field]
  | Some _ => []
  end.

(** ** Article 10: [DataGovernanceValidator] *)

Definition _check_data_relevance (datasets : list DatasetComponent) : bool :=
  if negb (nonempty datasets) then false
  else
    existsb (fun ds =>
               match ds_metadata ds with
               | Some ((_ :: _) as m) => dict_has "purpose" m || dict_has "relevance" m
               | _ => false
               end) datasets.

Definition _check_representativeness (datasets : list DatasetComponent) : bool :=
  if negb (nonempty datasets) then false
  else
    existsb (fun ds =>
               match ds_metadata ds with
               | Some ((_ :: _) as m) =>
                   dict_has "representativeness" m || dict_has "demographics" m
               | _ => false
               end) datasets.

Definition _check_gdpr_compliance (datasets : list DatasetComponent) : bool :=
  if negb (nonempty datasets) then true
  else forallb (fun ds => bool_decide (ds_gdpr_compliant ds <> None)) datasets.

(** The score of one dataset in [_assess_data_quality]. *)
Definition dataset_quality (ds : DatasetComponent) : Q :=
  (if match ds_size ds with Some n => negb (Z.eqb n 0) | None => false end
   then 25 # 100 else 0) +
  (if str_truthy (ds_source_location ds) then 25 # 100 else 0) +
  (if match ds_license ds with Some _ => true | None => false end
   then 25 # 100 else 0) +
  (if dict_truthy (ds_metadata ds) then 25 # 100 else 0).

Definition _assess_data_quality (datasets : list DatasetComponent)
    : option DataQualityMetrics :=
  if negb (nonempty datasets) then None
  else
    let total_score := fold_left (fun t ds => t + dataset_quality ds) datasets 0 in
    let count := List.length datasets in
    let overall := if (0 <? count)%nat
                   then total_score / inject_Z (Z.of_nat count) else 0 in
    let estimate := if qlt (5 # 10) overall then 8 # 10 else 5 # 10 in
    Some {| completeness := Some overall;
            consistency := Some estimate;
            accuracy := Some estimate;
            timeliness := Some (7 # 10);
            overall_score := Some overall |}.

(** The loop of [_assess_bias]: the flag and the values appended so far;
    [extend] raises [TypeError] on a value that is not iterable. *)
Fixpoint bias_scan (datasets : list DatasetComponent) (detected : bool)
    (cats : list PyVal) `{Host} : Result (bool * list PyVal) :=
  match datasets with
  | [] => Ok (detected, cats)
  | ds :: rest =>
      match ds_metadata ds with
      | Some ((_ :: _) as m) =>
          let detected' := if dict_has "bias" m then true else detected in
          match dict_get "bias_categories" m with
          | Some v =>
              match py_iter v with
              | Some items => bias_scan rest detected' (cats ++ items)
              | None => Raise (TypeError "extend")
              end
          | None => bias_scan rest detected' cats
          end
      | _ => bias_scan rest detected cats
      end
  end.

(** pydantic validation of a list built in Python against [List[str]]. *)
Fixpoint validate_str_items `{Host} (items : list PyVal) : option (list string) :=
  match items with
  | [] => Some []
  | v :: rest =>
      match pydantic_str v, validate_str_items rest with
      | Some s, Some r => Some (s :: r)
      | _, _ => None
      end
  end.

Definition _assess_bias `{Host} (datasets : list DatasetComponent)
    : Result (option BiasAssessment) :=
  if negb (nonempty datasets) then Ok None
  else
    let* found := bias_scan datasets false [] in
    match validate_str_items (snd found) with
    | Some cats =>
        Ok (Some {| bias_detected := fst found;
                    bias_categories := cats;
                    bias_mitigation_measures := [] |})
    | None => Raise (ValidationError ["bias_categories"])
    end.

(** [m.get(key, [])] validated against [List[str]]. *)
Definition get_str_list `{Host} (key : string) (m : option Dict)
    : option (list string) :=
  match m with
  | Some ((_ :: _) as d) =>
      match dict_get key d with
      | Some v => pydantic_list_str v
      | None => Some []
      end
  | _ => Some []
  end.

(** [m.get(key)] validated against [Optional[str]]. *)
Definition get_opt_str `{Host} (key : string) (m : option Dict)
    : option (option string) :=
  match m with
  | Some ((_ :: _) as d) =>
      match dict_get key d with
      | Some PyNone | None => Some None
      | Some v => option_map Some (pydantic_str v)
      end
  | _ => Some None
  end.

Definition _extract_data_lineage `{Host} (datasets : list DatasetComponent)
    : Result (option DataLineage) :=
  match datasets with
  | [] => Ok None
  | ds :: _ =>
      let cm := get_opt_str "collection_method" (ds_metadata ds) in
      let ps := get_str_list "processing_steps" (ds_metadata ds) in
      let tr := get_str_list "transformations" (ds_metadata ds) in
      let ow := get_str_list "data_owners" (ds_metadata ds) in
      match cm, ps, tr, ow with
      | Some cm', Some ps', Some tr', Some ow' =>
          Ok (Some {| source := ds_source_location ds;
                      collection_method := cm';
                      processing_steps := ps';
                      transformations := tr';
                      data_owners := ow' |})
      | _, _, _, _ =>
          Raise (ValidationError
                   (failed "collection_method" cm ++ failed "processing_steps" ps ++
                    failed "transformations" tr ++ failed "data_owners" ow))
      end
  end.

(** [_extract_governance_policies]: the metadata entry, still untyped, or
    [None] for the empty list the function starts from. *)
Definition _extract_governance_policies (ai_bom : AIBOM) : option PyVal :=
  dict_get "data_governance_policies" (metadata ai_bom).

Definition DataGovernanceValidator_validate `{Host}
    (ai_bom : AIBOM) (codebase_path : option Path) : Result DataGovernance :=
  let documented := (0 <? List.length (datasets ai_bom))%nat in
  let relevance := _check_data_relevance (datasets ai_bom) in
  let representativeness := _check_representativeness (datasets ai_bom) in
  let gdpr := _check_gdpr_compliance (datasets ai_bom) in
  let quality := _assess_data_quality (datasets ai_bom) in
  let* bias := _assess_bias (datasets ai_bom) in
  let* lineage := _extract_data_lineage (datasets ai_bom) in
  match match _extract_governance_policies ai_bom with
        | Some v => pydantic_list_str v
        | None => Some []
        end with
  | Some policies =>
      Ok {| datasets_documented := documented;
            data_quality_metrics := quality;
            bias_assessment := bias;
            data_lineage := lineage;
            data_relevance_documented := relevance;
            representativeness_assessed := representativeness;
            gdpr_compliance_verified := gdpr;
            data_governance_policies := policies |}
  | None => Raise (ValidationError ["data_governance_policies"])
  end.

(** ** Article 9: [RiskManagementValidator] *)

(** [COMMON_RISKS[model_type]]; the dictionary also has an entry under
    [recruitment], which is not the value of any [ModelType]. *)
Definition COMMON_RISKS (model_type : string)
    : option (list (string * RiskCategory * RiskSeverity * RiskLikelihood)) :=
  if String.eqb model_type "llm" then
    Some [ ("Bias and discrimination in generated content",
            BIAS_DISCRIMINATION, SEV_HIGH, LK_MEDIUM);
           ("Generation of harmful or illegal content",
            FUNDAMENTAL_RIGHTS, SEV_CRITICAL, LK_MEDIUM);
           ("Privacy violation through training data leakage",
            DATA_PRIVACY, SEV_HIGH, LK_LOW);
           ("Lack of transparency in decision-making",
            TRANSPARENCY, SEV_MEDIUM, LK_HIGH) ]
  else if String.eqb model_type "vision" then
    Some [ ("Biased face recognition across demographics",
            BIAS_DISCRIMINATION, SEV_HIGH, LK_HIGH);
           ("Privacy violation through unauthorized surveillance",
            FUNDAMENTAL_RIGHTS, SEV_CRITICAL, LK_MEDIUM);
           ("Inaccurate predictions leading to wrong decisions",
            HEALTH_SAFETY, SEV_HIGH, LK_MEDIUM) ]
  else if String.eqb model_type "recruitment" then
    Some [ ("Discriminatory candidate filtering",
            BIAS_DISCRIMINATION, SEV_CRITICAL, LK_HIGH);
           ("Lack of transparency in hiring decisions",
            TRANSPARENCY, SEV_HIGH, LK_HIGH);
           ("Violation of equal opportunity rights",
            FUNDAMENTAL_RIGHTS, SEV_CRITICAL, LK_MEDIUM) ]
  else None.

Definition _check_continuous_process (ai_bom : AIBOM) : bool :=
  dict_has "risk_management_process" (metadata ai_bom).

(** The risks of one model: [enumerate] over its catalogue entry. *)
Fixpoint common_risks_from (model_type : string) (i : nat)
    (entries : list (string * RiskCategory * RiskSeverity * RiskLikelihood))
    : list Risk :=
  match entries with
  | [] => []
  | (desc, cat, sev, lik) :: rest =>
      {| risk_id := "RISK-" ++ upper model_type ++ "-" ++ fmt_0d 3 (i + 1);
         risk_title := join " " (take_upto 5 (split_ws desc));
         risk_description := desc;
         category := cat;
         severity := sev;
         likelihood := lik;
         affected_stakeholders := ["End users"; "Data subjects"];
         mitigation_measures := [];
         status := IDENTIFIED |}
      :: common_risks_from model_type (S i) rest
  end.

Definition _get_category_specific_risks (cat : AnnexIIICategory) : list Risk :=
  match cat with
  | EMPLOYMENT =>
      [ {| risk_id := "RISK-EMP-001";
           risk_title := "Discriminatory hiring decisions";
           risk_description :=
             "AI system may perpetuate bias in recruitment and hiring processes";
           category := BIAS_DISCRIMINATION;
           severity := SEV_CRITICAL;
           likelihood := LK_HIGH;
           affected_stakeholders := ["Job candidates"; "Employees"];
           mitigation_measures :=
             [ "Implement bias detection and mitigation";
               "Regular fairness audits";
               "Human oversight of all hiring decisions" ];
           status := IDENTIFIED |} ]
  | BIOMETRIC =>
      [ {| risk_id := "RISK-BIO-001";
           risk_title := "Privacy violation through biometric data";
           risk_description :=
             "Unauthorized collection or processing of biometric data";
           category := FUNDAMENTAL_RIGHTS;
           severity := SEV_CRITICAL;
           likelihood := LK_MEDIUM;
           affected_stakeholders := ["Data subjects"; "Public"];
           mitigation_measures :=
             [ "Explicit consent collection";
               "Secure biometric data storage";
               "Compliance with GDPR Article 9" ];
           status := IDENTIFIED |} ]
  | _ => []
  end.

Definition _generate_risk_register (ai_bom : AIBOM) (level : RiskLevel)
    (annex_iii_category : option AnnexIIICategory) : list Risk :=
  let from_models :=
    List.concat
      (List.map (fun model =>
                   let model_type := ModelType_value (mc_model_type model) in
                   match COMMON_RISKS model_type with
                   | Some entries => common_risks_from model_type 0 entries
                   | None => []
                   end) (models ai_bom)) in
  let with_category :=
    match annex_iii_category with
    | Some cat =>
        if negb (AnnexIIICategory_eqb cat CAT_NONE)
        then from_models ++ _get_category_specific_risks cat
        else from_models
    | None => from_models
    end in
  if RiskLevel_eqb level HIGH && (List.length with_category =? 0)%nat
  then with_category ++
       [ {| risk_id := "RISK-GENERIC-001";
            risk_title := "Insufficient risk assessment";
            risk_description :=
              "No specific risks identified for high-risk AI system";
            category := RC_OTHER;
            severity := SEV_HIGH;
            likelihood := LK_HIGH;
            affected_stakeholders := ["All stakeholders"];
            mitigation_measures := ["Perform comprehensive risk assessment"];
            status := IDENTIFIED |} ]
  else with_category.

Definition _check_residual_risks (register : list Risk) : bool :=
  let critical_unmitigated :=
    List.filter (fun r => is_critical (severity r) && is_identified (status r))
                register in
  (List.length critical_unmitigated =? 0)%nat.

Definition RiskManagementValidator_validate (ai_bom : AIBOM) (level : RiskLevel)
    (annex_iii_category : option AnnexIIICategory) : RiskManagementSystem :=
  let continuous := _check_continuous_process ai_bom in
  let register := _generate_risk_register ai_bom level annex_iii_category in
  let residual := _check_residual_risks register in
  {| continuous_process_established := continuous;
     risk_register := register;
     risk_assessment_methodology :=
       if nonempty register then Some "AI-assisted risk identification" else None;
     residual_risks_acceptable := residual;
     periodic_review_frequency :=
       if RiskLevel_eqb level HIGH then Some "Quarterly" else Some "Annually" |}.

(** ** Article 12: [LoggingValidator] *)

Definition LOGGING_LIBRARIES : list (string * list string) :=
  [ ("python", ["logging"; "structlog"; "loguru"; "logbook"; "eliot"]);
    ("javascript", ["winston"; "bunyan"; "pino"; "log4js"; "morgan"]) ].

Definition _detect_logging_library (ai_bom : AIBOM) : option string :=
  let all_deps := List.map (fun dep => lower (dep_name dep)) (dependencies ai_bom) in
  List.find (fun lib => str_in lib all_deps)
            (List.concat (List.map snd LOGGING_LIBRARIES)).

Definition _detect_retention_period (ai_bom : AIBOM) : PyVal :=
  match dict_get "log_retention_months" (metadata ai_bom) with
  | Some v => v
  | None => PyNone
  end.

Definition _detect_logged_events (ai_bom : AIBOM) : list string :=
  if nonempty (dependencies ai_bom) then
    let has_logging :=
      existsb (fun dep =>
                 str_in (lower (dep_name dep))
                        ["logging"; "winston"; "log4js"; "structlog"; "loguru"])
              (dependencies ai_bom) in
    if has_logging then ["timestamp"; "log_level"; "message"] else []
  else [].

Definition _check_audit_trail (ai_bom : AIBOM) : bool :=
  let audit_libs := ["audit-log"; "immutable-log"; "blockchain-logger"] in
  existsb (fun dep => str_in (lower (dep_name dep)) audit_libs)
          (dependencies ai_bom).

Definition LoggingValidator_validate `{Host}
    (ai_bom : AIBOM) (codebase_path : option Path) : Result LoggingCapability :=
  let logging_library := _detect_logging_library ai_bom in
  let automatic := bool_decide (logging_library <> None) in
  let events := _detect_logged_events ai_bom in
  let immutable := _check_audit_trail ai_bom in
  let* retention := validate_retention (_detect_retention_period ai_bom) in
  Ok {| automatic_logging_enabled := automatic;
        logging_library_detected := logging_library;
        retention_period_months := retention;
        audit_trail_immutable := immutable;
        events_logged := events;
        log_storage_location := None;
        log_format :=
          match logging_library with
          | Some lib =>
              if str_in lib ["winston"; "pino"; "structlog"]
              then Some "JSON" else Some "Text"
          | None => Some "Text"
          end;
        access_control_implemented := false |}.

(** ** Annex III: [HighRiskClassifier] *)

Definition CATEGORY_KEYWORDS : list (AnnexIIICategory * list string) :=
  [ (BIOMETRIC,
     [ "biometric"; "face recognition"; "facial recognition"; "fingerprint";
       "iris recognition"; "voice recognition"; "gait recognition";
       "emotion recognition" ]);
    (CRITICAL_INFRASTRUCTURE,
     [ "infrastructure"; "water supply"; "gas supply"; "electricity"; "heating";
       "critical infrastructure"; "utility management"; "power grid" ]);
    (EDUCATION,
     [ "education"; "school"; "university"; "student"; "exam"; "grading";
       "educational"; "learning management"; "assessment"; "admission" ]);
    (EMPLOYMENT,
     [ "recruitment"; "hiring"; "hr"; "human resources"; "employee"; "job";
       "resume"; "cv"; "candidate"; "interview"; "performance evaluation";
       "workforce management"; "talent acquisition" ]);
    (ESSENTIAL_SERVICES,
     [ "credit"; "loan"; "creditworthiness"; "credit scoring"; "healthcare";
       "medical"; "diagnosis"; "treatment"; "emergency services"; "benefit";
       "social security"; "welfare" ]);
    (LAW_ENFORCEMENT,
     [ "law enforcement"; "police"; "criminal"; "crime"; "investigation";
       "surveillance"; "suspect"; "evidence"; "forensic" ]);
    (MIGRATION_ASYLUM,
     [ "migration"; "asylum"; "refugee"; "border control"; "visa";
       "immigration"; "deportation"; "travel document" ]);
    (JUSTICE_DEMOCRACY,
     [ "justice"; "court"; "judge"; "legal"; "judiciary"; "democratic";
       "election"; "voting"; "democracy"; "legal decision" ]) ].

Definition category_in (c : AnnexIIICategory) (l : list AnnexIIICategory) : bool :=
  existsb (AnnexIIICategory_eqb c) l.

Definition _generate_rationale (categories : list AnnexIIICategory)
    (keywords : list string) : string :=
  if negb (nonempty categories)
  then "System does not fall under Annex III high-risk categories."
  else
    let cat_names :=
      List.map (fun cat => title (replace_char "_" " " (AnnexIIICategory_value cat)))
               categories in
    "System classified as HIGH-RISK under Annex III categories: " ++
    join ", " cat_names ++ ". " ++
    "Keywords detected: " ++ join ", " (take_upto 5 keywords) ++ ". " ++
    "This classification requires compliance with all high-risk AI system requirements.".

Definition _get_additional_requirements (categories : list AnnexIIICategory)
    : list string :=
  (if category_in EMPLOYMENT categories
   then [ "Article 26: Obligations for employers deploying AI systems";
          "GDPR Article 22: Right to human review of automated decisions";
          "Transparency requirements for candidates/employees" ]
   else []) ++
  (if category_in BIOMETRIC categories
   then [ "GDPR Article 9: Special category data processing";
          "Explicit consent required";
          "Enhanced security measures for biometric data" ]
   else []) ++
  (if category_in ESSENTIAL_SERVICES categories
   then [ "Enhanced transparency to affected persons";
          "Right to explanation of decisions";
          "Periodic validation of accuracy" ]
   else []).

(** The text that [classify] searches. *)
Definition combined_text `{Host} (ai_bom : AIBOM) : string :=
  let text_to_analyze :=
    [ lower (name ai_bom);
      match repository_url ai_bom with
      | Some (String _ _ as u) => lower u
      | _ => EmptyString
      end ] ++
    List.concat
      (List.map (fun model =>
                   match mc_usage_context model with
                   | Some (String _ _ as c) => [lower c]
                   | _ => []
                   end) (models ai_bom)) ++
    (if nonempty (metadata ai_bom)
     then [lower (py_str_dict (metadata ai_bom))] else []) in
  join " " text_to_analyze.

(** The two nested loops of [classify], one category at a time. *)
Definition scan_categories (text : string)
    : list AnnexIIICategory * list string :=
  fold_left
    (fun acc entry =>
       let '(detected, found) := acc in
       let '(cat, keywords) := entry in
       let hits := List.filter (fun k => contains k text) keywords in
       (if nonempty hits && negb (category_in cat detected)
        then detected ++ [cat] else detected,
        found ++ hits))
    CATEGORY_KEYWORDS ([], []).

Definition HighRiskClassifier_classify `{Host}
    (ai_bom : AIBOM) (codebase_path : option Path) : HighRiskClassification :=
  let '(detected_categories, keywords) := scan_categories (combined_text ai_bom) in
  {| is_high_risk := (0 <? List.length detected_categories)%nat;
     annex_iii_categories := detected_categories;
     classification_rationale := _generate_rationale detected_categories keywords;
     keywords_detected := keywords;
     additional_requirements := _get_additional_requirements detected_categories;
     notified_body_required := category_in BIOMETRIC detected_categories |}.

(** ** Annex X-XIII: [GPAIValidator] *)

Definition GPAI_PROVIDERS : list (string * list string) :=
  [ ("openai", ["gpt-3.5"; "gpt-4"; "gpt-4-turbo"; "text-embedding"; "dall-e"]);
    ("anthropic", ["claude-3"; "claude-2"; "claude-instant"]);
    ("google", ["gemini"; "palm"; "bard"]);
    ("meta", ["llama"; "llama-2"; "llama-3"]);
    ("mistral", ["mistral"; "mixtral"]);
    ("cohere", ["command"; "embed"]) ].

(** The loop over [GPAI_PROVIDERS] for one model.  A match on the provider
    string leaves the loop; a match on a name pattern leaves only the inner
    loop, so a later provider can replace the one found. *)
Fixpoint detect_provider (providers : list (string * list string))
    (provider : option string) (model_name : string)
    (detected : option string) : option string :=
  match providers with
  | [] => detected
  | (prov, patterns) :: rest =>
      if match provider with
         | Some (String _ _ as p) => contains prov (lower p)
         | _ => false
         end
      then Some prov
      else if any_in patterns model_name
           then detect_provider rest provider model_name (Some prov)
           else detect_provider rest provider model_name detected
  end.

Definition _determine_gpai_type (model_name : string) : GPAIModelType :=
  if any_in ["gpt"; "claude"; "llama"; "palm"; "gemini"; "command"] model_name
  then GPAI_LLM
  else if any_in ["dall-e"; "stable-diffusion"; "midjourney"] model_name
  then GPAI_VISION
  else if any_in ["whisper"; "audio"] model_name
  then GPAI_VISION
  else if any_in ["embed"; "embedding"] model_name
  then GPAI_EMBEDDING
  else if contains "codex" model_name || contains "code" model_name
  then GPAI_CODE_GENERATION
  else GPAI_OTHER.

Definition _estimate_systemic_risk (model_name : string) (provider : string) : bool :=
  any_in ["gpt-4"; "claude-3-opus"; "gemini-ultra"; "llama-3-405b"] model_name.

Definition _detect_gpai_models (ai_bom : AIBOM) : list GPAIModel :=
  List.concat
    (List.map
       (fun model =>
          let model_name := lower (mc_name model) in
          match detect_provider GPAI_PROVIDERS (mc_provider model) model_name None with
          | Some detected_provider =>
              [ {| gm_name := mc_name model;
                   gm_provider := detected_provider;
                   gm_model_type := _determine_gpai_type model_name;
                   gm_version := mc_version model;
                   gm_api_endpoint := mc_api_endpoint model;
                   systemic_risk_threshold :=
                     _estimate_systemic_risk model_name detected_provider |} ]
          | None => []
          end)
       (models ai_bom)).

Definition GPAIValidator_validate (ai_bom : AIBOM) : GPAICompliance :=
  let gpai_models := _detect_gpai_models ai_bom in
  {| gpai_models_detected := gpai_models;
     user_role := if nonempty gpai_models then DEPLOYER else PROVIDER;
     technical_doc_provided := false;
     transparency_info_users := false;
     ai_generated_content_disclosed := false;
     systemic_risk_assessment_required :=
       existsb systemic_risk_threshold gpai_models;
     systemic_risk_assessment_performed := false;
     code_of_practice_compliant := false;
     upstream_provider_compliance_verified := false;
     intended_use_documented := false;
     downstream_risk_assessment := false |}.

(** ** Articles 16-17: [ProviderObligationsValidator] *)

Definition ARTICLE_16_OBLIGATIONS : list (string * string) :=
  [ ("Art. 16(a)", "Conformity assessment completed");
    ("Art. 16(b)", "Technical documentation maintained and updated");
    ("Art. 16(c)", "Automatic logging enabled for high-risk AI systems");
    ("Art. 16(d)", "Instructions for use provided to deployers");
    ("Art. 16(e)", "Corrective actions taken for non-conformance");
    ("Art. 16(f)", "Cooperation with authorities");
    ("Art. 16(g)", "CE marking affixed to high-risk AI system");
    ("Art. 16(h)", "Registration in EU database (if high-risk)") ].

Fixpoint obligations_from (i : nat) (entries : list (string * string))
    : list ProviderObligation :=
  match entries with
  | [] => []
  | (ref, desc) :: rest =>
      {| obligation_id := "OBL-" ++ fmt_0d 2 (i + 1);
         po_description := desc;
         article_reference := ref;
         po_compliant := false;
         evidence := None |}
      :: obligations_from (S i) rest
  end.

Definition ProviderObligationsValidator_validate
    (ai_bom : AIBOM) (level : RiskLevel) : ProviderObligations :=
  let obligations := obligations_from 0 ARTICLE_16_OBLIGATIONS in
  let qms :=
    {| qms_established := false;
       compliance_management_strategy := false;
       design_development_control := false;
       testing_validation_procedures := false;
       post_market_monitoring_plan := false;
       change_management_procedure := false;
       documentation_maintenance := false;
       corrective_preventive_actions := false;
       qms_iso_42001_compliant := false |} in
  {| Requirements.obligations := obligations;
     Requirements.qms := Some qms;
     conformity_assessment_completed := false;
     technical_documentation_maintained := false;
     po_automatic_logging_enabled := false;
     instructions_for_use_provided := false;
     corrective_actions_for_nonconformance := false |}.

(** ** Article 61: [EUDatabaseValidator] *)

Definition EUDatabaseValidator_validate (level : RiskLevel) (system_name : string)
    : EUDatabaseRegistration :=
  {| registration_required := RiskLevel_eqb level HIGH;
     registration_completed := false;
     registration_id := None;
     reg_system_name := Some system_name |}.

(** ** Articles 72-73: [PostMarketMonitoringValidator] *)

Definition PostMarketMonitoringValidator_validate (level : RiskLevel)
    : PostMarketMonitoring :=
  let monitoring_required := RiskLevel_eqb level HIGH in
  {| monitoring_plan_established := false;
     monitoring_frequency :=
       if monitoring_required then Some "Monthly" else Some "Quarterly";
     incident_reporting_procedure := false;
     incident_contact_designated := false;
     incident_contact_email := None;
     incidents_count := 0%nat;
     serious_incidents_count := 0%Z;
     user_feedback_collection := false;
     user_feedback_analysis := false;
     corrective_actions_procedure := false;
     preventive_actions_procedure := false |}.

(** ** Article 8: [Article8Validator] *)

Definition Article8Validator_validate : Article8Compliance :=
  {| all_requirements_met := false;
     conformity_declaration_signed := false;
     ce_marking_affixed := false;
     obligations_throughout_lifecycle := false |}.

(** ** Article 15: the three validators *)

(** [any(lib in (dep.name or "").lower() for lib in libs)] for some [dep]. *)
Definition some_dep_mentions (libs : list string) (ai_bom : AIBOM) : bool :=
  existsb (fun dep => any_in libs (lower (dep_name dep))) (dependencies ai_bom).

Definition TESTING_FRAMEWORKS : list (string * list string) :=
  [ ("python", [ "pytest"; "unittest"; "nose"; "hypothesis"; "sklearn.metrics";
                 "tensorflow.keras.metrics" ]);
    ("javascript", ["jest"; "mocha"; "chai"; "jasmine"]) ].

Definition BENCHMARK_DATASETS : list string :=
  [ "MNIST"; "CIFAR"; "ImageNet"; "COCO"; "GLUE"; "SuperGLUE";
    "SQuAD"; "CoNLL"; "IMDB"; "WikiText"; "Common Crawl" ].

Definition _detect_testing_frameworks (ai_bom : AIBOM) : bool :=
  existsb (fun dep =>
             existsb (fun entry => any_in (snd entry) (lower (dep_name dep)))
                     TESTING_FRAMEWORKS)
          (dependencies ai_bom).

(** The loop of [_extract_performance_metrics] over [metadata.items()];
    [float] may raise [OverflowError], which the handler does not catch. *)
Fixpoint _extract_performance_metrics `{Host} (items : Dict)
    : Result (list (string * Q)) :=
  match items with
  | [] => Ok []
  | (key, value) :: rest =>
      let metric_keywords :=
        ["accuracy"; "precision"; "recall"; "f1"; "auc"; "roc"; "mse"; "mae"; "rmse"] in
      if any_in metric_keywords (lower key) then
        match py_float value with
        | FloatOk q =>
            let* more := _extract_performance_metrics rest in Ok ((key, q) :: more)
        | FloatCaught => _extract_performance_metrics rest
        | FloatOverflow => Raise (OverflowError "float")
        end
      else _extract_performance_metrics rest
  end.

Definition _detect_benchmark_datasets (ai_bom : AIBOM) : list string :=
  let benchmarks :=
    List.concat
      (List.map (fun dataset =>
                   let dataset_name := upper (ds_name dataset) in
                   List.filter (fun benchmark => contains benchmark dataset_name)
                               BENCHMARK_DATASETS)
                (datasets ai_bom)) in
  list_of_set benchmarks.

Definition _check_testing_documentation `{Host} (codebase_path : option Path) : bool :=
  match codebase_path with
  | None => false
  | Some root =>
      if negb (path_exists root) then false
      else
        let doc_patterns :=
          ["test*.md"; "TEST*.md"; "testing*.md"; "TESTING*.md"; "eval*.md"; "EVAL*.md"] in
        if existsb (fun pattern => nonempty (path_rglob root pattern)) doc_patterns
        then true
        else
          let readme_files := path_glob root "README*.md" ++ path_glob root "readme*.md" in
          existsb (fun readme =>
                     match path_read_text readme with
                     | Some text =>
                         let content := lower text in
                         contains "test" content || contains "eval" content ||
                         contains "accuracy" content
                     | None => false
                     end) readme_files
  end.

Definition Article15AccuracyValidator_validate `{Host}
    (ai_bom : AIBOM) (codebase_path : option Path) : Result AccuracyRequirements :=
  let testing_detected := _detect_testing_frameworks ai_bom in
  let* metrics := _extract_performance_metrics (metadata ai_bom) in
  let benchmarks_used := _detect_benchmark_datasets ai_bom in
  let defined := (0 <? List.length metrics)%nat || testing_detected in
  let documented := _check_testing_documentation codebase_path in
  let evaluated := testing_detected && (0 <? List.length metrics)%nat in
  Ok {| metrics_defined := defined;
        performance_metrics := metrics;
        testing_procedures_documented := documented;
        model_evaluation_performed := evaluated;
        benchmark_datasets_used := benchmarks_used |}.

Definition ERROR_HANDLING_KEYWORDS : list string :=
  ["try"; "except"; "catch"; "error"; "exception"; "fallback"; "retry"].

Definition FAULT_TOLERANCE_LIBS : list (string * list string) :=
  [ ("python", ["tenacity"; "backoff"; "retry"; "circuit-breaker"; "resilience4j"]);
    ("javascript", ["retry"; "async-retry"; "p-retry"; "opossum"]) ].

Definition _detect_error_handling (ai_bom : AIBOM) : bool :=
  some_dep_mentions ERROR_HANDLING_KEYWORDS ai_bom.

Definition _detect_fault_tolerance (ai_bom : AIBOM) : list string :=
  let measures :=
    List.concat
      (List.map
         (fun dep =>
            let dep_name := lower (dep_name dep) in
            List.concat
              (List.map
                 (fun entry : string * list string =>
                    let '(lang, libs) := entry in
                    List.map (fun lib : string => (lib ++ " (" ++ lang ++ ")")%string)
                             (List.filter (fun lib => contains lib dep_name) libs))
                 FAULT_TOLERANCE_LIBS))
         (dependencies ai_bom)) in
  list_of_set measures.

Definition _detect_input_validation (ai_bom : AIBOM) : bool :=
  some_dep_mentions
    ["pydantic"; "marshmallow"; "cerberus"; "voluptuous"; "joi"; "ajv"; "yup"] ai_bom.

Definition _detect_adversarial_testing (ai_bom : AIBOM) : bool :=
  some_dep_mentions
    ["cleverhans"; "foolbox"; "adversarial-robustness-toolbox"; "art"] ai_bom.

Definition _detect_resilience_testing (ai_bom : AIBOM) : bool :=
  some_dep_mentions
    ["chaos"; "toxiproxy"; "gremlin"; "simian-army"; "pytest-stress"] ai_bom.

Definition Article15RobustnessValidator_validate
    (ai_bom : AIBOM) (codebase_path : option Path) : RobustnessRequirements :=
  let error_handling := _detect_error_handling ai_bom in
  let measures := _detect_fault_tolerance ai_bom in
  let fallback := (0 <? List.length measures)%nat in
  let validation := _detect_input_validation ai_bom in
  let adversarial := _detect_adversarial_testing ai_bom in
  let resilience := _detect_resilience_testing ai_bom in
  {| error_handling_implemented := error_handling;
     fallback_mechanisms := fallback;
     input_validation := validation;
     adversarial_testing := adversarial;
     fault_tolerance_measures := measures;
     resilience_testing_performed := resilience;
     edge_case_handling := resilience || adversarial |}.

Definition SECURITY_FRAMEWORKS : list string :=
  ["ISO 27001"; "NIST CSF"; "SOC2"; "PCI-DSS"; "GDPR"; "HIPAA"].

Definition ENCRYPTION_LIBS : list (string * list string) :=
  [ ("python", ["cryptography"; "pycryptodome"; "nacl"; "hashlib"]);
    ("javascript", ["crypto"; "bcrypt"; "crypto-js"; "node-forge"]) ].

Definition AUTH_LIBS : list (string * list string) :=
  [ ("python", ["flask-login"; "django-auth"; "authlib"; "oauthlib"; "pyjwt"]);
    ("javascript", ["passport"; "jsonwebtoken"; "oauth"; "auth0"]) ].

Definition SECURITY_SCANNING_LIBS : list (string * list string) :=
  [ ("python", ["bandit"; "safety"; "snyk"; "semgrep"]);
    ("javascript", ["eslint-plugin-security"; "npm-audit"; "snyk"]) ].

(** The shape shared by [_detect_encryption], [_detect_access_controls]
    and [_detect_vulnerability_scanning]. *)
Definition some_dep_in_table (table : list (string * list string))
    (ai_bom : AIBOM) : bool :=
  existsb (fun dep =>
             existsb (fun entry => any_in (snd entry) (lower (dep_name dep))) table)
          (dependencies ai_bom).

Definition _detect_encryption := some_dep_in_table ENCRYPTION_LIBS.
Definition _detect_access_controls := some_dep_in_table AUTH_LIBS.
Definition _detect_vulnerability_scanning := some_dep_in_table SECURITY_SCANNING_LIBS.

Definition _detect_pentesting_tools (ai_bom : AIBOM) : bool :=
  some_dep_mentions ["metasploit"; "burp"; "zap"; "nmap"; "nessus"; "w3af"] ai_bom.

Definition _check_incident_response_docs `{Host} (codebase_path : option Path) : bool :=
  match codebase_path with
  | None => false
  | Some root =>
      if negb (path_exists root) then false
      else
        existsb (fun pattern => nonempty (path_rglob root pattern))
                ["SECURITY*.md"; "security*.md"; "incident*.md"; "INCIDENT*.md"]
  end.

(** [s.replace(" ", "")] *)
Fixpoint remove_spaces (s : string) : string :=
  match s with
  | EmptyString => EmptyString
  | String c r =>
      if Ascii.eqb c " " then remove_spaces r else String c (remove_spaces r)
  end.

Definition _detect_security_frameworks `{Host}
    (ai_bom : AIBOM) (codebase_path : option Path) : list string :=
  if nonempty (metadata ai_bom) then
    let metadata_str := upper (py_str_dict (metadata ai_bom)) in
    List.filter (fun framework =>
                   contains (upper (remove_spaces framework))
                            (remove_spaces metadata_str))
                SECURITY_FRAMEWORKS
  else [].

Definition _check_security_patches (ai_bom : AIBOM) : bool :=
  _detect_vulnerability_scanning ai_bom.

Definition auth_keywords : list (string * string) :=
  [ ("jwt", "JWT"); ("oauth", "OAuth"); ("saml", "SAML");
    ("mfa", "Multi-Factor Auth"); ("2fa", "Two-Factor Auth");
    ("ldap", "LDAP"); ("kerberos", "Kerberos") ].

Definition _detect_auth_mechanisms (ai_bom : AIBOM) : list string :=
  let mechanisms :=
    List.concat
      (List.map
         (fun dep =>
            List.map snd
              (List.filter (fun entry => contains (fst entry) (lower (dep_name dep)))
                           auth_keywords))
         (dependencies ai_bom)) in
  list_of_set mechanisms.

Definition Article15CybersecurityValidator_validate `{Host}
    (ai_bom : AIBOM) (codebase_path : option Path) : CybersecurityRequirements :=
  let encryption := _detect_encryption ai_bom in
  let access := _detect_access_controls ai_bom in
  let scanning := _detect_vulnerability_scanning ai_bom in
  let pentest := _detect_pentesting_tools ai_bom in
  let response_plan := _check_incident_response_docs codebase_path in
  let frameworks := _detect_security_frameworks ai_bom codebase_path in
  let patches := _check_security_patches ai_bom in
  let mechanisms := _detect_auth_mechanisms ai_bom in
  {| security_measures_implemented := encryption || access || scanning;
     data_encryption := encryption;
     access_controls := access;
     vulnerability_scanning := scanning;
     penetration_testing := pentest;
     incident_response_plan := response_plan;
     security_frameworks := frameworks;
     security_patches_updated := patches;
     authentication_mechanisms := mechanisms |}.

End Validators.

(* ===================================================================== *)
(** * actproof/compliance/policy_engine_ext.py                            *)
(* ===================================================================== *)

Module PolicyEngineExt.

(** [recommendations.append(text)] under a condition. *)
Definition when (b : bool) (text : string) : list string :=
  if b then [text] else [].

(** [generate_comprehensive_recommendations].  The comparison of
    [overall_score] with 0.7 raises [TypeError] when the score is [None]. *)
Definition generate_comprehensive_recommendations `{Host}
    (requirements_check : AnnexIVRequirements)
    (article_9 : RiskManagementSystem)
    (article_10 : DataGovernance)
    (article_12 : LoggingCapability)
    (annex_iii : HighRiskClassification)
    (gpai : GPAICompliance)
    (level : RiskLevel) : Result (list string) :=
  (* PRIORITY 1: critical gaps *)
  let p1 :=
    when (negb (DataGovernance_compliant article_10))
      ("🔴 CRITICAL: Implement Data Governance framework (Article 10) - " ++
       "Document dataset quality, assess bias, establish data lineage") ++
    when (negb (RiskManagementSystem_compliant article_9))
      ("🔴 CRITICAL: Establish Risk Management System (Article 9) - " ++
       "Create risk register (currently " ++
       str_of_nat (List.length (risk_register article_9)) ++ " risks identified), " ++
       "implement mitigation measures, perform periodic reviews") ++
    when (negb (LoggingCapability_compliant article_12))
      ("🔴 CRITICAL: Implement automatic logging system (Article 12) - " ++
       (if negb (automatic_logging_enabled article_12)
        then "Install logging library, " else EmptyString) ++
       (if match retention_period_months article_12 with
           | Some n => Z.eqb n 0
           | None => true
           end
        then "Set retention period (minimum 6 months), " else EmptyString) ++
       "ensure immutable audit trail, log input/output/decisions/timestamp") ++
    when (negb (article_11_compliant requirements_check))
      ("🔴 CRITICAL: Complete Technical Documentation (Article 11) - " ++
       "Missing fields: " ++
       join ", " (take_upto 3 (article_11_missing_fields requirements_check)) ++
       "...") ++
    when (RiskLevel_eqb level HIGH && negb (article_14_compliant requirements_check))
      ("🔴 CRITICAL: Implement Human Oversight measures (Article 14) - " ++
       "Define oversight procedures, assign oversight roles, " ++
       "implement intervention mechanisms for HIGH-RISK system") in
  (* PRIORITY 2: high-risk specific requirements *)
  let p2 :=
    if RiskLevel_eqb level HIGH then
      when (match article_61 requirements_check with
            | Some a => negb (registration_completed a)
            | None => false
            end)
        ("🟠 HIGH PRIORITY: Register system in EU Database (Article 61) - " ++
         "Required for all HIGH-RISK AI systems before market placement") ++
      when (match article_72_73 requirements_check with
            | Some a => negb (monitoring_plan_established a)
            | None => false
            end)
        ("🟠 HIGH PRIORITY: Establish Post-Market Monitoring plan (Article 72) - " ++
         "Define monitoring procedures, set review frequency, establish feedback mechanisms") ++
      when (match article_16_17 requirements_check with
            | Some _ => negb (article_17_compliant requirements_check)
            | None => false
            end)
        ("🟠 HIGH PRIORITY: Establish Quality Management System (Article 17) - " ++
         "Implement QMS according to Annex VI requirements: compliance strategy, " ++
         "design controls, testing procedures, change management")
    else [] in
  (* PRIORITY 3: Annex III classification *)
  let p3 :=
    match annex_iii_categories annex_iii with
    | first :: _ =>
        if is_high_risk annex_iii then
          let category_name :=
            title (replace_char "_" " " (AnnexIIICategory_value first)) in
          [ ("🟠 HIGH-RISK CLASSIFICATION: System classified as '" ++ category_name ++
             "' (Annex III) - " ++
             str_take 100 (classification_rationale annex_iii) ++ "... " ++
             "Ensure compliance with category-specific requirements")%string ] ++
          List.map (fun req : string => ("   └─ " ++ req)%string)
                   (take_upto 2 (additional_requirements annex_iii))
        else []
    | [] => []
    end in
  (* PRIORITY 4: GPAI requirements *)
  let p4 :=
    if (0 <? List.length (gpai_models_detected gpai))%nat then
      let gpai_names :=
        join ", " (List.map gm_name (take_upto 3 (gpai_models_detected gpai))) in
      when (negb (transparency_info_users gpai))
        ("🟡 GPAI: Inform users about AI usage (Article 52 / Annex XII) - " ++
         "Detected GPAI models: " ++ gpai_names ++
         ". Users must be informed they're interacting with AI") ++
      when (negb (ai_generated_content_disclosed gpai))
        ("🟡 GPAI: Disclose AI-generated content (Article 52) - " ++
         "Mark all AI-generated text, images, audio, video as AI-generated") ++
      when (negb (intended_use_documented gpai))
        ("🟡 GPAI: Document intended use case (Deployer obligation) - " ++
         "Clearly document how GPAI models are used in your specific context") ++
      when (negb (downstream_risk_assessment gpai))
        ("🟡 GPAI: Perform downstream risk assessment (Deployer obligation) - " ++
         "Assess risks specific to your use case of GPAI models") ++
      when (existsb systemic_risk_threshold (gpai_models_detected gpai))
        ("⚠️  GPAI SYSTEMIC RISK: One or more GPAI models may exceed 10^25 FLOPs threshold - " ++
         "Additional Annex XIII requirements may apply. Verify with provider")
    else [] in
  (* PRIORITY 5: data governance specifics *)
  let* p5_quality :=
    match data_quality_metrics article_10 with
    | Some m =>
        match overall_score m with
        | Some score =>
            Ok (when (qlt score (7 # 10))
                  ("🟡 DATA QUALITY: Improve dataset documentation (Article 10) - " ++
                   "Current quality score: " ++ fmt_percent1 score ++ ". " ++
                   "Document dataset source, size, license, metadata"))
        | None => Raise (TypeError "<")
        end
    | None => Ok []
    end in
  let p5 :=
    p5_quality ++
    when (match bias_assessment article_10 with
          | Some b => bias_detected b
          | None => false
          end)
      ("🟡 BIAS DETECTED: Implement bias mitigation (Article 10) - " ++
       "Bias categories detected: " ++
       join ", " (match bias_assessment article_10 with
                  | Some b => bias_categories b
                  | None => []
                  end) ++ ". " ++
       "Perform fairness audit, implement mitigation measures") ++
    when (negb (representativeness_assessed article_10))
      ("🟡 DATA REPRESENTATIVENESS: Assess dataset representativeness (Article 10) - " ++
       "Verify datasets are representative of target population") in
  (* PRIORITY 6: risk management specifics *)
  let p6 :=
    when (0 <? critical_risks_count article_9)%nat
      ("🟡 CRITICAL RISKS: Mitigate " ++ str_of_nat (critical_risks_count article_9) ++
       " critical risk(s) (Article 9) - " ++
       "Address all CRITICAL severity risks before deployment") ++
    when (0 <? unmitigated_risks_count article_9)%nat
      ("🟡 RISK MITIGATION: Address " ++ str_of_nat (unmitigated_risks_count article_9) ++
       " unmitigated risk(s) (Article 9) - " ++
       "Implement mitigation measures for all identified risks") in
  (* PRIORITY 7: accuracy and robustness *)
  let p7 :=
    when (negb (article_15_compliant requirements_check))
      ("🟡 METRICS: Provide quantitative accuracy metrics (Article 15) - " ++
       "Document accuracy, robustness, and cybersecurity metrics. " ++
       "Include: precision, recall, F1-score, adversarial robustness, security assessments") in
  (* PRIORITY 8: transparency *)
  let p8 :=
    when (negb (article_13_compliant requirements_check))
      ("🟡 TRANSPARENCY: Implement transparency measures (Article 13) - " ++
       "Provide clear instructions for use, document limitations, " ++
       "inform users about AI system capabilities") in
  (* PRIORITY 9: provider obligations *)
  let p9 :=
    match article_16_17 requirements_check with
    | Some po =>
        let compliance_pct := compliance_percentage po * 100 in
        when (qlt compliance_pct 80)
          ("🟡 PROVIDER OBLIGATIONS: Complete provider obligations (Article 16) - " ++
           "Current: " ++ fmt_float0 compliance_pct ++ "% compliant. " ++
           "Review Article 16 checklist and complete missing obligations")
    | None => []
    end in
  (* PRIORITY 10: incident reporting *)
  let p10 :=
    match article_72_73 requirements_check with
    | Some pm =>
        when (negb (incident_reporting_procedure pm))
          ("🟢 INCIDENT MANAGEMENT: Define incident reporting procedure (Article 73) - " ++
           "Establish process for identifying, reporting, and managing incidents") ++
        when (negb (incident_contact_designated pm))
          ("🟢 INCIDENT CONTACT: Designate incident reporting contact (Article 73) - " ++
           "Assign responsible person/team for handling serious incidents")
    | None => []
    end in
  let recommendations := p1 ++ p2 ++ p3 ++ p4 ++ p5 ++ p6 ++ p7 ++ p8 ++ p9 ++ p10 in
  (* PRIORITY 11: general improvements *)
  let recommendations :=
    recommendations ++
    when (List.length recommendations <? 3)%nat
      ("✅ GOOD PROGRESS: System shows strong compliance foundation. " ++
       "Focus on documentation completeness and continuous monitoring") in
  Ok (take_upto 15 recommendations).

End PolicyEngineExt.

(* ===================================================================== *)
(** * actproof/compliance/policy_engine.py                                *)
(* ===================================================================== *)

Module PolicyEngine.
Import Validators PolicyEngineExt.

(** [PolicyEngine._generate_recommendations] *)
Definition _generate_recommendations (documentation : TechnicalDocumentation)
    (article_11_ok article_14_ok article_15_ok : bool) : list string :=
  when (negb article_11_ok)
    "Complete all required fields in technical documentation (Article 11)" ++
  when (negb article_14_ok)
    "Implement human oversight plan with concrete measures (Article 14)" ++
  when (negb article_15_ok)
    "Provide quantitative metrics for accuracy, robustness and cybersecurity (Article 15)" ++
  when (RiskLevel_eqb (td_risk_level documentation) HIGH &&
        (List.length (transparency_measures documentation) =? 0)%nat)
    "Implement transparency measures to inform users (Article 13)" ++
  when (List.length (identified_risks documentation) =? 0)%nat
    "Perform complete risk analysis and document all identified risks".

(** The fields of [required_fields_article_11] that are missing.  The four
    descriptions are required strings, so they are never [None]; a
    dictionary is missing when it is empty. *)
Definition missing_article_11_fields (documentation : TechnicalDocumentation)
    : list string :=
  when false "general_description" ++
  when false "intended_purpose" ++
  when false "context_of_use" ++
  when false "logic_description" ++
  when (negb (nonempty (technical_specifications documentation)))
    "technical_specifications" ++
  when (negb (nonempty (accuracy_metrics documentation))) "accuracy_metrics" ++
  when (negb (nonempty (risk_management documentation))) "risk_management".

(** [PolicyEngine.validate_technical_documentation] *)
Definition validate_technical_documentation (documentation : TechnicalDocumentation)
    : AnnexIVRequirements :=
  let missing_fields := missing_article_11_fields documentation in
  let article_11_ok := (List.length missing_fields =? 0)%nat in
  let article_14_ok :=
    if RiskLevel_eqb (td_risk_level documentation) HIGH
    then negb (negb (dict_truthy (human_oversight documentation)) ||
               (List.length (oversight_measures documentation) =? 0)%nat)
    else true in
  let article_15_ok := (0 <? List.length (accuracy_metrics documentation))%nat in
  let total_checks := 4%nat in
  let passed_checks := count_true [article_11_ok; true; article_14_ok; article_15_ok] in
  let score := inject_Z (Z.of_nat passed_checks) / inject_Z (Z.of_nat total_checks) in
  let gaps :=
    when (negb article_11_ok) "Incomplete technical documentation (Article 11)" ++
    when (negb article_14_ok) "Missing human oversight plan (Article 14)" ++
    when (negb article_15_ok) "Accuracy metrics not provided (Article 15)" in
  let recs :=
    _generate_recommendations documentation article_11_ok article_14_ok article_15_ok in
  {| article_11_compliant := article_11_ok;
     article_11_missing_fields := missing_fields;
     article_13_compliant := true;
     article_14_compliant := article_14_ok;
     human_oversight_required := RiskLevel_eqb (td_risk_level documentation) HIGH;
     article_15_compliant := article_15_ok;
     accuracy_metrics_provided := article_15_ok;
     article_8 := None;
     article_9 := None;
     article_9_compliant := false;
     article_10 := None;
     article_10_compliant := false;
     article_12 := None;
     article_12_compliant := false;
     article_15_accuracy := None;
     article_15_robustness := None;
     article_15_cybersecurity := None;
     article_16_17 := None;
     article_16_compliant := false;
     article_17_compliant := false;
     annex_iii := None;
     gpai := None;
     gpai_compliant := false;
     article_61 := None;
     article_61_compliant := false;
     article_72_73 := None;
     article_72_compliant := false;
     article_73_compliant := false;
     iso_42001_compliant := false;
     management_system_established := false;
     compliance_score := score;
     critical_gaps := gaps;
     recommendations := recs |}.

(** [PolicyEngine._assess_risk_level] *)
Definition _assess_risk_level (ai_bom : AIBOM) : RiskLevel :=
  let has_llm :=
    existsb (fun m => String.eqb (ModelType_value (mc_model_type m)) "llm")
            (models ai_bom) in
  let has_multiple_models := (1 <? List.length (models ai_bom))%nat in
  if has_llm || has_multiple_models then HIGH
  else if (0 <? List.length (models ai_bom))%nat then LIMITED
  else MINIMAL.

(** [PolicyEngine._extract_documentation_from_bom] *)
Definition _extract_documentation_from_bom (ai_bom : AIBOM) : TechnicalDocumentation :=
  let level := _assess_risk_level ai_bom in
  let models_desc := join ", " (List.map mc_name (take_upto 3 (models ai_bom))) in
  let general_desc :=
    if nonempty (models ai_bom) then ("AI system using: " ++ models_desc)%string
    else "AI system" in
  {| system_name := str_remove "AI-BOM for " (name ai_bom);
     system_type := STANDALONE;
     td_risk_level := level;
     general_description := general_desc;
     intended_purpose := "To be specified";
     context_of_use := "To be specified";
     logic_description := "To be extracted from code with LLM";
     technical_specifications := [];
     software_dependencies := List.map dep_name (take_upto 10 (dependencies ai_bom));
     accuracy_metrics := [];
     risk_management := [];
     identified_risks := [];
     human_oversight := None;
     oversight_measures := [];
     transparency_measures := [] |}.

Definition core_ai_libs : list string :=
  [ "openai"; "anthropic"; "transformers"; "torch"; "tensorflow";
    "langchain"; "sklearn"; "keras"; "huggingface"; "llama";
    "vllm"; "ollama"; "cohere"; "replicate" ].

(** [PolicyEngine._is_ai_system] *)
Definition _is_ai_system (ai_bom : AIBOM) : bool :=
  if (0 <? List.length (models ai_bom))%nat then true
  else if (0 <? List.length (datasets ai_bom))%nat then true
  else
    let ai_deps := List.filter dep_is_ai_related (dependencies ai_bom) in
    existsb (fun dep => any_in core_ai_libs (lower (dep_name dep))) ai_deps.

(** [PolicyEngine._create_non_ai_compliance_result].  The constructor call
    passes the provider obligations under the name [article_16], which is
    not a field of [AnnexIVRequirements]; pydantic ignores it, so
    [article_16_17] keeps its default. *)
Definition _create_non_ai_compliance_result
    (now : Timestamp) (ai_bom : AIBOM) (system_id : string) : ComplianceResult :=
  let technical_doc :=
    {| system_name := str_remove "AI-BOM for " (name ai_bom);
       system_type := STANDALONE;
       td_risk_level := MINIMAL;
       general_description := "Non-AI system - EU AI Act not applicable";
       intended_purpose := "Not an AI system";
       context_of_use := "Standard software application";
       logic_description := "No AI/ML logic detected";
       technical_specifications := [];
       software_dependencies := [];
       accuracy_metrics := [];
       risk_management := [];
       identified_risks := [];
       human_oversight := None;
       oversight_measures := [];
       transparency_measures := [] |} in
  let requirements_check :=
    {| article_8 :=
         Some {| all_requirements_met := true;
                 conformity_declaration_signed := true;
                 ce_marking_affixed := true;
                 obligations_throughout_lifecycle := true |};
       article_9 :=
         Some {| continuous_process_established := true;
                 risk_register := [];
                 risk_assessment_methodology := None;
                 residual_risks_acceptable := true;
                 periodic_review_frequency := None |};
       article_9_compliant := true;
       article_10 :=
         Some {| datasets_documented := true;
                 data_quality_metrics := None;
                 bias_assessment := None;
                 data_lineage := None;
                 data_relevance_documented := false;
                 representativeness_assessed := false;
                 gdpr_compliance_verified := true;
                 data_governance_policies := [] |};
       article_10_compliant := true;
       article_11_compliant := true;
       article_11_missing_fields := [];
       article_12 :=
         Some {| automatic_logging_enabled := true;
                 logging_library_detected := None;
                 retention_period_months := None;
                 audit_trail_immutable := false;
                 events_logged := [];
                 log_storage_location := None;
                 log_format := None;
                 access_control_implemented := false |};
       article_12_compliant := true;
       article_13_compliant := true;
       article_14_compliant := true;
       human_oversight_required := false;
       article_15_compliant := true;
       accuracy_metrics_provided := true;
       article_15_accuracy :=
         Some {| metrics_defined := true;
                 performance_metrics := [];
                 testing_procedures_documented := true;
                 model_evaluation_performed := false;
                 benchmark_datasets_used := [] |};
       article_15_robustness :=
         Some {| error_handling_implemented := true;
                 fallback_mechanisms := false;
                 input_validation := false;
                 adversarial_testing := false;
                 fault_tolerance_measures := [];
                 resilience_testing_performed := false;
                 edge_case_handling := false |};
       article_15_cybersecurity :=
         Some {| security_measures_implemented := true;
                 data_encryption := false;
                 access_controls := false;
                 vulnerability_scanning := false;
                 penetration_testing := false;
                 incident_response_plan := false;
                 security_frameworks := [];
                 security_patches_updated := false;
                 authentication_mechanisms := [] |};
       article_16_17 := None;
       article_16_compliant := true;
       article_17_compliant := true;
       article_61 :=
         Some {| registration_required := false;
                 registration_completed := false;
                 registration_id := None;
                 reg_system_name := Some (name ai_bom) |};
       article_61_compliant := true;
       article_72_73 :=
         Some {| monitoring_plan_established := false;
                 monitoring_frequency := None;
                 incident_reporting_procedure := false;
                 incident_contact_designated := false;
                 incident_contact_email := None;
                 incidents_count := 0%nat;
                 serious_incidents_count := 0%Z;
                 user_feedback_collection := false;
                 user_feedback_analysis := false;
                 corrective_actions_procedure := false;
                 preventive_actions_procedure := false |};
       article_72_compliant := true;
       article_73_compliant := true;
       annex_iii :=
         Some {| is_high_risk := false;
                 annex_iii_categories := [];
                 classification_rationale := "Non-AI system - EU AI Act not applicable";
                 keywords_detected := [];
                 additional_requirements := [];
                 notified_body_required := false |};
       gpai :=
         Some {| gpai_models_detected := [];
                 user_role := DEPLOYER;
                 technical_doc_provided := false;
                 transparency_info_users := false;
                 ai_generated_content_disclosed := false;
                 systemic_risk_assessment_required := false;
                 systemic_risk_assessment_performed := false;
                 code_of_practice_compliant := false;
                 upstream_provider_compliance_verified := false;
                 intended_use_documented := false;
                 downstream_risk_assessment := false |};
       gpai_compliant := true;
       iso_42001_compliant := false;
       management_system_established := false;
       compliance_score := 1;
       critical_gaps := [];
       recommendations :=
         ["No action required - this is not an AI system subject to EU AI Act"] |} in
  {| system_id := system_id;
     compliant := true;
     risk_level := MINIMAL;
     technical_documentation := Some technical_doc;
     requirements_check := requirements_check;
     evaluated_at := now;
     ai_bom_id := Some (spdx_id ai_bom) |}.

(** Step 5 of [evaluate_compliance]: the critical gaps, in the order of
    the source. *)
Definition collect_critical_gaps
    (level : RiskLevel)
    (article_9_ok article_10_ok article_11_ok article_12_ok article_14_ok : bool)
    (accuracy_ok robustness_ok cybersecurity_ok : bool)
    (article_16_ok article_17_ok article_61_ok article_72_ok : bool)
    (gpai_ok : bool) (gpai_detected : bool) : list string :=
  let high := RiskLevel_eqb level HIGH in
  when (negb article_10_ok)
    "Data Governance non-compliant (Article 10) - Quality, bias, lineage" ++
  when (negb article_9_ok) "Risk Management System not established (Article 9)" ++
  when (negb article_12_ok) "Automatic logging not implemented (Article 12)" ++
  when (negb article_11_ok) "Incomplete technical documentation (Article 11)" ++
  when (negb article_14_ok && high)
    "Human Oversight missing for HIGH-RISK system (Article 14)" ++
  when (negb accuracy_ok)
    "Accuracy metrics not properly defined or evaluated (Article 15)" ++
  when (negb robustness_ok) "Robustness measures insufficient (Article 15)" ++
  when (negb cybersecurity_ok) "Cybersecurity requirements not satisfied (Article 15)" ++
  when (negb article_16_ok) "Provider Obligations not satisfied (Article 16)" ++
  when (negb article_17_ok && high)
    "Quality Management System not established (Article 17)" ++
  when (negb article_61_ok && high)
    "EU Database registration missing for HIGH-RISK system (Article 61)" ++
  when (negb article_72_ok && high) "Post-Market Monitoring Plan missing (Article 72)" ++
  when (negb gpai_ok && gpai_detected) "GPAI Compliance not satisfied (Annex X-XIII)".

(** Steps 4 to 8 of [evaluate_compliance], on the results of the
    validators: the aggregate, the score, the critical gaps, the
    recommendations and the verdict. *)
Definition finish_evaluation `{Host}
    (now : Timestamp) (ai_bom : AIBOM) (system_id : string)
    (technical_doc : TechnicalDocumentation)
    (annex_iii_classification : HighRiskClassification)
    (article_8 : Article8Compliance)
    (article_9 : RiskManagementSystem)
    (article_10 : DataGovernance)
    (requirements_check_base : AnnexIVRequirements)
    (article_12 : LoggingCapability)
    (article_15_accuracy : AccuracyRequirements)
    (article_15_robustness : RobustnessRequirements)
    (article_15_cybersecurity : CybersecurityRequirements)
    (article_16_17 : ProviderObligations)
    (article_61 : EUDatabaseRegistration)
    (article_72_73 : PostMarketMonitoring)
    (gpai_compliance : GPAICompliance) : Result ComplianceResult :=
  let level := td_risk_level technical_doc in
  let article_9_ok := RiskManagementSystem_compliant article_9 in
  let article_10_ok := DataGovernance_compliant article_10 in
  let article_12_ok := LoggingCapability_compliant article_12 in
  let article_16_ok := conformity_assessment_completed article_16_17 in
  let article_17_ok :=
    match qms article_16_17 with
    | Some q => QualityManagementSystem_compliant q
    | None => false
    end in
  let article_61_ok := EUDatabaseRegistration_compliant article_61 in
  let article_72_ok := PostMarketMonitoring_compliant article_72_73 in
  let article_73_ok := incident_reporting_procedure article_72_73 in
  let gpai_detected := (0 <? List.length (gpai_models_detected gpai_compliance))%nat in
  let gpai_ok :=
    if gpai_detected then compliant_as_deployer gpai_compliance else true in
  (* STEP 4: the score *)
  let requirements_check :=
    {| article_11_compliant := article_11_compliant requirements_check_base;
       article_11_missing_fields := article_11_missing_fields requirements_check_base;
       article_13_compliant := article_13_compliant requirements_check_base;
       article_14_compliant := article_14_compliant requirements_check_base;
       human_oversight_required := human_oversight_required requirements_check_base;
       article_15_compliant := article_15_compliant requirements_check_base;
       accuracy_metrics_provided := accuracy_metrics_provided requirements_check_base;
       Requirements.article_8 := Some article_8;
       Requirements.article_9 := Some article_9;
       article_9_compliant := article_9_ok;
       Requirements.article_10 := Some article_10;
       article_10_compliant := article_10_ok;
       Requirements.article_12 := Some article_12;
       article_12_compliant := article_12_ok;
       Requirements.article_15_accuracy := Some article_15_accuracy;
       Requirements.article_15_robustness := Some article_15_robustness;
       Requirements.article_15_cybersecurity := Some article_15_cybersecurity;
       Requirements.article_16_17 := Some article_16_17;
       article_16_compliant := article_16_ok;
       article_17_compliant := article_17_ok;
       annex_iii := Some annex_iii_classification;
       gpai := Some gpai_compliance;
       gpai_compliant := gpai_ok;
       Requirements.article_61 := Some article_61;
       article_61_compliant := article_61_ok;
       Requirements.article_72_73 := Some article_72_73;
       article_72_compliant := article_72_ok;
       article_73_compliant := article_73_ok;
       iso_42001_compliant := false;
       management_system_established := false;
       compliance_score := 0;
       critical_gaps := [];
       recommendations := [] |} in
  let total_articles := total_articles_checked requirements_check in
  let compliant_articles := articles_compliant_count requirements_check in
  let total_articles :=
    if gpai_detected then (total_articles + 1)%nat else total_articles in
  let compliant_articles :=
    if gpai_detected && gpai_ok then (compliant_articles + 1)%nat
    else compliant_articles in
  let score :=
    if (0 <? total_articles)%nat
    then inject_Z (Z.of_nat compliant_articles) / inject_Z (Z.of_nat total_articles)
    else 0 in
  (* STEP 5: critical gaps *)
  let gaps :=
    collect_critical_gaps level
      article_9_ok article_10_ok (article_11_compliant requirements_check)
      article_12_ok (article_14_compliant requirements_check)
      (AccuracyRequirements_compliant article_15_accuracy)
      (RobustnessRequirements_compliant article_15_robustness)
      (CybersecurityRequirements_compliant article_15_cybersecurity)
      article_16_ok article_17_ok article_61_ok article_72_ok
      gpai_ok gpai_detected in
  (* STEP 6: recommendations *)
  let* recs :=
    generate_comprehensive_recommendations
      (set_score_gaps_recs requirements_check score gaps [])
      article_9 article_10 article_12 annex_iii_classification gpai_compliance level in
  let requirements_check := set_score_gaps_recs requirements_check score gaps recs in
  (* STEP 7: overall compliance *)
  let high_priority_compliant :=
    if RiskLevel_eqb level HIGH
    then forallb (fun b => b)
           [ article_9_ok; article_10_ok; article_12_ok;
             article_11_compliant requirements_check;
             article_14_compliant requirements_check ]
    else true in
  let compliant :=
    qge score (85 # 100) &&
    (List.length gaps =? 0)%nat &&
    high_priority_compliant in
  (* STEP 8: the result *)
  Ok {| Requirements.system_id := system_id;
        Requirements.compliant := compliant;
        risk_level := level;
        technical_documentation := Some technical_doc;
        Requirements.requirements_check := requirements_check;
        evaluated_at := now;
        ai_bom_id := Some (spdx_id ai_bom) |}.

(** The documentation that the evaluation works on: the one supplied or
    the one extracted from the bill of materials, raised to HIGH when the
    Annex III classification says so. *)
Definition effective_documentation `{Host} (codebase_path : option Path)
    (ai_bom : AIBOM) (technical_doc : option TechnicalDocumentation)
    : TechnicalDocumentation :=
  let technical_doc :=
    match technical_doc with
    | None => _extract_documentation_from_bom ai_bom
    | Some doc => doc
    end in
  if is_high_risk (HighRiskClassifier_classify ai_bom codebase_path)
  then set_risk_level technical_doc HIGH else technical_doc.

(** [PolicyEngine.evaluate_compliance]; [codebase_path] is the attribute of
    the engine, [now] the clock reading stored in [evaluated_at]. *)
Definition evaluate_compliance `{Host}
    (codebase_path : option Path) (now : Timestamp)
    (ai_bom : AIBOM) (technical_doc : option TechnicalDocumentation)
    (system_id : option string) : Result ComplianceResult :=
  let system_id := default (spdx_id ai_bom) system_id in
  (* STEP 0: is this an AI system at all *)
  let is_ai_system := _is_ai_system ai_bom in
  if negb is_ai_system
  then Ok (_create_non_ai_compliance_result now ai_bom system_id)
  else
    (* STEP 1: Annex III classification *)
    let annex_iii_classification := HighRiskClassifier_classify ai_bom codebase_path in
    let technical_doc := effective_documentation codebase_path ai_bom technical_doc in
    let level := td_risk_level technical_doc in
    (* STEP 2: all articles *)
    let article_8 := Article8Validator_validate in
    let annex_iii_category := head (annex_iii_categories annex_iii_classification) in
    let article_9 := RiskManagementValidator_validate ai_bom level annex_iii_category in
    let* article_10 := DataGovernanceValidator_validate ai_bom codebase_path in
    let requirements_check_base := validate_technical_documentation technical_doc in
    let* article_12 := LoggingValidator_validate ai_bom codebase_path in
    let* article_15_accuracy := Article15AccuracyValidator_validate ai_bom codebase_path in
    let article_15_robustness := Article15RobustnessValidator_validate ai_bom codebase_path in
    let article_15_cybersecurity :=
      Article15CybersecurityValidator_validate ai_bom codebase_path in
    let article_16_17 := ProviderObligationsValidator_validate ai_bom level in
    let article_61 := EUDatabaseValidator_validate level (system_name technical_doc) in
    let article_72_73 := PostMarketMonitoringValidator_validate level in
    (* STEP 3: GPAI *)
    let gpai_compliance := GPAIValidator_validate ai_bom in
    (* STEPS 4 to 8 *)
    finish_evaluation now ai_bom system_id technical_doc annex_iii_classification
      article_8 article_9 article_10 requirements_check_base article_12
      article_15_accuracy article_15_robustness article_15_cybersecurity
      article_16_17 article_61 article_72_73 gpai_compliance.

End PolicyEngine.

(* ===================================================================== *)
(** * actproof/compliance/diff_engine.py                                  *)
(* ===================================================================== *)

Module DiffEngine.
Import PolicyEngineExt.

Record ArticleDelta : Type := {
  article : string;
  base_compliant : bool;
  head_compliant : bool;
  changed : bool;
  direction : string;
  details : list (string * list string)
}.

Record ComplianceGapDelta : Type := {
  gap : string;
  gap_status : string
}.

Record FileDelta : Type := {
  file_path : string;
  change_type : string;
  affected_articles : list string
}.

(** One entry of [changed_files]: a dictionary whose [path] and [status],
    when present, are strings. *)
Record ChangedFile : Type := {
  cf_path : option string;
  cf_status : option string
}.

Record ComplianceDiffResult : Type := {
  schema_version : string;
  repo_id : string;
  base_commit : string;
  head_commit : string;
  diff_timestamp : Timestamp;
  base_score : Q;
  head_score : Q;
  score_delta : Q;
  score_direction : string;
  base_risk_level : RiskLevel;
  head_risk_level : RiskLevel;
  risk_level_changed : bool;
  article_deltas : list ArticleDelta;
  improved_articles : list string;
  degraded_articles : list string;
  gap_deltas : list ComplianceGapDelta;
  new_critical_gaps : list string;
  resolved_gaps : list string;
  changed_files : list FileDelta;
  summary : string;
  base_result_hash : string;
  head_result_hash : string;
  diff_hash : string
}.

(** The dictionary that [compute_diff_hash] serialises. *)
Definition diff_hash_data (self : ComplianceDiffResult) : Json :=
  JObj [ ("schema_version", JStr (schema_version self));
         ("repo_id", JStr (repo_id self));
         ("base_commit", JStr (base_commit self));
         ("head_commit", JStr (head_commit self));
         ("base_score", JNum (base_score self));
         ("head_score", JNum (head_score self));
         ("score_delta", JNum (score_delta self));
         ("base_result_hash", JStr (base_result_hash self));
         ("head_result_hash", JStr (head_result_hash self)) ].

(** [ComplianceDiffResult.compute_diff_hash] *)
Definition compute_diff_hash `{Host} (self : ComplianceDiffResult) : string :=
  let data_str := json_dumps_sorted (diff_hash_data self) in
  sha256_hex data_str.

(** [self.diff_hash = h] *)
Definition set_diff_hash (self : ComplianceDiffResult) (h : string)
    : ComplianceDiffResult :=
  {| schema_version := schema_version self;
     repo_id := repo_id self;
     base_commit := base_commit self;
     head_commit := head_commit self;
     diff_timestamp := diff_timestamp self;
     base_score := base_score self;
     head_score := head_score self;
     score_delta := score_delta self;
     score_direction := score_direction self;
     base_risk_level := base_risk_level self;
     head_risk_level := head_risk_level self;
     risk_level_changed := risk_level_changed self;
     article_deltas := article_deltas self;
     improved_articles := improved_articles self;
     degraded_articles := degraded_articles self;
     gap_deltas := gap_deltas self;
     new_critical_gaps := new_critical_gaps self;
     resolved_gaps := resolved_gaps self;
     changed_files := changed_files self;
     summary := summary self;
     base_result_hash := base_result_hash self;
     head_result_hash := head_result_hash self;
     diff_hash := h |}.

(** [ComplianceDiffResult.model_post_init] *)
Definition model_post_init `{Host} (self : ComplianceDiffResult)
    : ComplianceDiffResult :=
  if String.eqb (diff_hash self) EmptyString
  then set_diff_hash self (compute_diff_hash self)
  else self.

(** [ComplianceDiffEngine._compute_article_deltas] *)
Definition article_delta (base_req head_req : AnnexIVRequirements)
    (article_name field_name : string) (field : AnnexIVRequirements -> bool)
    : ArticleDelta :=
  let base_val := field base_req in
  let head_val := field head_req in
  let changed := negb (Bool.eqb base_val head_val) in
  let direction :=
    if changed
    then (if head_val && negb base_val then "improved" else "degraded")
    else "unchanged" in
  let details :=
    if String.eqb field_name "article_11_compliant" then
      [ ("base_missing_fields", article_11_missing_fields base_req);
        ("head_missing_fields", article_11_missing_fields head_req) ] ++
      (if bool_decide (article_11_missing_fields base_req <>
                       article_11_missing_fields head_req)
       then [ ("fields_added",
               List.filter
                 (fun f => negb (str_in f (article_11_missing_fields head_req)))
                 (article_11_missing_fields base_req));
              ("fields_still_missing", article_11_missing_fields head_req) ]
       else [])
    else [] in
  {| article := article_name;
     base_compliant := base_val;
     head_compliant := head_val;
     DiffEngine.changed := changed;
     DiffEngine.direction := direction;
     DiffEngine.details := details |}.

Definition _compute_article_deltas (base_req head_req : AnnexIVRequirements)
    : list ArticleDelta :=
  [ article_delta base_req head_req
      "Article 11 (Technical Documentation)" "article_11_compliant" article_11_compliant;
    article_delta base_req head_req
      "Article 13 (Transparency)" "article_13_compliant" article_13_compliant;
    article_delta base_req head_req
      "Article 14 (Human Oversight)" "article_14_compliant" article_14_compliant;
    article_delta base_req head_req
      "Article 15 (Accuracy & Robustness)" "article_15_compliant" article_15_compliant ].

(** [ComplianceDiffEngine._compute_gap_deltas]; the three loops run over
    Python sets, whose order of iteration is [elements]. *)
Definition _compute_gap_deltas (base_gaps head_gaps : list string)
    : list ComplianceGapDelta :=
  let base_set : gset string := list_to_set base_gaps in
  let head_set : gset string := list_to_set head_gaps in
  List.map (fun g => {| gap := g; gap_status := "new" |})
           (elements (head_set ∖ base_set)) ++
  List.map (fun g => {| gap := g; gap_status := "resolved" |})
           (elements (base_set ∖ head_set)) ++
  List.map (fun g => {| gap := g; gap_status := "existing" |})
           (elements (base_set ∩ head_set)).

(** [ComplianceDiffEngine._analyze_file_changes] *)
Definition _analyze_file_changes (changed_files : option (list ChangedFile))
    (degraded_articles : list string) : list FileDelta :=
  match changed_files with
  | None | Some [] => []
  | Some files =>
      let file_deltas :=
        List.map
          (fun file_info =>
             let file_path := default EmptyString (cf_path file_info) in
             let change_type := default "modified" (cf_status file_info) in
             let affected :=
               if nonempty degraded_articles &&
                  any_in [".py"; ".js"; ".ts"; ".java"] file_path
               then take_upto 2 degraded_articles else [] in
             {| DiffEngine.file_path := file_path;
                DiffEngine.change_type := change_type;
                affected_articles := affected |})
          files in
      take_upto 10 file_deltas
  end.

(** The line feed. *)
Definition nl : string := String (ascii_of_nat 10) EmptyString.

(** [ComplianceDiffEngine._generate_summary] *)
Definition _generate_summary `{Host} (direction : string) (delta : Q)
    (improved degraded new_gaps resolved_gaps : list string) : string :=
  let score_line : string :=
    if String.eqb direction "improved"
    then ("‚úÖ Compliance score improved by " ++ fmt_percent1_signed delta)%string
    else if String.eqb direction "degraded"
    then ("‚ö†Ô∏è  Compliance score degraded by " ++ fmt_percent1 delta)%string
    else ("‚ûñ Compliance score unchanged (" ++ fmt_percent1_signed delta ++ ")")%string in
  let lines :=
    [score_line] ++
    when (nonempty improved)
      (nl ++ "Improved articles (" ++ str_of_nat (List.length improved) ++ "): " ++
       join ", " improved) ++
    when (nonempty degraded)
      (nl ++ "‚ö†Ô∏è  Degraded articles (" ++ str_of_nat (List.length degraded) ++ "): " ++
       join ", " degraded) ++
    when (nonempty new_gaps)
      (nl ++ "‚ö†Ô∏è  New critical gaps (" ++ str_of_nat (List.length new_gaps) ++ ")") ++
    when (nonempty resolved_gaps)
      (nl ++ "‚úÖ Resolved gaps (" ++ str_of_nat (List.length resolved_gaps) ++ ")") in
  join nl lines.

(** The dictionary that [_hash_compliance_result] serialises. *)
Definition result_hash_data (result : ComplianceResult) : Json :=
  JObj [ ("system_id", JStr (system_id result));
         ("compliant", JBool (compliant result));
         ("compliance_score", JNum (compliance_score (requirements_check result)));
         ("risk_level", JStr (RiskLevel_value (risk_level result)));
         ("critical_gaps",
          JArr (List.map JStr (sorted (critical_gaps (requirements_check result))))) ].

(** [ComplianceDiffEngine._hash_compliance_result] *)
Definition _hash_compliance_result `{Host} (result : ComplianceResult) : string :=
  let data_str := json_dumps_sorted (result_hash_data result) in
  sha256_hex data_str.

(** The classification of the score delta in [compute_diff]; the literal
    [0.01] is the double nearest to one hundredth. *)
Definition classify_direction (score_delta : Q) : string :=
  if qlt (Qabs score_delta) (nearest_double (1 # 100)) then "unchanged"
  else if qlt 0 score_delta then "improved"
  else "degraded".

(** [ComplianceDiffEngine.compute_diff]; [now] is the clock reading that
    the default of [diff_timestamp] takes. *)
Definition compute_diff `{Host} (now : Timestamp)
    (base_result head_result : ComplianceResult)
    (repo_id base_commit head_commit : string)
    (changed_files : option (list ChangedFile)) : ComplianceDiffResult :=
  let base_score := compliance_score (requirements_check base_result) in
  let head_score := compliance_score (requirements_check head_result) in
  let score_delta := float_sub head_score base_score in
  let score_direction := classify_direction score_delta in
  let article_deltas :=
    _compute_article_deltas (requirements_check base_result)
                            (requirements_check head_result) in
  let improved_articles :=
    List.map article
      (List.filter (fun a => String.eqb (direction a) "improved") article_deltas) in
  let degraded_articles :=
    List.map article
      (List.filter (fun a => String.eqb (direction a) "degraded") article_deltas) in
  let gap_deltas :=
    _compute_gap_deltas (critical_gaps (requirements_check base_result))
                        (critical_gaps (requirements_check head_result)) in
  let new_gaps :=
    List.map gap (List.filter (fun g => String.eqb (gap_status g) "new") gap_deltas) in
  let resolved_gaps :=
    List.map gap (List.filter (fun g => String.eqb (gap_status g) "resolved") gap_deltas) in
  let file_deltas := _analyze_file_changes changed_files degraded_articles in
  let summary :=
    _generate_summary score_direction score_delta improved_articles degraded_articles
                      new_gaps resolved_gaps in
  let base_hash := _hash_compliance_result base_result in
  let head_hash := _hash_compliance_result head_result in
  let diff_result :=
    model_post_init
      {| schema_version := "1.0.0";
         DiffEngine.repo_id := repo_id;
         DiffEngine.base_commit := base_commit;
         DiffEngine.head_commit := head_commit;
         diff_timestamp := now;
         DiffEngine.base_score := base_score;
         DiffEngine.head_score := head_score;
         DiffEngine.score_delta := score_delta;
         DiffEngine.score_direction := score_direction;
         base_risk_level := risk_level base_result;
         head_risk_level := risk_level head_result;
         risk_level_changed :=
           negb (RiskLevel_eqb (risk_level base_result) (risk_level head_result));
         DiffEngine.article_deltas := article_deltas;
         DiffEngine.improved_articles := improved_articles;
         DiffEngine.degraded_articles := degraded_articles;
         DiffEngine.gap_deltas := gap_deltas;
         new_critical_gaps := new_gaps;
         DiffEngine.resolved_gaps := resolved_gaps;
         DiffEngine.changed_files := file_deltas;
         DiffEngine.summary := summary;
         base_result_hash := base_hash;
         head_result_hash := head_hash;
         diff_hash := EmptyString |} in
  set_diff_hash diff_result (compute_diff_hash diff_result).

End DiffEngine.

(* ===================================================================== *)
(** * actproof/compliance/evidence_pack.py                                *)
(* ===================================================================== *)

Module EvidencePack.

(** [KeyError]: a dictionary that lacks the key, or an archive that lacks
    the member. *)
Inductive KeyError : Type :=
  | MissingKey (key : string)
  | MissingMember (member : string).

(** The outcome of a function that can raise [KeyError]. *)
Definition Checked (A : Type) : Type := (KeyError + A)%type.

Definition check_bind {A B : Type} (r : Checked A) (k : A -> Checked B)
    : Checked B :=
  match r with
  | inl e => inl e
  | inr a => k a
  end.

Local Notation "'fetch' x ':=' r 'in' k" := (check_bind r (fun x => k))
  (at level 10, x name, r at level 100, k at level 200).

(** One entry of [EvidenceManifest.files], a [Dict[str, str]]. *)
Definition FileInfo : Type := list (string * string).

(** [file_info[key]] *)
Fixpoint info_get (key : string) (file_info : FileInfo) : Checked string :=
  match file_info with
  | [] => inl (MissingKey key)
  | (k, v) :: rest => if String.eqb k key then inr v else info_get key rest
  end.

(** [EvidenceManifest] *)
Record EvidenceManifest : Type := {
  em_schema_version : string;
  em_generated_at : Timestamp;
  em_repo_id : string;
  em_commit : option string;
  em_scan_run_id : option string;
  files : list FileInfo;
  root_hash : string;
  audit_trail_ref : option string
}.

(** [[f["hash"] for f in files]] *)
Fixpoint file_hashes (files : list FileInfo) : Checked (list string) :=
  match files with
  | [] => inr []
  | f :: rest =>
      fetch h := info_get "hash" f in
      fetch hs := file_hashes rest in
      inr (h :: hs)
  end.

(** [EvidenceManifest.compute_root_hash] *)
Definition compute_root_hash `{Host} (self : EvidenceManifest) : Checked string :=
  if negb (nonempty (files self)) then inr EmptyString
  else
    fetch hashes := file_hashes (files self) in
    let combined := join EmptyString (sorted hashes) in
    inr (sha256_hex combined).

(** [self.root_hash = h] *)
Definition set_root_hash (self : EvidenceManifest) (h : string) : EvidenceManifest :=
  {| em_schema_version := em_schema_version self;
     em_generated_at := em_generated_at self;
     em_repo_id := em_repo_id self;
     em_commit := em_commit self;
     em_scan_run_id := em_scan_run_id self;
     files := files self;
     root_hash := h;
     audit_trail_ref := audit_trail_ref self |}.

(** [EvidenceManifest.model_post_init], which ends every construction of
    a manifest. *)
Definition model_post_init `{Host} (self : EvidenceManifest)
    : Checked EvidenceManifest :=
  if String.eqb (root_hash self) EmptyString && nonempty (files self)
  then fetch h := compute_root_hash self in inr (set_root_hash self h)
  else inr self.

(** The texts that [generate_pack] writes: the README and the evidence
    index always, the bill of materials when [ai_bom] is given, the policy
    results and the gaps when [compliance_result] is given, the RAG queries
    and the fairness results when they are given and not empty. *)
Record PackContents : Type := {
  readme_content : string;
  bom_content : option string;
  policy_content : option (string * string);
  evidence_content : string;
  rag_content : option string;
  fairness_content : option string
}.

(** The files of the temporary directory, in the order of writing. *)
Definition written_files (c : PackContents) : list (string * string) :=
  [("README.txt", readme_content c)] ++
  match bom_content c with
  | Some bom => [("ai-bom/spdx.json", bom)]
  | None => []
  end ++
  match policy_content c with
  | Some (policy, gaps) =>
      [("policy/policy_results.json", policy); ("policy/gaps.json", gaps)]
  | None => []
  end ++
  [("evidence/evidence_index.json", evidence_content c)] ++
  match rag_content c with
  | Some rag => [("rag/rag_queries.json", rag)]
  | None => []
  end ++
  match fairness_content c with
  | Some fairness => [("fairness/fairness_results.json", fairness)]
  | None => []
  end.

(** One entry of [pack_files]; [_hash_file] is the SHA-256 of the bytes
    just written. *)
Definition pack_file `{Host} (written : string * string) : FileInfo :=
  [ ("filename", fst written);
    ("path", fst written);
    ("hash", sha256_hex (snd written)) ].

(** A ZIP archive as [zipfile] reads it: the bytes of the members by
    name, and what [json.loads] gives for the member [manifest.json], the
    keyword arguments of the manifest; [None] when the archive has no such
    member.  The second field is read off the first: an archive that
    differs in the member [manifest.json] differs in [manifest_data]. *)
Record Archive : Type := {
  members : gmap string string;
  manifest_data : option EvidenceManifest
}.

(** [EvidencePackGenerator.generate_pack], up to the archive it writes.
    [now] is the clock reading that [generated_at] takes, [dumps] the
    serialisation [json.dumps(manifest.model_dump(mode="json"), indent=2)],
    which [json.loads] reads back. *)
Definition generate_pack `{Host} (dumps : EvidenceManifest -> string)
    (now : Timestamp) (repo_id : string)
    (commit scan_run_id : option string) (c : PackContents) : Checked Archive :=
  let written := written_files c in
  let pack_files := List.map pack_file written in
  fetch manifest :=
    model_post_init
      {| em_schema_version := "1.0.0";
         em_generated_at := now;
         em_repo_id := repo_id;
         em_commit := commit;
         em_scan_run_id := scan_run_id;
         files := pack_files;
         root_hash := EmptyString;
         audit_trail_ref := None |} in
  fetch root := compute_root_hash manifest in
  let manifest := set_root_hash manifest root in
  let temp_dir :=
    fold_left (fun zipf w => <[ fst w := snd w ]> zipf) written ∅ in
  inr {| members := <[ "manifest.json" := dumps manifest ]> temp_dir;
         manifest_data := Some manifest |}.

(** [zipf.read(name)] *)
Definition zip_read (zipf : gmap string string) (name : string) : Checked string :=
  match zipf !! name with
  | Some file_content => inr file_content
  | None => inl (MissingMember name)
  end.

Record Mismatch : Type := {
  mm_filename : string;
  expected_hash : string;
  computed_hash : string
}.

(** The loop of [verify_pack_integrity] over [manifest.files]. *)
Fixpoint find_mismatches `{Host} (zipf : gmap string string)
    (files : list FileInfo) : Checked (list Mismatch) :=
  match files with
  | [] => inr []
  | file_info :: rest =>
      fetch filename := info_get "filename" file_info in
      fetch file_content := zip_read zipf filename in
      let computed := sha256_hex file_content in
      fetch expected := info_get "hash" file_info in
      fetch more := find_mismatches zipf rest in
      inr (if negb (String.eqb computed expected)
           then {| mm_filename := filename;
                   expected_hash := expected;
                   computed_hash := computed |} :: more
           else more)
  end.

(** The dictionary that [verify_pack_integrity] returns. *)
Record Verification : Type := {
  valid : bool;
  file_count : nat;
  mismatches : list Mismatch;
  root_hash_valid : bool;
  expected_root_hash : string;
  computed_root_hash : string
}.

(** [EvidencePackGenerator.verify_pack_integrity] *)
Definition verify_pack_integrity `{Host} (pack : Archive) : Checked Verification :=
  fetch data :=
    match manifest_data pack with
    | Some data => inr data
    | None => inl (MissingMember "manifest.json")
    end in
  fetch manifest := model_post_init data in
  fetch found := find_mismatches (members pack) (files manifest) in
  fetch hashes := file_hashes (files manifest) in
  let combined := join EmptyString (sorted hashes) in
  let computed_root := sha256_hex combined in
  let root_ok := String.eqb computed_root (root_hash manifest) in
  inr {| valid := (List.length found =? 0)%nat && root_ok;
         file_count := List.length (files manifest);
         mismatches := found;
         root_hash_valid := root_ok;
         expected_root_hash := root_hash manifest;
         computed_root_hash := computed_root |}.

End EvidencePack.

(* ===================================================================== *)
(** * actproof/integrations/github_action.py                              *)
(* ===================================================================== *)

Module GithubAction.
Import PolicyEngine DiffEngine.

(** What [run_compliance_check] returns, with the output [compliant] that
    it sets; the engine is built without a code base path. *)
Record CheckReport : Type := {
  chk_compliant : bool;
  chk_compliance_score : Q;
  chk_risk_level : string;
  chk_models : nat;
  chk_datasets : nat;
  chk_dependencies : nat;
  chk_critical_gaps : list string;
  chk_recommendations : list string;
  chk_output_compliant : string
}.

(** [GitHubActionHandler.run_compliance_check], from the evaluation on;
    [ai_bom] is the bill of materials that the scan gives.  The check of
    the repository path and the scan come before, in the caller's hands. *)
Definition run_compliance_check `{Host} (now : Timestamp) (ai_bom : AIBOM)
    : Result CheckReport :=
  let* compliance_result :=
    evaluate_compliance None now ai_bom None (Some (spdx_id ai_bom)) in
  Ok {| chk_compliant := compliant compliance_result;
        chk_compliance_score :=
          compliance_score (requirements_check compliance_result);
        chk_risk_level := RiskLevel_value (risk_level compliance_result);
        chk_models := List.length (models ai_bom);
        chk_datasets := List.length (datasets ai_bom);
        chk_dependencies := List.length (dependencies ai_bom);
        chk_critical_gaps := critical_gaps (requirements_check compliance_result);
        chk_recommendations :=
          recommendations (requirements_check compliance_result);
        chk_output_compliant :=
          if compliant compliance_result then "true" else "false" |}.

(** What [run_compliance_diff] returns, with the outputs that it sets. *)
Record DiffReport : Type := {
  rep_score_delta : Q;
  rep_direction : string;
  rep_new_gaps : list string;
  rep_resolved_gaps : list string;
  rep_diff_hash : string;
  rep_outputs : list (string * string)
}.

(** [GitHubActionHandler.run_compliance_diff], from the evaluation on;
    [ai_bom_head] is the bill of materials that the scan gives, [now] the
    clock reading of the evaluation and [later] that of the diff.  The
    base result is the head result.  The check of the repository path and
    the scan come before; storing the diff and posting the comment do not
    change what is returned. *)
Definition run_compliance_diff `{Host} (now later : Timestamp)
    (ai_bom_head : AIBOM) (repo_id base_commit head_commit : string)
    : Result DiffReport :=
  let* head_result :=
    evaluate_compliance None now ai_bom_head None (Some (spdx_id ai_bom_head)) in
  let base_result := head_result in
  let diff_result :=
    compute_diff later base_result head_result repo_id base_commit head_commit None in
  Ok {| rep_score_delta := score_delta diff_result;
        rep_direction := score_direction diff_result;
        rep_new_gaps := new_critical_gaps diff_result;
        rep_resolved_gaps := resolved_gaps diff_result;
        rep_diff_hash := diff_hash diff_result;
        rep_outputs :=
          [ ("diff_score_delta", fmt_percent1_signed (score_delta diff_result));
            ("diff_direction", score_direction diff_result);
            ("new_gaps_count",
             str_of_nat (List.length (new_critical_gaps diff_result))) ] |}.

End GithubAction.

(* ===================================================================== *)
(** * Sample inputs                                                       *)
(* ===================================================================== *)

Module Samples.
Import ConfigExtractor Generator Validators PolicyEngine DiffEngine.

(** A host with no files, that accepts metadata values of the declared
    type only, prints nothing for a dictionary or a float, hashes a string
    to itself and serialises the string members of an object. *)
Definition plain_float (v : PyVal) : FloatConv :=
  match v with
  | PyInt z => FloatOk (inject_Z z)
  | PyFloat q => FloatOk q
  | PyBool b => FloatOk (if b then 1 else 0)
  | _ => FloatCaught
  end.

Definition plain_str (v : PyVal) : option string :=
  match v with PyStr s => Some s | _ => None end.

Fixpoint plain_strs (l : list PyVal) : option (list string) :=
  match l with
  | [] => Some []
  | PyStr s :: r => option_map (cons s) (plain_strs r)
  | _ :: _ => None
  end.

Fixpoint plain_dumps (j : Json) : string :=
  match j with
  | JStr s => s
  | JObj members =>
      (fix go (ms : list (string * Json)) : string :=
         match ms with
         | [] => EmptyString
         | (k, v) :: r => (k ++ "=" ++ plain_dumps v ++ ";" ++ go r)%string
         end) members
  | JArr items =>
      (fix go (xs : list Json) : string :=
         match xs with
         | [] => EmptyString
         | x :: r => (plain_dumps x ++ "," ++ go r)%string
         end) items
  | _ => "?"
  end.

Definition plain_host : Host :=
  {| py_str_dict := fun _ => EmptyString;
     py_float := plain_float;
     py_iter := fun v => match v with PyList l => Some l | _ => None end;
     pydantic_int := fun v => match v with PyInt z => Some z | _ => None end;
     pydantic_str := plain_str;
     pydantic_list_str := fun v => match v with PyList l => plain_strs l | _ => None end;
     path_exists := fun _ => false;
     path_rglob := fun _ _ => [];
     path_glob := fun _ _ => [];
     path_read_text := fun _ => None;
     fmt_percent1 := fun _ => EmptyString;
     fmt_percent1_signed := fun _ => EmptyString;
     fmt_float0 := fun _ => EmptyString;
     sha256_hex := fun s => s;
     json_dumps_sorted := plain_dumps |}.

Definition empty_bom : AIBOM :=
  {| spdx_version := "SPDX-3.0";
     data_license := "CC0-1.0";
     spdx_id := "SPDXRef-DOCUMENT-0001";
     name := "AI-BOM for webshop";
     document_namespace := "https://actproof.ai/spdx/0001";
     creator := "ActProof.ai Scanner";
     models := [];
     datasets := [];
     dependencies := [];
     repository_url := None;
     repository_commit := None;
     metadata := [] |}.

Definition with_dependencies (b : AIBOM) (deps : list DependencyComponent) : AIBOM :=
  {| spdx_version := spdx_version b;
     data_license := data_license b;
     spdx_id := spdx_id b;
     name := name b;
     document_namespace := document_namespace b;
     creator := creator b;
     models := models b;
     datasets := datasets b;
     dependencies := deps;
     repository_url := repository_url b;
     repository_commit := repository_commit b;
     metadata := metadata b |}.

Definition with_models (b : AIBOM) (ms : list ModelComponent) : AIBOM :=
  {| spdx_version := spdx_version b;
     data_license := data_license b;
     spdx_id := spdx_id b;
     name := name b;
     document_namespace := document_namespace b;
     creator := creator b;
     models := ms;
     datasets := datasets b;
     dependencies := dependencies b;
     repository_url := repository_url b;
     repository_commit := repository_commit b;
     metadata := metadata b |}.

Definition with_metadata (b : AIBOM) (m : Dict) : AIBOM :=
  {| spdx_version := spdx_version b;
     data_license := data_license b;
     spdx_id := spdx_id b;
     name := name b;
     document_namespace := document_namespace b;
     creator := creator b;
     models := models b;
     datasets := datasets b;
     dependencies := dependencies b;
     repository_url := repository_url b;
     repository_commit := repository_commit b;
     metadata := m |}.

(** An ordinary web application: two dependencies, none of them flagged. *)
Definition webshop_bom : AIBOM :=
  with_dependencies empty_bom
    [ {| dep_name := "flask"; dep_version := Some "3.0"; dep_package_manager := Some "pip";
         dep_is_ai_related := false; dep_detected_in := ["requirements.txt"] |};
      {| dep_name := "requests"; dep_version := None; dep_package_manager := Some "pip";
         dep_is_ai_related := false; dep_detected_in := ["requirements.txt"] |} ].

(** A chat service built on a hosted large language model. *)
Definition gpt4_model : ModelComponent :=
  {| mc_name := "gpt-4";
     mc_version := None;
     mc_model_type := MT_LLM;
     mc_provider := Some "OpenAI";
     mc_api_endpoint := None;
     mc_detected_in := ["app/chat.py"];
     mc_usage_context := Some "api_call" |}.

Definition chat_bom : AIBOM :=
  with_models
    (with_dependencies empty_bom
       [ {| dep_name := "openai"; dep_version := Some "1.3"; dep_package_manager := Some "pip";
            dep_is_ai_related := true; dep_detected_in := ["requirements.txt"] |};
         {| dep_name := "structlog"; dep_version := None; dep_package_manager := Some "pip";
            dep_is_ai_related := false; dep_detected_in := ["requirements.txt"] |} ])
    [gpt4_model].

(** The same service with a log retention of three months in its metadata. *)
Definition short_retention_bom : AIBOM :=
  with_metadata chat_bom [("log_retention_months", PyInt 3)].

Definition config_dep (n : string) : ConfigDep :=
  {| cd_name := Some n;
     cd_version := None;
     cd_package_manager := Some "pip";
     cd_source_file := Some "requirements.txt" |}.

(** A risk of critical severity that has been mitigated. *)
Definition mitigated_critical_risk : Risk :=
  {| risk_id := "RISK-LLM-002";
     risk_title := "Generation of harmful or illegal";
     risk_description := "Generation of harmful or illegal content";
     category := FUNDAMENTAL_RIGHTS;
     severity := SEV_CRITICAL;
     likelihood := LK_MEDIUM;
     affected_stakeholders := ["End users"];
     mitigation_measures := ["Output filter"];
     status := MITIGATED |}.

Definition mitigated_register : RiskManagementSystem :=
  {| continuous_process_established := true;
     risk_register := [mitigated_critical_risk];
     risk_assessment_methodology := None;
     residual_risks_acceptable := true;
     periodic_review_frequency := None |}.

(** A result with the given score and gaps, everything else as in the
    result for a system that is not an AI system. *)
Definition result_with (score : Q) (gaps : list string) : ComplianceResult :=
  let r := _create_non_ai_compliance_result 0%Z empty_bom "SYS-1" in
  {| system_id := system_id r;
     compliant := false;
     risk_level := LIMITED;
     technical_documentation := technical_documentation r;
     requirements_check := set_score_gaps_recs (requirements_check r) score gaps [];
     evaluated_at := evaluated_at r;
     ai_bom_id := ai_bom_id r |}.

(** A documented training set, and a system that is made of it. *)
Definition census_dataset : DatasetComponent :=
  {| ds_name := "census";
     ds_dataset_type := DT_TRAINING;
     ds_source_location := Some "data/census.csv";
     ds_size := Some 1000%Z;
     ds_license := Some MIT;
     ds_gdpr_compliant := Some true;
     ds_detected_in := ["train.py"];
     ds_metadata :=
       Some [ ("purpose", PyStr "income prediction");
              ("demographics", PyStr "adults") ] |}.

Definition census_bom : AIBOM :=
  {| spdx_version := spdx_version empty_bom;
     data_license := data_license empty_bom;
     spdx_id := spdx_id empty_bom;
     name := name empty_bom;
     document_namespace := document_namespace empty_bom;
     creator := creator empty_bom;
     models := [];
     datasets := [census_dataset];
     dependencies := [];
     repository_url := None;
     repository_commit := None;
     metadata := [] |}.

(** An archive with one listed file and a manifest that carries its hash
    and the root hash, both as the plain host computes them. *)
Definition readme_info : EvidencePack.FileInfo :=
  [("filename", "README.txt"); ("path", "README.txt"); ("hash", "hello")].

Definition index_info : EvidencePack.FileInfo :=
  [ ("filename", "evidence/evidence_index.json");
    ("path", "evidence/evidence_index.json");
    ("hash", "{}") ].

Definition manifest_of (listed : list EvidencePack.FileInfo) (root : string)
    : EvidencePack.EvidenceManifest :=
  {| EvidencePack.em_schema_version := "1.0.0";
     EvidencePack.em_generated_at := 0%Z;
     EvidencePack.em_repo_id := "repo";
     EvidencePack.em_commit := None;
     EvidencePack.em_scan_run_id := None;
     EvidencePack.files := listed;
     EvidencePack.root_hash := root;
     EvidencePack.audit_trail_ref := None |}.

Definition pack_of (data : EvidencePack.EvidenceManifest) : EvidencePack.Archive :=
  {| EvidencePack.members :=
       <[ "README.txt" := "hello" ]>
         (<[ "evidence/evidence_index.json" := "{}" ]> ∅);
     EvidencePack.manifest_data := Some data |}.

End Samples.

(* ===================================================================== *)
(** * Notions that the properties are stated with                         *)
(* ===================================================================== *)

Module Notions.
Import Validators PolicyEngine.

(** The number of risks of critical severity that are still unmitigated,
    as [_check_residual_risks] counts them. *)
Definition critical_unmitigated_count (self : RiskManagementSystem) : nat :=
  List.length
    (List.filter (fun r => is_critical (severity r) && is_identified (status r))
                 (risk_register self)).

(** The same result with another evaluation time. *)
Definition at_time (r : ComplianceResult) (t : Timestamp) : ComplianceResult :=
  {| system_id := system_id r;
     compliant := compliant r;
     risk_level := risk_level r;
     technical_documentation := technical_documentation r;
     requirements_check := requirements_check r;
     evaluated_at := t;
     ai_bom_id := ai_bom_id r |}.

(** The encoding of one blank character. *)
Definition is_blank (c : string) : bool :=
  match c with
  | String c1 EmptyString => is_space c1
  | String c1 (String c2 EmptyString) => is_space2 c1 c2
  | String c1 (String c2 (String c3 EmptyString)) => is_space3 c1 c2 c3
  | _ => false
  end.

(** A non-empty run of blank characters. *)
Definition blank_run (ws : string) : Prop :=
  exists blanks : list string,
    blanks <> [] /\
    Forall (fun c => is_blank c = true) blanks /\
    ws = fold_right String.append EmptyString blanks.

Definition is_separator (c : ascii) : bool :=
  Ascii.eqb c "-" || Ascii.eqb c "." || Ascii.eqb c "_".

(** Two characters that differ at most in the case of a letter a to z or
    in the choice of the separator. *)
Definition same_char (c d : ascii) : bool :=
  Ascii.eqb (lower_char c) (lower_char d) || (is_separator c && is_separator d).

(** Two names that differ only in the case of the letters a to z or in
    the choice of hyphen, dot or underscore as the separator. *)
Fixpoint same_name (a b : string) : bool :=
  match a, b with
  | EmptyString, EmptyString => true
  | String c a', String d b' => same_char c d && same_name a' b'
  | _, _ => false
  end.

(** The character-wise normal form that [is_ai_related] compares. *)
Definition norm_char (c : ascii) : ascii :=
  let l := lower_char c in
  let h := if Ascii.eqb l "-" then "_"%char else l in
  if Ascii.eqb h "." then "_"%char else h.

(** The three validators that can raise return. *)
Definition sub_results_validate `{Host} (cb : option Path) (bom : AIBOM) : Prop :=
  (exists a10, DataGovernanceValidator_validate bom cb = Ok a10) /\
  (exists a12, LoggingValidator_validate bom cb = Ok a12) /\
  (exists acc, Article15AccuracyValidator_validate bom cb = Ok acc).

(** The order of [sorted]. *)
Definition str_le (a b : string) : Prop := String.leb a b = true.

(** The texts that step 5 of [evaluate_compliance] can append, in the
    order of the source. *)
Definition possible_critical_gaps : list string :=
  [ "Data Governance non-compliant (Article 10) - Quality, bias, lineage";
    "Risk Management System not established (Article 9)";
    "Automatic logging not implemented (Article 12)";
    "Incomplete technical documentation (Article 11)";
    "Human Oversight missing for HIGH-RISK system (Article 14)";
    "Accuracy metrics not properly defined or evaluated (Article 15)";
    "Robustness measures insufficient (Article 15)";
    "Cybersecurity requirements not satisfied (Article 15)";
    "Provider Obligations not satisfied (Article 16)";
    "Quality Management System not established (Article 17)";
    "EU Database registration missing for HIGH-RISK system (Article 61)";
    "Post-Market Monitoring Plan missing (Article 72)";
    "GPAI Compliance not satisfied (Annex X-XIII)" ].

(** One turn of the outer loop of [HighRiskClassifier.classify]. *)
Definition scan_step (text : string)
    (acc : list AnnexIIICategory * list string)
    (entry : AnnexIIICategory * list string)
    : list AnnexIIICategory * list string :=
  let '(detected, found) := acc in
  let '(cat, keywords) := entry in
  let hits := List.filter (fun k => contains k text) keywords in
  (if nonempty hits && negb (category_in cat detected)
   then detected ++ [cat] else detected,
   found ++ hits).

(** Some keyword of the category occurs in the text. *)
Definition keyword_occurs (text : string) (cat : AnnexIIICategory) : Prop :=
  exists keywords k,
    In (cat, keywords) CATEGORY_KEYWORDS /\ In k keywords /\ contains k text = true.

(** The names of the components built so far by [_extract_dependencies]. *)
Definition names_of (st : Generator.DepState) : list string :=
  List.map dep_name (fst st).

(** The loop invariant of [_extract_dependencies]: [seen_deps] holds the
    names of the components built so far, and no name is there twice. *)
Definition names_recorded (st : Generator.DepState) : Prop :=
  (forall n, n ∈ snd st <-> In n (names_of st)) /\ List.NoDup (names_of st).

(** The component built from a manifest entry. *)
Definition from_manifest_entry (dep : ConfigExtractor.ConfigDep)
    (d : DependencyComponent) : Prop :=
  ConfigExtractor.cd_name dep = Some (dep_name d) /\
  dep_name d <> EmptyString /\
  dep_version d = ConfigExtractor.cd_version dep /\
  dep_package_manager d = ConfigExtractor.cd_package_manager dep /\
  dep_is_ai_related d = ConfigExtractor.is_ai_related (dep_name d) /\
  dep_detected_in d = [default EmptyString (ConfigExtractor.cd_source_file dep)].

(** The component built from a detected import. *)
Definition from_import (detection : Generator.Detection)
    (d : DependencyComponent) : Prop :=
  exists g,
    Generator.search_import (Generator.det_match_text detection) = Some g /\
    dep_name d = lower g /\
    dep_version d = None /\
    dep_package_manager d = None /\
    dep_is_ai_related d = true /\
    dep_detected_in d = [Generator.det_file detection].

(** A name that some manifest entry gives. *)
Definition manifest_name (config_dependencies : list ConfigExtractor.ConfigDep)
    (n : string) : Prop :=
  n <> EmptyString /\
  exists dep, In dep config_dependencies /\ ConfigExtractor.cd_name dep = Some n.

(** A name that some detected import gives. *)
Definition import_name (ml_libraries : list Generator.Detection) (n : string) : Prop :=
  exists detection g,
    In detection ml_libraries /\
    Generator.search_import (Generator.det_match_text detection) = Some g /\
    n = lower g.

End Notions.

(* ===================================================================== *)
(** * Properties                                                          *)
(* ===================================================================== *)

Import ConfigExtractor Generator Validators PolicyEngineExt PolicyEngine DiffEngine Notions.

(** ** Booleans and numbers *)

Lemma qlt_true (a b : Q) : qlt a b = true <-> (a < b)%Q.
Proof.
  unfold qlt. destruct (Qlt_le_dec a b) as [Hlt | Hle]; split; intro Hx.
  - exact Hlt.
  - reflexivity.
  - discriminate.
  - exfalso. exact (Qlt_not_le _ _ Hx Hle).
Qed.

Lemma qlt_false (a b : Q) : qlt a b = false <-> (b <= a)%Q.
Proof.
  unfold qlt. destruct (Qlt_le_dec a b) as [Hlt | Hle]; split; intro Hx.
  - discriminate.
  - exfalso. exact (Qlt_not_le _ _ Hlt Hx).
  - exact Hle.
  - reflexivity.
Qed.

Lemma qge_true (a b : Q) : qge a b = true <-> (b <= a)%Q.
Proof. unfold qge. rewrite negb_true_iff. apply qlt_false. Qed.

Lemma length_zero_nil {A : Type} (l : list A) :
  (List.length l =? 0)%nat = true <-> l = [].
Proof. destruct l; simpl; split; intro Hx; try reflexivity; discriminate. Qed.

Lemma RiskLevel_eqb_eq (a b : RiskLevel) : RiskLevel_eqb a b = true <-> a = b.
Proof. destruct a, b; simpl; split; intro Hx; try reflexivity; discriminate. Qed.

(** ** AIBOM construction *)


(** ** Risk management *)

(** C5, as stated, fails: a register whose only critical risk has been
    mitigated has no critical unmitigated risk, a continuous process and
    acceptable residual risks, and is not compliant. *)
Lemma risk_management_mitigated_critical_not_compliant :
  continuous_process_established Samples.mitigated_register = true /\
  risk_register Samples.mitigated_register <> [] /\
  critical_unmitigated_count Samples.mitigated_register = 0%nat /\
  residual_risks_acceptable Samples.mitigated_register = true /\
  RiskManagementSystem_compliant Samples.mitigated_register = false.
Proof. repeat split; try reflexivity. discriminate. Qed.

(** C5, amended. A risk management system is compliant exactly when the
    continuous process is established, the register is not empty, it has
    no risk of critical severity, whatever the status of the risk, and the
    residual risks are acceptable. *)
Theorem risk_management_compliant_iff (self : RiskManagementSystem) :
  RiskManagementSystem_compliant self = true <->
  continuous_process_established self = true /\
  risk_register self <> [] /\
  critical_risks_count self = 0%nat /\
  residual_risks_acceptable self = true.
Proof.
  unfold RiskManagementSystem_compliant.
  rewrite !andb_true_iff, Nat.ltb_lt, Nat.eqb_eq.
  destruct (risk_register self) as [| r rest] eqn:Hreg; simpl.
  - split.
    + intros [[[_ Hlen] _] _]. lia.
    + intros (_ & Hne & _). congruence.
  - split.
    + intros [[[Hc _] Hz] Hr]. repeat split; auto; discriminate.
    + intros (Hc & _ & Hz & Hr). repeat split; auto. lia.
Qed.

(** On the registers that the validator builds every risk is unmitigated,
    so there the two counts agree. *)
Lemma generated_register_all_identified (ai_bom : AIBOM) (level : RiskLevel)
    (cat : option AnnexIIICategory) :
  Forall (fun r => status r = IDENTIFIED) (_generate_risk_register ai_bom level cat).
Proof.
  assert (Hcommon : forall mt entries i,
            Forall (fun r => status r = IDENTIFIED) (common_risks_from mt i entries)).
  { intros mt entries. induction entries as [| [[[d c] s] l] rest IH]; intro i; simpl.
    - constructor.
    - constructor; [reflexivity | apply IH]. }
  assert (Hmodels : Forall (fun r => status r = IDENTIFIED)
            (List.concat
               (List.map (fun model =>
                  let model_type := ModelType_value (mc_model_type model) in
                  match COMMON_RISKS model_type with
                  | Some entries => common_risks_from model_type 0 entries
                  | None => []
                  end) (models ai_bom)))).
  { induction (models ai_bom) as [| m ms IH]; simpl.
    - constructor.
    - apply Forall_app. split; [| exact IH].
      destruct (COMMON_RISKS _); [apply Hcommon | constructor]. }
  assert (Hcat : forall c, Forall (fun r => status r = IDENTIFIED)
                                  (_get_category_specific_risks c)).
  { intros c. destruct c; simpl; repeat constructor. }
  unfold _generate_risk_register.
  match goal with
  | |- Forall _ (if _ then ?l ++ _ else ?l) =>
      assert (Hwith : Forall (fun r => status r = IDENTIFIED) l)
  end.
  { destruct cat as [c |]; [| exact Hmodels].
    destruct (negb (AnnexIIICategory_eqb c CAT_NONE)); [| exact Hmodels].
    apply Forall_app. split; [exact Hmodels | apply Hcat]. }
  destruct (_ && _); [| exact Hwith].
  apply Forall_app. split; [exact Hwith |]. repeat constructor.
Qed.

Lemma validated_register_counts_agree (ai_bom : AIBOM) (level : RiskLevel)
    (cat : option AnnexIIICategory) :
  critical_unmitigated_count (RiskManagementValidator_validate ai_bom level cat) =
  critical_risks_count (RiskManagementValidator_validate ai_bom level cat).
Proof.
  unfold critical_unmitigated_count, critical_risks_count,
    RiskManagementValidator_validate; simpl.
  pose proof (generated_register_all_identified ai_bom level cat) as Hall.
  induction Hall as [| r rest Hr _ IH]; simpl; [reflexivity |].
  rewrite Hr; simpl. rewrite andb_true_r.
  destruct (is_critical (severity r)); simpl; congruence.
Qed.

(** ** The diff engine *)

Lemma filter_map_status (tag wanted : string) (gaps : list string) :
  List.map gap
    (List.filter (fun g => String.eqb (gap_status g) wanted)
       (List.map (fun g => {| gap := g; gap_status := tag |}) gaps)) =
  if String.eqb tag wanted then gaps else [].
Proof.
  induction gaps as [| g rest IH]; simpl.
  - destruct (String.eqb tag wanted); reflexivity.
  - destruct (String.eqb tag wanted) eqn:Htag; simpl; rewrite IH; reflexivity.
Qed.

(** The gaps that [compute_diff] reports as new and as resolved. *)
Lemma new_gaps_are_difference (base_gaps head_gaps : list string) :
  List.map gap
    (List.filter (fun g => String.eqb (gap_status g) "new")
       (_compute_gap_deltas base_gaps head_gaps)) =
  elements ((list_to_set head_gaps : gset string) ∖ list_to_set base_gaps).
Proof.
  unfold _compute_gap_deltas.
  rewrite !List.filter_app, !List.map_app, !filter_map_status. simpl.
  rewrite List.app_nil_r. reflexivity.
Qed.

Lemma resolved_gaps_are_difference (base_gaps head_gaps : list string) :
  List.map gap
    (List.filter (fun g => String.eqb (gap_status g) "resolved")
       (_compute_gap_deltas base_gaps head_gaps)) =
  elements ((list_to_set base_gaps : gset string) ∖ list_to_set head_gaps).
Proof.
  unfold _compute_gap_deltas.
  rewrite !List.filter_app, !List.map_app, !filter_map_status. simpl.
  rewrite List.app_nil_r. reflexivity.
Qed.

Lemma compute_diff_new_gaps `{Host} now base head repo bc hc files :
  new_critical_gaps (compute_diff now base head repo bc hc files) =
  elements ((list_to_set (critical_gaps (requirements_check head)) : gset string) ∖
            list_to_set (critical_gaps (requirements_check base))).
Proof.
  unfold compute_diff, model_post_init. simpl. apply new_gaps_are_difference.
Qed.

Lemma compute_diff_resolved_gaps `{Host} now base head repo bc hc files :
  resolved_gaps (compute_diff now base head repo bc hc files) =
  elements ((list_to_set (critical_gaps (requirements_check base)) : gset string) ∖
            list_to_set (critical_gaps (requirements_check head))).
Proof.
  unfold compute_diff, model_post_init. simpl. apply resolved_gaps_are_difference.
Qed.

(** C7. When every critical gap of the base result is a critical gap of
    the head result and the head result has a critical gap that the base
    result lacks, the diff lists at least one new critical gap and no
    resolved gap. *)
Theorem superset_gaps_new_and_none_resolved `{Host}
    (now : Timestamp) (base head : ComplianceResult)
    (repo bc hc : string) (files : option (list ChangedFile)) :
  (forall g, In g (critical_gaps (requirements_check base)) ->
             In g (critical_gaps (requirements_check head))) ->
  (exists g, In g (critical_gaps (requirements_check head)) /\
             ~ In g (critical_gaps (requirements_check base))) ->
  new_critical_gaps (compute_diff now base head repo bc hc files) <> [] /\
  resolved_gaps (compute_diff now base head repo bc hc files) = [].
Proof.
  intros Hsub [g [Hin Hout]].
  rewrite compute_diff_new_gaps, compute_diff_resolved_gaps.
  split.
  - intro Hnil.
    assert (Hg : g ∈ elements ((list_to_set (critical_gaps (requirements_check head))
                                : gset string) ∖
                               list_to_set (critical_gaps (requirements_check base)))).
    { apply elem_of_elements, elem_of_difference.
      rewrite !elem_of_list_to_set, !list_elem_of_In. auto. }
    rewrite Hnil in Hg. inversion Hg.
  - apply elements_empty_iff, elem_of_equiv_empty. intros x Hx.
    apply elem_of_difference in Hx as [Hb Hh].
    rewrite elem_of_list_to_set, list_elem_of_In in Hb, Hh. auto.
Qed.

Lemma superset_gaps_witness :
  new_critical_gaps
    (compute_diff (H := Samples.plain_host) 0%Z
       (Samples.result_with (10 # 13) ["A"])
       (Samples.result_with (9 # 13) ["A"; "B"])
       "repo" "c0" "c1" None) <> [] /\
  resolved_gaps
    (compute_diff (H := Samples.plain_host) 0%Z
       (Samples.result_with (10 # 13) ["A"])
       (Samples.result_with (9 # 13) ["A"; "B"])
       "repo" "c0" "c1" None) = [].
Proof.
  apply (superset_gaps_new_and_none_resolved (H := Samples.plain_host)).
  - simpl. intros g [<- | []]. left. reflexivity.
  - exists "B". simpl. split.
    + right. left. reflexivity.
    + intros [Hx | []]. discriminate.
Defined.

Lemma nearest_double_proper (a b : Q) :
  (a == b)%Q -> nearest_double a = nearest_double b.
Proof.
  intros Hab. unfold nearest_double. rewrite (Qred_complete a b Hab). reflexivity.
Qed.

Lemma nearest_double_opp (a : Q) : (nearest_double (- a) == - nearest_double a)%Q.
Proof.
  unfold nearest_double. rewrite Qred_opp.
  destruct (Qred a) as [[| n | n] d]; cbn [Qopp Qnum Qden Z.opp].
  - reflexivity.
  - reflexivity.
  - rewrite Qopp_involutive. reflexivity.
Qed.

Lemma float_sub_self (a : Q) : float_sub a a = 0%Q.
Proof.
  unfold float_sub.
  rewrite (nearest_double_proper (nearest_double a - nearest_double a) 0); [reflexivity |].
  ring.
Qed.

Lemma float_sub_exchanged (a b : Q) : (float_sub a b == - float_sub b a)%Q.
Proof.
  unfold float_sub.
  rewrite (nearest_double_proper (nearest_double a - nearest_double b)
             (- (nearest_double b - nearest_double a))) by ring.
  apply nearest_double_opp.
Qed.

Lemma hundredth_positive : (0 < nearest_double (1 # 100))%Q.
Proof. vm_compute. reflexivity. Qed.

Lemma classify_direction_cases (d : Q) :
  (classify_direction d = "unchanged" <-> (Qabs d < nearest_double (1 # 100))%Q) /\
  (classify_direction d = "improved" <-> (nearest_double (1 # 100) <= d)%Q) /\
  (classify_direction d = "degraded" <-> (d <= - nearest_double (1 # 100))%Q).
Proof.
  unfold classify_direction.
  pose proof hundredth_positive as Heps.
  set (eps := nearest_double (1 # 100)) in *.
  destruct (qlt (Qabs d) eps) eqn:Habs.
  - apply qlt_true in Habs. pose proof Habs as Hboth.
    apply Qabs_Qlt_condition in Hboth as [Hlo Hhi].
    repeat split; intro Hx; try discriminate; try exact Habs; exfalso.
    + exact (Qlt_not_le _ _ Hhi Hx).
    + exact (Qlt_not_le _ _ Hlo Hx).
  - apply qlt_false in Habs.
    destruct (qlt 0 d) eqn:Hpos.
    + apply qlt_true in Hpos.
      rewrite (Qabs_pos d (Qlt_le_weak _ _ Hpos)) in Habs.
      repeat split; intro Hx; try discriminate; try exact Habs; exfalso.
      * apply Qabs_Qlt_condition in Hx as [_ Hhi]. exact (Qlt_not_le _ _ Hhi Habs).
      * apply (Qlt_not_le _ _ Hpos). apply (Qle_trans _ _ _ Hx).
        apply (Qopp_le_compat 0 eps), Qlt_le_weak, Heps.
    + apply qlt_false in Hpos.
      rewrite (Qabs_neg d Hpos) in Habs.
      assert (Hneg : (d <= - eps)%Q).
      { apply Qopp_le_compat in Habs. rewrite Qopp_involutive in Habs. exact Habs. }
      repeat split; intro Hx; try discriminate; try exact Hneg; exfalso.
      * apply Qabs_Qlt_condition in Hx as [Hlo _]. exact (Qlt_not_le _ _ Hlo Hneg).
      * apply (Qle_not_lt _ _ (Qle_trans _ _ _ Hx Hpos)). exact Heps.
Qed.

(** C8. A score is a field bounded by 0 and 1.  The score delta of a diff
    of two results is the head score minus the base score, as floats: the
    difference of the two doubles, rounded to the nearest double.  Its
    direction is [unchanged] exactly when the absolute delta is below the
    double 0.01, [improved] exactly when the delta is that double or more,
    and [degraded] exactly when it is minus that double or less. *)
Theorem score_delta_and_direction `{Host}
    (now : Timestamp) (base head : ComplianceResult)
    (repo bc hc : string) (files : option (list ChangedFile)) :
  (0 <= compliance_score (requirements_check base) <= 1)%Q ->
  (0 <= compliance_score (requirements_check head) <= 1)%Q ->
  let d := compute_diff now base head repo bc hc files in
  let epsilon := nearest_double (1 # 100) in
  score_delta d =
    nearest_double
      (nearest_double (compliance_score (requirements_check head)) -
       nearest_double (compliance_score (requirements_check base)))%Q /\
  (score_direction d = "unchanged" <-> (Qabs (score_delta d) < epsilon)%Q) /\
  (score_direction d = "improved" <-> (epsilon <= score_delta d)%Q) /\
  (score_direction d = "degraded" <-> (score_delta d <= - epsilon)%Q).
Proof.
  intros _ _.
  unfold compute_diff, model_post_init.
  cbn [diff_hash String.eqb set_diff_hash score_delta score_direction].
  split; [reflexivity | apply classify_direction_cases].
Qed.

Lemma score_delta_and_direction_witness :
  let d := compute_diff (H := Samples.plain_host) 0%Z
             (Samples.result_with (10 # 100) []) (Samples.result_with (11 # 100) [])
             "repo" "c0" "c1" None in
  let epsilon := nearest_double (1 # 100) in
  score_delta d =
    nearest_double (nearest_double (11 # 100) - nearest_double (10 # 100))%Q /\
  (score_direction d = "unchanged" <-> (Qabs (score_delta d) < epsilon)%Q) /\
  (score_direction d = "improved" <-> (epsilon <= score_delta d)%Q) /\
  (score_direction d = "degraded" <-> (score_delta d <= - epsilon)%Q).
Proof.
  apply (score_delta_and_direction (H := Samples.plain_host) 0%Z
           (Samples.result_with (10 # 100) []) (Samples.result_with (11 # 100) [])
           "repo" "c0" "c1" None).
  - vm_compute. split; discriminate.
  - vm_compute. split; discriminate.
Defined.

(** C4. The hash of a diff is the SHA-256 of the sorted-keys JSON of the
    schema version, the repository, the two commits, the two scores, their
    difference (as floats) and the two result hashes, each of which is the SHA-256 of
    the sorted-keys JSON of the system identifier, the verdict, the score,
    the risk level and the sorted critical gaps.  So two runs on the same
    results, repository and commits give the same hash, whatever the clock
    reads at each run, whatever the changed files are and whenever the two
    results were evaluated. *)
Theorem diff_hash_reproducible `{Host}
    (now1 now2 t1 t2 : Timestamp) (base head : ComplianceResult)
    (repo bc hc : string) (files1 files2 : option (list ChangedFile)) :
  let result_hash (r : ComplianceResult) :=
    sha256_hex
      (json_dumps_sorted
         (JObj [ ("system_id", JStr (system_id r));
                 ("compliant", JBool (compliant r));
                 ("compliance_score", JNum (compliance_score (requirements_check r)));
                 ("risk_level", JStr (RiskLevel_value (risk_level r)));
                 ("critical_gaps",
                  JArr (List.map JStr (sorted (critical_gaps (requirements_check r))))) ])) in
  diff_hash (compute_diff now1 base head repo bc hc files1) =
    sha256_hex
      (json_dumps_sorted
         (JObj [ ("schema_version", JStr "1.0.0");
                 ("repo_id", JStr repo);
                 ("base_commit", JStr bc);
                 ("head_commit", JStr hc);
                 ("base_score", JNum (compliance_score (requirements_check base)));
                 ("head_score", JNum (compliance_score (requirements_check head)));
                 ("score_delta",
                  JNum (float_sub (compliance_score (requirements_check head))
                                  (compliance_score (requirements_check base))));
                 ("base_result_hash", JStr (result_hash base));
                 ("head_result_hash", JStr (result_hash head)) ])) /\
  diff_hash (compute_diff now1 base head repo bc hc files1) =
    diff_hash (compute_diff now2 base head repo bc hc files2) /\
  diff_hash (compute_diff now1 base head repo bc hc files1) =
    diff_hash (compute_diff now2 (at_time base t1) (at_time head t2) repo bc hc files2).
Proof.
  unfold compute_diff, model_post_init, compute_diff_hash, diff_hash_data,
    _hash_compliance_result, result_hash_data.
  simpl. repeat split; reflexivity.
Qed.

(** ** Dependency names *)

Lemma normal_form_pointwise (a : string) :
  replace_char "." "_" (replace_char "-" "_" (lower a)) = map_string norm_char a.
Proof.
  unfold replace_char, lower.
  induction a as [| c a IH]; simpl; [reflexivity |].
  rewrite IH. reflexivity.
Qed.

Lemma separator_norm_char (x : ascii) : is_separator x = true -> norm_char x = "_"%char.
Proof.
  unfold is_separator. intros Hx.
  apply orb_true_iff in Hx as [Hx | Hx];
    [apply orb_true_iff in Hx as [Hx | Hx] |];
    apply Ascii.eqb_eq in Hx; subst x; reflexivity.
Qed.

Lemma same_char_normalised (c d : ascii) :
  same_char c d = true -> norm_char c = norm_char d.
Proof.
  unfold same_char. intros Hsame.
  apply orb_true_iff in Hsame as [Heq | Hsep].
  - apply Ascii.eqb_eq in Heq. unfold norm_char. rewrite Heq. reflexivity.
  - apply andb_true_iff in Hsep as [Hc Hd].
    rewrite (separator_norm_char c Hc), (separator_norm_char d Hd). reflexivity.
Qed.

(** Names that differ only in case or separator have the same normal form. *)
Lemma same_name_normalised (a b : string) :
  same_name a b = true ->
  replace_char "." "_" (replace_char "-" "_" (lower a)) =
  replace_char "." "_" (replace_char "-" "_" (lower b)).
Proof.
  rewrite !normal_form_pointwise.
  revert b. induction a as [| c a IH]; intros [| d b] Hsame; simpl in Hsame;
    try discriminate; [reflexivity |].
  apply andb_true_iff in Hsame as [Hc Hrest]. simpl.
  f_equal; [exact (same_char_normalised c d Hc) | exact (IH b Hrest)].
Qed.

Lemma is_ai_related_same_name (a b : string) :
  same_name a b = true -> is_ai_related a = is_ai_related b.
Proof.
  intros Hsame. unfold is_ai_related.
  rewrite (same_name_normalised a b Hsame). reflexivity.
Qed.

(** What the generator keeps of two manifest entries. *)
Lemma two_manifest_entries (da db : ConfigDep) (a b : string) :
  cd_name da = Some a -> cd_name db = Some b ->
  a <> EmptyString -> b <> EmptyString ->
  List.map dep_name (_extract_dependencies [] [da; db]) =
  if String.eqb a b then [a] else [a; b].
Proof.
  intros Ha Hb Hane Hbne.
  unfold _extract_dependencies. simpl. rewrite Ha. simpl.
  destruct (String.eqb a EmptyString) eqn:Hae;
    [apply String.eqb_eq in Hae; contradiction |]. simpl.
  rewrite bool_decide_eq_true_2 by apply not_elem_of_empty.
  unfold add_config_dep. rewrite Hb. simpl.
  destruct (String.eqb b EmptyString) eqn:Hbe;
    [apply String.eqb_eq in Hbe; contradiction |]. simpl.
  destruct (String.eqb a b) eqn:Hab.
  - apply String.eqb_eq in Hab. subst b.
    rewrite bool_decide_eq_false_2; [reflexivity |].
    intros Hnot. apply Hnot, elem_of_union_l, elem_of_singleton. reflexivity.
  - apply String.eqb_neq in Hab.
    rewrite bool_decide_eq_true_2; [reflexivity |].
    intros Hin. apply elem_of_union in Hin as [Hin | Hin].
    + apply elem_of_singleton in Hin. congruence.
    + exact (not_elem_of_empty _ Hin).
Qed.

Lemma same_name_empty (a b : string) :
  same_name a b = true -> a <> EmptyString -> b <> EmptyString.
Proof.
  destruct a as [| c a], b as [| d b]; simpl; intros Hs Hne;
    try discriminate; exfalso; apply Hne; reflexivity.
Qed.

Lemma lower_empty (a : string) : a <> EmptyString -> lower a <> EmptyString.
Proof.
  destruct a as [| c a]; simpl; intros Hne; [exfalso; apply Hne; reflexivity |].
  discriminate.
Qed.

(** C6, as stated, fails: [scikit-learn] and [scikit_learn] differ only in
    the separator and the generator keeps both. *)
Lemma separator_variants_not_merged :
  same_name "scikit-learn" "scikit_learn" = true /\
  is_ai_related "scikit-learn" = is_ai_related "scikit_learn" /\
  List.map dep_name
    (_extract_dependencies []
       [Samples.config_dep "scikit-learn"; Samples.config_dep "scikit_learn"]) =
  ["scikit-learn"; "scikit_learn"] /\
  List.map dep_name
    (_extract_dependencies []
       (extract_from_package_json "package.json"
          (Some (PyDict [("dependencies",
                          PyDict [("scikit-learn", PyStr "1.4");
                                  ("scikit_learn", PyStr "1.4")])])))) =
  ["scikit-learn"; "scikit_learn"].
Proof. repeat split; vm_compute; reflexivity. Qed.

(** C6, amended. For two ASCII names that differ only in the case of the
    letters a to z or in the choice of hyphen, dot or underscore as the
    separator, the AI-relatedness flag agrees.  The generator compares
    names as strings: of two manifest entries with these names it drops
    the second exactly when the two names are the same string.  The
    manifest reader lowers the names, so two names of a package.json are
    merged exactly when they are equal up to letter case; names that
    differ in a separator are kept as two components. *)
Theorem dependency_names_case_and_separator
    (a b : string) (da db : ConfigDep) (file : Path) (va vb : PyVal) :
  is_ascii a = true ->
  is_ascii b = true ->
  same_name a b = true ->
  a <> EmptyString ->
  cd_name da = Some a ->
  cd_name db = Some b ->
  is_ai_related a = is_ai_related b /\
  List.map dep_name (_extract_dependencies [] [da; db]) =
    (if String.eqb a b then [a] else [a; b]) /\
  List.map dep_name
    (_extract_dependencies []
       (extract_from_package_json file
          (Some (PyDict [("dependencies", PyDict [(a, va); (b, vb)])])))) =
    (if String.eqb (lower a) (lower b) then [lower a] else [lower a; lower b]).
Proof.
  intros _ _ Hsame Hne Ha Hb.
  pose proof (same_name_empty a b Hsame Hne) as Hbne.
  split; [exact (is_ai_related_same_name a b Hsame) |].
  split; [exact (two_manifest_entries da db a b Ha Hb Hne Hbne) |].
  unfold extract_from_package_json. simpl.
  apply two_manifest_entries; try reflexivity; apply lower_empty; assumption.
Qed.

Lemma dependency_names_witness :
  is_ai_related "PyTorch" = is_ai_related "pytorch" /\
  List.map dep_name
    (_extract_dependencies []
       [Samples.config_dep "PyTorch"; Samples.config_dep "pytorch"]) =
    (if String.eqb "PyTorch" "pytorch" then ["PyTorch"] else ["PyTorch"; "pytorch"]) /\
  List.map dep_name
    (_extract_dependencies []
       (extract_from_package_json "package.json"
          (Some (PyDict [("dependencies",
                          PyDict [("PyTorch", PyStr "1.0"); ("pytorch", PyStr "2.0")])])))) =
    (if String.eqb (lower "PyTorch") (lower "pytorch")
     then [lower "PyTorch"] else [lower "PyTorch"; lower "pytorch"]).
Proof.
  apply (dependency_names_case_and_separator "PyTorch" "pytorch"
           (Samples.config_dep "PyTorch") (Samples.config_dep "pytorch")).
  - reflexivity.
  - reflexivity.
  - vm_compute. reflexivity.
  - discriminate.
  - reflexivity.
  - reflexivity.
Defined.

(** ** The policy engine *)

Lemma in_when (b : bool) (text : string) : b = true -> In text (when b text).
Proof. intros ->. left. reflexivity. Qed.

Lemma article_16_gap_collected level f9 f10 f11 f12 f14 facc frob fcyb f17 f61 f72 fg fd :
  In "Provider Obligations not satisfied (Article 16)"
     (collect_critical_gaps level f9 f10 f11 f12 f14 facc frob fcyb false f17 f61 f72 fg fd).
Proof.
  unfold collect_critical_gaps.
  do 8 (apply in_or_app; right).
  apply in_or_app. left. apply in_when. reflexivity.
Qed.

Lemma verdict_iff (score : Q) (gaps : list string) (level : RiskLevel)
    (f9 f10 f12 f11 f14 : bool) :
  qge score (85 # 100) && (List.length gaps =? 0)%nat &&
  (if RiskLevel_eqb level HIGH
   then forallb (fun b => b) [f9; f10; f12; f11; f14] else true) = true <->
  (85 # 100 <= score)%Q /\ gaps = [] /\
  (level = HIGH ->
   f9 = true /\ f10 = true /\ f12 = true /\ f11 = true /\ f14 = true).
Proof.
  rewrite !andb_true_iff, qge_true, length_zero_nil.
  destruct (RiskLevel_eqb level HIGH) eqn:Hlevel.
  - apply RiskLevel_eqb_eq in Hlevel. simpl.
    rewrite !andb_true_iff. intuition.
  - assert (Hne : level <> HIGH).
    { intros Heq. apply RiskLevel_eqb_eq in Heq. congruence. }
    intuition.
Qed.

Section Finish.
Context `{Host}.
Variables (now : Timestamp) (ai_bom : AIBOM) (sid : string)
  (doc : TechnicalDocumentation) (annex : HighRiskClassification)
  (a8 : Article8Compliance) (a9 : RiskManagementSystem) (a10 : DataGovernance)
  (base : AnnexIVRequirements) (a12 : LoggingCapability)
  (acc : AccuracyRequirements) (rob : RobustnessRequirements)
  (cyb : CybersecurityRequirements) (a1617 : ProviderObligations)
  (a61 : EUDatabaseRegistration) (a7273 : PostMarketMonitoring)
  (g : GPAICompliance).

Lemma finish_verdict r :
  finish_evaluation now ai_bom sid doc annex a8 a9 a10 base a12 acc rob cyb
                    a1617 a61 a7273 g = Ok r ->
  (compliant r = true <->
   (85 # 100 <= compliance_score (requirements_check r))%Q /\
   critical_gaps (requirements_check r) = [] /\
   (risk_level r = HIGH ->
    article_9_compliant (requirements_check r) = true /\
    article_10_compliant (requirements_check r) = true /\
    article_12_compliant (requirements_check r) = true /\
    article_11_compliant (requirements_check r) = true /\
    article_14_compliant (requirements_check r) = true)).
Proof.
  intros Hev. unfold finish_evaluation in Hev.
  cbv beta iota delta [bind] in Hev.
  destruct (generate_comprehensive_recommendations _ _ _ _ _ _ _)
    as [recs | e] in Hev; [| discriminate].
  injection Hev as <-.
  cbn [compliant requirements_check risk_level set_score_gaps_recs
       compliance_score critical_gaps article_9_compliant article_10_compliant
       article_12_compliant article_11_compliant article_14_compliant].
  apply verdict_iff.
Qed.

Lemma finish_never_compliant r :
  conformity_assessment_completed a1617 = false ->
  finish_evaluation now ai_bom sid doc annex a8 a9 a10 base a12 acc rob cyb
                    a1617 a61 a7273 g = Ok r ->
  compliant r = false /\
  article_16_compliant (requirements_check r) = false /\
  article_16_17 (requirements_check r) = Some a1617 /\
  In "Provider Obligations not satisfied (Article 16)"
     (critical_gaps (requirements_check r)).
Proof.
  intros Hca Hev. unfold finish_evaluation in Hev.
  cbv beta iota delta [bind] in Hev.
  destruct (generate_comprehensive_recommendations _ _ _ _ _ _ _)
    as [recs | e] in Hev; [| discriminate].
  injection Hev as <-.
  cbn [compliant requirements_check set_score_gaps_recs critical_gaps
       article_16_compliant article_16_17].
  rewrite Hca.
  pose proof (article_16_gap_collected (td_risk_level doc)
                (RiskManagementSystem_compliant a9) (DataGovernance_compliant a10)
                (article_11_compliant base) (LoggingCapability_compliant a12)
                (article_14_compliant base)
                (AccuracyRequirements_compliant acc)
                (RobustnessRequirements_compliant rob)
                (CybersecurityRequirements_compliant cyb)
                match qms a1617 with
                | Some q => QualityManagementSystem_compliant q
                | None => false
                end
                (EUDatabaseRegistration_compliant a61)
                (PostMarketMonitoring_compliant a7273)
                (if (0 <? List.length (gpai_models_detected g))%nat
                 then compliant_as_deployer g else true)
                (0 <? List.length (gpai_models_detected g))%nat) as Hgap.
  repeat split; try exact Hgap.
  match goal with
  | |- _ && (List.length ?l =? 0)%nat && _ = false =>
      destruct l as [| x rest]; [destruct Hgap |]
  end.
  simpl. rewrite andb_false_r. reflexivity.
Qed.

Lemma finish_score r :
  finish_evaluation now ai_bom sid doc annex a8 a9 a10 base a12 acc rob cyb
                    a1617 a61 a7273 g = Ok r ->
  gpai (requirements_check r) = Some g /\
  compliance_score (requirements_check r) =
    if (0 <? List.length (gpai_models_detected g))%nat
    then (inject_Z (Z.of_nat (articles_compliant_count (requirements_check r) +
                               (if compliant_as_deployer g then 1 else 0))) /
          inject_Z 14)%Q
    else (inject_Z (Z.of_nat (articles_compliant_count (requirements_check r))) /
          inject_Z 13)%Q.
Proof.
  intros Hev. unfold finish_evaluation in Hev.
  cbv beta iota delta [bind] in Hev.
  destruct (generate_comprehensive_recommendations _ _ _ _ _ _ _)
    as [recs | e] in Hev; [| discriminate].
  injection Hev as <-.
  cbn [requirements_check set_score_gaps_recs compliance_score gpai].
  split; [reflexivity |].
  unfold total_articles_checked.
  change (articles_compliant_count (set_score_gaps_recs ?rc _ _ _))
    with (articles_compliant_count rc).
  destruct (0 <? List.length (gpai_models_detected g))%nat; simpl andb; cbv iota.
  - destruct (compliant_as_deployer g); cbv iota.
    + reflexivity.
    + rewrite Nat.add_0_r. reflexivity.
  - reflexivity.
Qed.

End Finish.

(** An evaluation of an AI system that returns has got a result from each
    validator that can raise and has then run steps 4 to 8 on them. *)
Lemma evaluate_ai_system_inv `{Host} cb now bom doc sid r :
  _is_ai_system bom = true ->
  evaluate_compliance cb now bom doc sid = Ok r ->
  exists a10 a12 acc,
    DataGovernanceValidator_validate bom cb = Ok a10 /\
    LoggingValidator_validate bom cb = Ok a12 /\
    Article15AccuracyValidator_validate bom cb = Ok acc /\
    let technical_doc := effective_documentation cb bom doc in
    let level := td_risk_level technical_doc in
    let annex := HighRiskClassifier_classify bom cb in
    finish_evaluation now bom (default (spdx_id bom) sid) technical_doc annex
      Article8Validator_validate
      (RiskManagementValidator_validate bom level (head (annex_iii_categories annex)))
      a10 (validate_technical_documentation technical_doc) a12 acc
      (Article15RobustnessValidator_validate bom cb)
      (Article15CybersecurityValidator_validate bom cb)
      (ProviderObligationsValidator_validate bom level)
      (EUDatabaseValidator_validate level (system_name technical_doc))
      (PostMarketMonitoringValidator_validate level)
      (GPAIValidator_validate bom) = Ok r.
Proof.
  intros Hai Hev. unfold evaluate_compliance in Hev.
  rewrite Hai in Hev. cbv beta iota zeta delta [negb bind] in Hev.
  destruct (DataGovernanceValidator_validate bom cb) as [a10 | e]; [| discriminate].
  destruct (LoggingValidator_validate bom cb) as [a12 | e]; [| discriminate].
  destruct (Article15AccuracyValidator_validate bom cb) as [acc | e]; [| discriminate].
  exists a10, a12, acc. repeat split. exact Hev.
Qed.

Lemma assessed_quality_has_score (datasets : list DatasetComponent) (m : DataQualityMetrics) :
  _assess_data_quality datasets = Some m -> exists s, overall_score m = Some s.
Proof.
  unfold _assess_data_quality.
  destruct (negb (nonempty datasets)); [discriminate |].
  intros Hm. injection Hm as <-. simpl. eexists. reflexivity.
Qed.

Lemma validated_governance_has_score `{Host} bom cb a10 :
  DataGovernanceValidator_validate bom cb = Ok a10 ->
  forall m, data_quality_metrics a10 = Some m -> exists s, overall_score m = Some s.
Proof.
  unfold DataGovernanceValidator_validate.
  cbv beta iota zeta delta [bind].
  destruct (_assess_bias (datasets bom)) as [bias | e]; [| discriminate].
  destruct (_extract_data_lineage (datasets bom)) as [lineage | e]; [| discriminate].
  destruct (match _extract_governance_policies bom with
            | Some v => pydantic_list_str v
            | None => Some []
            end) as [policies |]; [| discriminate].
  intros Hok. injection Hok as <-. simpl.
  intros m Hm. exact (assessed_quality_has_score _ _ Hm).
Qed.

Lemma recommendations_returned `{Host} rc a9 a10 a12 annex g level :
  (forall m, data_quality_metrics a10 = Some m -> exists s, overall_score m = Some s) ->
  exists recs, generate_comprehensive_recommendations rc a9 a10 a12 annex g level = Ok recs.
Proof.
  intros Hscore. unfold generate_comprehensive_recommendations.
  destruct (data_quality_metrics a10) as [m |] eqn:Hm.
  - destruct (Hscore m eq_refl) as [s Hs]. rewrite Hs.
    cbv beta iota zeta delta [bind]. eexists. reflexivity.
  - cbv beta iota zeta delta [bind]. eexists. reflexivity.
Qed.

Lemma finish_returns `{Host} now bom sid doc annex a8 a9 a10 base a12 acc rob cyb
    a1617 a61 a7273 g :
  (forall m, data_quality_metrics a10 = Some m -> exists s, overall_score m = Some s) ->
  exists r,
    finish_evaluation now bom sid doc annex a8 a9 a10 base a12 acc rob cyb
                      a1617 a61 a7273 g = Ok r.
Proof.
  intros Hscore. unfold finish_evaluation.
  cbv beta iota delta [bind].
  match goal with
  | |- context [generate_comprehensive_recommendations ?rc ?x9 ?x10 ?x12 ?xa ?xg ?xl] =>
      destruct (recommendations_returned rc x9 x10 x12 xa xg xl Hscore) as [recs Hrecs];
      rewrite Hrecs
  end.
  eexists. reflexivity.
Qed.

(** The evaluation of an AI system returns a result whenever the three
    validators that can raise return. *)
Lemma evaluate_ai_system_returns `{Host} cb now bom doc sid :
  _is_ai_system bom = true ->
  sub_results_validate cb bom ->
  exists r, evaluate_compliance cb now bom doc sid = Ok r.
Proof.
  intros Hai ([a10 H10] & [a12 H12] & [acc Hacc]).
  unfold evaluate_compliance. rewrite Hai.
  cbv beta iota zeta delta [negb bind]. rewrite H10, H12, Hacc.
  apply finish_returns. exact (validated_governance_has_score bom cb a10 H10).
Qed.

Lemma bias_scan_plain `{Host} (datasets : list DatasetComponent) detected cats :
  Forall (fun ds => Validators.dict_truthy (ds_metadata ds) = false) datasets ->
  bias_scan datasets detected cats = Ok (detected, cats).
Proof.
  intros Hplain. induction Hplain as [| ds rest Hds _ IH]; simpl; [reflexivity |].
  destruct (ds_metadata ds) as [[| kv m] |]; simpl in Hds; try discriminate; exact IH.
Qed.

(** A bill of materials without metadata, on the document and on its
    datasets, gets through the three validators on every host. *)
Lemma plain_bom_validates `{Host} (cb : option Path) (bom : AIBOM) :
  metadata bom = [] ->
  Forall (fun ds => Validators.dict_truthy (ds_metadata ds) = false) (datasets bom) ->
  sub_results_validate cb bom.
Proof.
  intros Hmeta Hplain. repeat split.
  - unfold DataGovernanceValidator_validate, _assess_bias, _extract_data_lineage,
      _extract_governance_policies.
    rewrite Hmeta. simpl dict_get.
    rewrite (bias_scan_plain _ false [] Hplain).
    destruct (datasets bom) as [| ds rest] eqn:Hds; simpl.
    + eexists. reflexivity.
    + inversion Hplain as [| ? ? Hhead _]; subst.
      unfold get_opt_str, get_str_list.
      destruct (ds_metadata ds) as [[| kv m] |]; simpl in Hhead; try discriminate;
        eexists; reflexivity.
  - unfold LoggingValidator_validate, _detect_retention_period. rewrite Hmeta. simpl.
    eexists. reflexivity.
  - unfold Article15AccuracyValidator_validate. rewrite Hmeta. simpl.
    eexists. reflexivity.
Qed.

(** C1. The result that [evaluate_compliance] returns for an AI system is
    compliant exactly when its score is at least 0.85, its list of critical
    gaps is empty and, when its risk level is HIGH, Articles 9, 10, 12, 11
    and 14 are each compliant. *)
Theorem verdict_of_ai_system `{Host}
    (cb : option Path) (now : Timestamp) (bom : AIBOM)
    (doc : option TechnicalDocumentation) (sid : option string)
    (r : ComplianceResult) :
  _is_ai_system bom = true ->
  evaluate_compliance cb now bom doc sid = Ok r ->
  (compliant r = true <->
   (85 # 100 <= compliance_score (requirements_check r))%Q /\
   critical_gaps (requirements_check r) = [] /\
   (risk_level r = HIGH ->
    article_9_compliant (requirements_check r) = true /\
    article_10_compliant (requirements_check r) = true /\
    article_12_compliant (requirements_check r) = true /\
    article_11_compliant (requirements_check r) = true /\
    article_14_compliant (requirements_check r) = true)).
Proof.
  intros Hai Hev.
  destruct (evaluate_ai_system_inv cb now bom doc sid r Hai Hev)
    as (a10 & a12 & acc & _ & _ & _ & Hfinish).
  exact (finish_verdict _ _ _ _ _ _ _ _ _ _ _ _ _ _ _ _ _ r Hfinish).
Qed.

Lemma verdict_of_ai_system_witness :
  exists r,
    evaluate_compliance (H := Samples.plain_host) None 0%Z Samples.chat_bom None None = Ok r /\
    (compliant r = true <->
     (85 # 100 <= compliance_score (requirements_check r))%Q /\
     critical_gaps (requirements_check r) = [] /\
     (risk_level r = HIGH ->
      article_9_compliant (requirements_check r) = true /\
      article_10_compliant (requirements_check r) = true /\
      article_12_compliant (requirements_check r) = true /\
      article_11_compliant (requirements_check r) = true /\
      article_14_compliant (requirements_check r) = true)).
Proof.
  eexists. split.
  - vm_compute. reflexivity.
  - apply (verdict_of_ai_system (H := Samples.plain_host) None 0%Z Samples.chat_bom None None).
    + vm_compute. reflexivity.
    + vm_compute. reflexivity.
Defined.

(** C2. The score stored in the requirements check of an AI system is the
    number of compliant articles over the number of articles checked: over
    13 when no GPAI model is detected; over 14 when one is, and then the
    numerator counts GPAI only if the deployer obligations are compliant. *)
Theorem score_of_ai_system `{Host}
    (cb : option Path) (now : Timestamp) (bom : AIBOM)
    (doc : option TechnicalDocumentation) (sid : option string)
    (r : ComplianceResult) :
  _is_ai_system bom = true ->
  evaluate_compliance cb now bom doc sid = Ok r ->
  total_articles_checked (requirements_check r) = 13%nat /\
  exists g,
    gpai (requirements_check r) = Some g /\
    compliance_score (requirements_check r) =
      if (0 <? List.length (gpai_models_detected g))%nat
      then (inject_Z (Z.of_nat (articles_compliant_count (requirements_check r) +
                                 (if compliant_as_deployer g then 1 else 0))) /
            inject_Z 14)%Q
      else (inject_Z (Z.of_nat (articles_compliant_count (requirements_check r))) /
            inject_Z 13)%Q.
Proof.
  intros Hai Hev. split; [reflexivity |].
  destruct (evaluate_ai_system_inv cb now bom doc sid r Hai Hev)
    as (a10 & a12 & acc & _ & _ & _ & Hfinish).
  exists (GPAIValidator_validate bom).
  exact (finish_score _ _ _ _ _ _ _ _ _ _ _ _ _ _ _ _ _ r Hfinish).
Qed.

Lemma score_of_ai_system_witness :
  exists r,
    evaluate_compliance (H := Samples.plain_host) None 0%Z Samples.chat_bom None None = Ok r /\
    total_articles_checked (requirements_check r) = 13%nat /\
    exists g,
      gpai (requirements_check r) = Some g /\
      compliance_score (requirements_check r) =
        if (0 <? List.length (gpai_models_detected g))%nat
        then (inject_Z (Z.of_nat (articles_compliant_count (requirements_check r) +
                                   (if compliant_as_deployer g then 1 else 0))) /
              inject_Z 14)%Q
        else (inject_Z (Z.of_nat (articles_compliant_count (requirements_check r))) /
              inject_Z 13)%Q.
Proof.
  eexists. split.
  - vm_compute. reflexivity.
  - apply (score_of_ai_system (H := Samples.plain_host) None 0%Z Samples.chat_bom None None).
    + vm_compute. reflexivity.
    + vm_compute. reflexivity.
Defined.

Lemma provider_obligations_never_assessed (bom : AIBOM) (level : RiskLevel) :
  conformity_assessment_completed (ProviderObligationsValidator_validate bom level) = false.
Proof. reflexivity. Qed.

(** C10. For an AI system no result of [evaluate_compliance] is compliant:
    the provider obligations validator sets
    [conformity_assessment_completed] to false, so Article 16 is not
    compliant, its critical gap is in the list, and the verdict is false.
    A result is returned whenever the three validators that read untyped
    metadata return. *)
Theorem ai_system_never_compliant `{Host}
    (cb : option Path) (now : Timestamp) (bom : AIBOM)
    (doc : option TechnicalDocumentation) (sid : option string) :
  _is_ai_system bom = true ->
  (forall r, evaluate_compliance cb now bom doc sid = Ok r ->
     compliant r = false /\
     article_16_compliant (requirements_check r) = false /\
     (exists po, article_16_17 (requirements_check r) = Some po /\
                 conformity_assessment_completed po = false) /\
     In "Provider Obligations not satisfied (Article 16)"
        (critical_gaps (requirements_check r)) /\
     critical_gaps (requirements_check r) <> []) /\
  (sub_results_validate cb bom ->
   exists r, evaluate_compliance cb now bom doc sid = Ok r).
Proof.
  intros Hai. split.
  - intros r Hev.
    destruct (evaluate_ai_system_inv cb now bom doc sid r Hai Hev)
      as (a10 & a12 & acc & _ & _ & _ & Hfinish).
    cbv zeta in Hfinish.
    destruct (finish_never_compliant _ _ _ _ _ _ _ _ _ _ _ _ _ _ _ _ _ r
                (provider_obligations_never_assessed _ _) Hfinish)
      as (Hc & H16 & Hpo & Hgap).
    repeat split; try assumption.
    + eexists. split; [exact Hpo | reflexivity].
    + intros Hnil. rewrite Hnil in Hgap. destruct Hgap.
  - exact (evaluate_ai_system_returns cb now bom doc sid Hai).
Qed.

Lemma ai_system_never_compliant_witness :
  (forall r,
     evaluate_compliance (H := Samples.plain_host) None 0%Z Samples.chat_bom None None = Ok r ->
     compliant r = false /\
     article_16_compliant (requirements_check r) = false /\
     (exists po, article_16_17 (requirements_check r) = Some po /\
                 conformity_assessment_completed po = false) /\
     In "Provider Obligations not satisfied (Article 16)"
        (critical_gaps (requirements_check r)) /\
     critical_gaps (requirements_check r) <> []) /\
  (sub_results_validate (H := Samples.plain_host) None Samples.chat_bom ->
   exists r,
     evaluate_compliance (H := Samples.plain_host) None 0%Z Samples.chat_bom None None = Ok r).
Proof.
  apply (ai_system_never_compliant (H := Samples.plain_host) None 0%Z Samples.chat_bom None None).
  vm_compute. reflexivity.
Defined.

Lemma no_flagged_dependency_not_ai (bom : AIBOM) :
  models bom = [] ->
  datasets bom = [] ->
  (forall d, In d (dependencies bom) -> dep_is_ai_related d = false) ->
  _is_ai_system bom = false.
Proof.
  intros Hm Hd Hdeps. unfold _is_ai_system. rewrite Hm, Hd. simpl.
  assert (Hnone : List.filter dep_is_ai_related (dependencies bom) = []).
  { induction (dependencies bom) as [| d rest IH]; simpl; [reflexivity |].
    rewrite (Hdeps d (or_introl eq_refl)). apply IH.
    intros d' Hin. apply Hdeps. right. exact Hin. }
  rewrite Hnone. reflexivity.
Qed.

(** A bill of materials that is not an AI system gets the fixed result,
    whatever the host, the code base and the documentation are: no
    validator is consulted. *)
Lemma non_ai_system_short_circuit `{Host}
    (cb : option Path) (now : Timestamp) (bom : AIBOM)
    (doc : option TechnicalDocumentation) (sid : option string) :
  _is_ai_system bom = false ->
  evaluate_compliance cb now bom doc sid =
  Ok (_create_non_ai_compliance_result now bom (default (spdx_id bom) sid)).
Proof. intros Hai. unfold evaluate_compliance. rewrite Hai. reflexivity. Qed.

(** C3. For a bill of materials with no model, no dataset and no
    AI-related dependency, [evaluate_compliance] returns the result for
    systems outside the Act: compliant, score 1.0, risk level MINIMAL and
    the single recommendation that no action is required.  The result is
    the same on every host, code base and supplied documentation, so it
    does not depend on any validator. *)
Theorem non_ai_system_result `{Host}
    (cb : option Path) (now : Timestamp) (bom : AIBOM)
    (doc : option TechnicalDocumentation) (sid : option string) :
  models bom = [] ->
  datasets bom = [] ->
  (forall d, In d (dependencies bom) -> dep_is_ai_related d = false) ->
  exists r,
    evaluate_compliance cb now bom doc sid = Ok r /\
    r = _create_non_ai_compliance_result now bom (default (spdx_id bom) sid) /\
    compliant r = true /\
    compliance_score (requirements_check r) = 1%Q /\
    risk_level r = MINIMAL /\
    critical_gaps (requirements_check r) = [] /\
    recommendations (requirements_check r) =
      ["No action required - this is not an AI system subject to EU AI Act"] /\
    (forall (other : Host) cb' doc',
       evaluate_compliance (H := other) cb' now bom doc' sid = Ok r).
Proof.
  intros Hm Hd Hdeps.
  pose proof (no_flagged_dependency_not_ai bom Hm Hd Hdeps) as Hai.
  eexists. split; [apply non_ai_system_short_circuit; exact Hai |].
  repeat split.
  intros other cb' doc'. apply non_ai_system_short_circuit. exact Hai.
Qed.

Lemma non_ai_system_result_witness :
  exists r,
    evaluate_compliance (H := Samples.plain_host) None 0%Z Samples.webshop_bom None None = Ok r /\
    r = _create_non_ai_compliance_result 0%Z Samples.webshop_bom
          (default (spdx_id Samples.webshop_bom) None) /\
    compliant r = true /\
    compliance_score (requirements_check r) = 1%Q /\
    risk_level r = MINIMAL /\
    critical_gaps (requirements_check r) = [] /\
    recommendations (requirements_check r) =
      ["No action required - this is not an AI system subject to EU AI Act"] /\
    (forall (other : Host) cb' doc',
       evaluate_compliance (H := other) cb' 0%Z Samples.webshop_bom doc' None = Ok r).
Proof.
  apply (non_ai_system_result (H := Samples.plain_host) None 0%Z Samples.webshop_bom None None).
  - reflexivity.
  - reflexivity.
  - simpl. intros d [<- | [<- | []]]; reflexivity.
Defined.

(** ** Range of the data quality scores *)

Lemma dataset_quality_range (ds : DatasetComponent) :
  (0 <= dataset_quality ds <= 1)%Q.
Proof.
  unfold dataset_quality.
  destruct (match ds_size ds with Some n => negb (Z.eqb n 0) | None => false end);
    destruct (str_truthy (ds_source_location ds));
    destruct (match ds_license ds with Some _ => true | None => false end);
    destruct (dict_truthy (ds_metadata ds));
    split; vm_compute; discriminate.
Qed.

Lemma quality_total_range (datasets : list DatasetComponent) (start : Q) :
  (start <= fold_left (fun t ds => t + dataset_quality ds) datasets start)%Q /\
  (fold_left (fun t ds => t + dataset_quality ds) datasets start <=
   start + inject_Z (Z.of_nat (List.length datasets)))%Q.
Proof.
  revert start. induction datasets as [| ds rest IH]; intro start.
  - simpl. split; [apply Qle_refl |].
    rewrite Qplus_0_r. apply Qle_refl.
  - cbn [fold_left List.length].
    destruct (IH (start + dataset_quality ds)%Q) as [Hlo Hhi].
    destruct (dataset_quality_range ds) as [Hq0 Hq1].
    split.
    + apply Qle_trans with (start + dataset_quality ds)%Q; [| exact Hlo].
      rewrite <- (Qplus_0_r start) at 1. apply Qplus_le_r. exact Hq0.
    + apply (Qle_trans _ _ _ Hhi).
      rewrite Nat2Z.inj_succ, <- Z.add_1_l, inject_Z_plus.
      rewrite <- Qplus_assoc. apply Qplus_le_r.
      apply Qplus_le_l. exact Hq1.
Qed.

(** The metrics that [_assess_data_quality] builds satisfy the bounds 0
    and 1 that [DataQualityMetrics] declares, so its construction never
    fails validation. *)
Lemma assessed_quality_in_range (datasets : list DatasetComponent)
    (m : DataQualityMetrics) :
  _assess_data_quality datasets = Some m ->
  Forall (fun field => exists q, field = Some q /\ (0 <= q <= 1)%Q)
         [completeness m; consistency m; accuracy m; timeliness m; overall_score m].
Proof.
  unfold _assess_data_quality.
  destruct datasets as [| ds rest]; [discriminate |].
  cbn [nonempty negb].
  set (all := ds :: rest).
  assert (Hpos : (0 < List.length all)%nat) by (simpl; lia).
  destruct (0 <? List.length all)%nat eqn:Hlen; [| apply Nat.ltb_ge in Hlen; lia].
  set (total := fold_left (fun t d => t + dataset_quality d) all 0).
  set (count := inject_Z (Z.of_nat (List.length all))).
  assert (Hcount : (0 < count)%Q).
  { unfold count. rewrite <- (Zlt_Qlt 0). lia. }
  destruct (quality_total_range all 0) as [Hlo Hhi]. fold total in Hlo, Hhi.
  rewrite Qplus_0_l in Hhi. fold count in Hhi.
  assert (Hoverall : (0 <= total / count <= 1)%Q).
  { split.
    - apply Qle_shift_div_l; [exact Hcount |]. rewrite Qmult_0_l. exact Hlo.
    - apply Qle_shift_div_r; [exact Hcount |]. rewrite Qmult_1_l. exact Hhi. }
  intros Hm. injection Hm as <-. cbn.
  assert (Hestimate : (0 <= (if qlt (5 # 10) (total / count) then 8 # 10 else 5 # 10) <= 1)%Q).
  { destruct (qlt (5 # 10) (total / count)); split; vm_compute; discriminate. }
  repeat constructor; eexists; (split; [reflexivity |]);
    try exact Hoverall; try exact Hestimate.
  split; vm_compute; discriminate.
Qed.

(** ** Sorting of the critical gaps *)

Lemma str_le_cases (a b : string) : str_le a b <-> String_as_OT.lt a b \/ a = b.
Proof.
  unfold str_le, String.leb.
  destruct (String.compare a b) eqn:Hcmp.
  - apply String_as_OT.cmp_eq in Hcmp. tauto.
  - apply String_as_OT.cmp_lt in Hcmp. tauto.
  - split; [discriminate |].
    intros [Hlt | Heq].
    + apply String_as_OT.cmp_lt in Hlt. unfold String_as_OT.cmp in Hlt. congruence.
    + apply String_as_OT.cmp_eq in Heq. unfold String_as_OT.cmp in Heq. congruence.
Qed.

#[local] Instance str_le_trans : Transitive str_le.
Proof.
  intros a b c Hab Hbc. apply str_le_cases in Hab, Hbc. apply str_le_cases.
  destruct Hab as [Hab | ->]; destruct Hbc as [Hbc | ->]; auto.
  left. exact (String_as_OT.lt_trans _ _ _ Hab Hbc).
Qed.

#[local] Instance str_le_antisym : AntiSymm (=) str_le.
Proof. intros a b Hab Hba. exact (String.leb_antisym a b Hab Hba). Qed.

Lemma insert_sorted_permutation (x : string) (l : list string) :
  insert_sorted x l ≡ₚ x :: l.
Proof.
  induction l as [| y r IH]; simpl; [reflexivity |].
  destruct (String.leb x y); [reflexivity |].
  rewrite IH. apply Permutation_swap.
Qed.

Lemma sorted_permutation (l : list string) : sorted l ≡ₚ l.
Proof.
  induction l as [| x r IH]; simpl; [reflexivity |].
  rewrite insert_sorted_permutation, IH. reflexivity.
Qed.

Lemma insert_sorted_ordered (x : string) (l : list string) :
  StronglySorted str_le l -> StronglySorted str_le (insert_sorted x l).
Proof.
  induction l as [| y r IH]; intros Hsorted; simpl.
  - repeat constructor.
  - apply StronglySorted_inv in Hsorted as [Hr Hy].
    destruct (String.leb x y) eqn:Hxy.
    + constructor; [constructor; assumption |].
      constructor; [exact Hxy |].
      apply (List.Forall_impl (P := str_le y)); [| exact Hy].
      intros z Hyz. exact (str_le_trans x y z Hxy Hyz).
    + constructor; [exact (IH Hr) |].
      rewrite insert_sorted_permutation. constructor; [| exact Hy].
      destruct (String.leb_total x y) as [Hle | Hle]; [congruence | exact Hle].
Qed.

Lemma sorted_ordered (l : list string) : StronglySorted str_le (sorted l).
Proof.
  induction l as [| x r IH]; simpl; [constructor |].
  apply insert_sorted_ordered. exact IH.
Qed.

(** [sorted] gives the same list for every order of its argument. *)
Lemma sorted_order_independent (l1 l2 : list string) :
  l1 ≡ₚ l2 -> sorted l1 = sorted l2.
Proof.
  intros Hperm.
  apply (StronglySorted_unique str_le); try apply sorted_ordered.
  rewrite !sorted_permutation. exact Hperm.
Qed.

(** Two results with the same identifier, verdict, score and risk level
    and the same critical gaps in any order have the same hash. *)
Lemma result_hash_order_independent `{Host} (r1 r2 : ComplianceResult) :
  system_id r1 = system_id r2 ->
  compliant r1 = compliant r2 ->
  compliance_score (requirements_check r1) = compliance_score (requirements_check r2) ->
  risk_level r1 = risk_level r2 ->
  critical_gaps (requirements_check r1) ≡ₚ critical_gaps (requirements_check r2) ->
  _hash_compliance_result r1 = _hash_compliance_result r2.
Proof.
  intros Hid Hc Hs Hl Hg. unfold _hash_compliance_result, result_hash_data.
  rewrite Hid, Hc, Hs, Hl, (sorted_order_independent _ _ Hg). reflexivity.
Qed.

(** ** What every evaluation of an AI system has *)

Lemma in_when_iff (b : bool) (text x : string) :
  In x (when b text) <-> b = true /\ x = text.
Proof.
  destruct b; simpl.
  - split; [intros [<- | []]; auto | intros [_ ->]; auto].
  - split; [intros [] | intros [Hb _]; discriminate].
Qed.

Section FinishFields.
Context `{Host}.
Variables (now : Timestamp) (ai_bom : AIBOM) (sid : string)
  (doc : TechnicalDocumentation) (annex : HighRiskClassification)
  (a8 : Article8Compliance) (a9 : RiskManagementSystem) (a10 : DataGovernance)
  (base : AnnexIVRequirements) (a12 : LoggingCapability)
  (acc : AccuracyRequirements) (rob : RobustnessRequirements)
  (cyb : CybersecurityRequirements) (a1617 : ProviderObligations)
  (a61 : EUDatabaseRegistration) (a7273 : PostMarketMonitoring)
  (g : GPAICompliance).

(** The fields of the result, read off steps 4 to 8. *)
Lemma finish_fields r :
  finish_evaluation now ai_bom sid doc annex a8 a9 a10 base a12 acc rob cyb
                    a1617 a61 a7273 g = Ok r ->
  let rc := requirements_check r in
  let gpai_detected := (0 <? List.length (gpai_models_detected g))%nat in
  let gpai_ok := if gpai_detected then compliant_as_deployer g else true in
  let f17 := match qms a1617 with
             | Some q => QualityManagementSystem_compliant q
             | None => false
             end in
  (system_id r = sid /\ risk_level r = td_risk_level doc /\
   technical_documentation r = Some doc /\ evaluated_at r = now /\
   ai_bom_id r = Some (spdx_id ai_bom)) /\
  (article_8 rc = Some a8 /\
   article_9_compliant rc = RiskManagementSystem_compliant a9 /\
   article_10_compliant rc = DataGovernance_compliant a10 /\
   article_11_compliant rc = article_11_compliant base /\
   article_11_missing_fields rc = article_11_missing_fields base /\
   article_12_compliant rc = LoggingCapability_compliant a12 /\
   article_13_compliant rc = article_13_compliant base /\
   article_14_compliant rc = article_14_compliant base /\
   article_15_compliant rc = article_15_compliant base /\
   article_16_compliant rc = conformity_assessment_completed a1617 /\
   article_17_compliant rc = f17 /\
   article_61_compliant rc = EUDatabaseRegistration_compliant a61 /\
   article_72_compliant rc = PostMarketMonitoring_compliant a7273 /\
   article_73_compliant rc = incident_reporting_procedure a7273 /\
   gpai_compliant rc = gpai_ok) /\
  critical_gaps rc =
    collect_critical_gaps (td_risk_level doc)
      (RiskManagementSystem_compliant a9) (DataGovernance_compliant a10)
      (article_11_compliant base) (LoggingCapability_compliant a12)
      (article_14_compliant base)
      (AccuracyRequirements_compliant acc)
      (RobustnessRequirements_compliant rob)
      (CybersecurityRequirements_compliant cyb)
      (conformity_assessment_completed a1617) f17
      (EUDatabaseRegistration_compliant a61)
      (PostMarketMonitoring_compliant a7273)
      gpai_ok gpai_detected /\
  exists rc0,
    generate_comprehensive_recommendations rc0 a9 a10 a12 annex g (td_risk_level doc) =
    Ok (recommendations rc).
Proof.
  intros Hev. unfold finish_evaluation in Hev.
  cbv beta iota delta [bind] in Hev.
  destruct (generate_comprehensive_recommendations _ _ _ _ _ _ _)
    as [recs | e] eqn:Hrecs in Hev; [| discriminate].
  injection Hev as <-.
  cbv zeta.
  cbn [requirements_check set_score_gaps_recs system_id risk_level
       technical_documentation evaluated_at ai_bom_id
       article_8 article_9_compliant article_10_compliant article_11_compliant
       article_11_missing_fields article_12_compliant article_13_compliant
       article_14_compliant article_15_compliant article_16_compliant
       article_17_compliant article_61_compliant article_72_compliant
       article_73_compliant gpai_compliant critical_gaps recommendations].
  repeat split.
  eexists. exact Hrecs.
Qed.

End FinishFields.

(** The events that the logging validator reports never include the input
    data, so the capability it builds is never compliant. *)
Lemma logged_events_lack_input_data (bom : AIBOM) :
  str_in "input_data" (_detect_logged_events bom) = false.
Proof.
  unfold _detect_logged_events.
  destruct (nonempty (dependencies bom)); [| reflexivity].
  destruct (existsb _ (dependencies bom)); reflexivity.
Qed.

Lemma validated_logging_not_compliant `{Host} (bom : AIBOM) (cb : option Path)
    (a12 : LoggingCapability) :
  LoggingValidator_validate bom cb = Ok a12 ->
  LoggingCapability_compliant a12 = false.
Proof.
  unfold LoggingValidator_validate. cbv beta iota zeta delta [bind].
  destruct (validate_retention (_detect_retention_period bom)) as [ret | e];
    [| discriminate].
  intros Hok. injection Hok as <-.
  unfold LoggingCapability_compliant.
  cbn [events_logged forallb].
  rewrite logged_events_lack_input_data. cbn [andb].
  rewrite !andb_false_r. reflexivity.
Qed.

(** A register that the validator builds without the generic entry is
    empty or has a risk of critical severity. *)
Lemma common_risks_critical (model_type : string) entries :
  COMMON_RISKS model_type = Some entries ->
  forall i, existsb (fun r => is_critical (severity r))
                    (common_risks_from model_type i entries) = true.
Proof.
  unfold COMMON_RISKS.
  destruct (String.eqb model_type "llm");
    [intros Hsome; injection Hsome as <-; intros i; reflexivity |].
  destruct (String.eqb model_type "vision");
    [intros Hsome; injection Hsome as <-; intros i; reflexivity |].
  destruct (String.eqb model_type "recruitment");
    [intros Hsome; injection Hsome as <-; intros i; reflexivity |].
  discriminate.
Qed.

Lemma category_risks_critical (cat : AnnexIIICategory) :
  _get_category_specific_risks cat = [] \/
  existsb (fun r => is_critical (severity r)) (_get_category_specific_risks cat) = true.
Proof. destruct cat; simpl; auto. Qed.

Lemma no_critical_count (l : list Risk) :
  List.length (List.filter (fun r => is_critical (severity r)) l) = 0%nat <->
  existsb (fun r => is_critical (severity r)) l = false.
Proof.
  induction l as [| r rest IH]; simpl; [tauto |].
  destruct (is_critical (severity r)); simpl; [split; discriminate | exact IH].
Qed.

Lemma model_risks_critical (ms : list ModelComponent) :
  let from_models :=
    List.concat
      (List.map (fun model =>
                   let model_type := ModelType_value (mc_model_type model) in
                   match COMMON_RISKS model_type with
                   | Some entries => common_risks_from model_type 0 entries
                   | None => []
                   end) ms) in
  from_models = [] \/
  existsb (fun r => is_critical (severity r)) from_models = true.
Proof.
  cbv zeta. induction ms as [| m rest IH]; simpl; [left; reflexivity |].
  destruct (COMMON_RISKS (ModelType_value (mc_model_type m))) as [entries |] eqn:Hc.
  - right. rewrite existsb_app, (common_risks_critical _ _ Hc). reflexivity.
  - simpl. exact IH.
Qed.

Lemma register_without_critical (bom : AIBOM) (level : RiskLevel)
    (cat : option AnnexIIICategory) :
  existsb (fun r => is_critical (severity r))
          (_generate_risk_register bom level cat) = false ->
  _generate_risk_register bom level cat = [] \/
  (level = HIGH /\
   List.map risk_id (_generate_risk_register bom level cat) = ["RISK-GENERIC-001"] /\
   List.map severity (_generate_risk_register bom level cat) = [SEV_HIGH]).
Proof.
  unfold _generate_risk_register.
  pose proof (model_risks_critical (models bom)) as Hm. cbv zeta in Hm.
  set (from_models := List.concat _) in *.
  set (with_category :=
         match cat with
         | Some c =>
             if negb (AnnexIIICategory_eqb c CAT_NONE)
             then from_models ++ _get_category_specific_risks c
             else from_models
         | None => from_models
         end).
  assert (Hw : with_category = [] \/
               existsb (fun r => is_critical (severity r)) with_category = true).
  { subst with_category.
    destruct cat as [c |]; [| exact Hm].
    destruct (negb (AnnexIIICategory_eqb c CAT_NONE)); [| exact Hm].
    destruct Hm as [-> | Hm].
    - simpl. apply category_risks_critical.
    - right. rewrite existsb_app, Hm. reflexivity. }
  destruct Hw as [Hw | Hw].
  - rewrite Hw. simpl.
    destruct (RiskLevel_eqb level HIGH) eqn:Hl; simpl.
    + intros _. right. apply RiskLevel_eqb_eq in Hl. auto.
    + intros _. left. reflexivity.
  - destruct (RiskLevel_eqb level HIGH && (List.length with_category =? 0)%nat).
    + rewrite existsb_app, Hw. discriminate.
    + rewrite Hw. discriminate.
Qed.

Lemma validated_risk_management_high (bom : AIBOM) (level : RiskLevel)
    (cat : option AnnexIIICategory) :
  RiskManagementSystem_compliant (RiskManagementValidator_validate bom level cat) = true ->
  level = HIGH /\
  dict_has "risk_management_process" (metadata bom) = true /\
  List.map risk_id (risk_register (RiskManagementValidator_validate bom level cat)) =
    ["RISK-GENERIC-001"].
Proof.
  unfold RiskManagementSystem_compliant, critical_risks_count.
  cbn [RiskManagementValidator_validate continuous_process_established risk_register
       residual_risks_acceptable].
  rewrite !andb_true_iff, Nat.ltb_lt, Nat.eqb_eq, no_critical_count.
  intros [[[Hc Hlen] Hcrit] _].
  destruct (register_without_critical bom level cat Hcrit) as [Hnil | (Hl & Hid & _)].
  - rewrite Hnil in Hlen. simpl in Hlen. lia.
  - auto.
Qed.

Lemma high_risk_not_registered (name : string) :
  EUDatabaseRegistration_compliant (EUDatabaseValidator_validate HIGH name) = false.
Proof. reflexivity. Qed.

Lemma small_ratio_bound (n : nat) (d : Z) :
  (n <= 6)%nat -> d = 13%Z \/ d = 14%Z ->
  (inject_Z (Z.of_nat n) / inject_Z d <= 6 # 13)%Q.
Proof.
  intros Hn Hd.
  assert (Hcases : n = 0%nat \/ n = 1%nat \/ n = 2%nat \/ n = 3%nat \/
                   n = 4%nat \/ n = 5%nat \/ n = 6%nat) by lia.
  destruct Hd as [-> | ->];
    destruct Hcases as [-> | [-> | [-> | [-> | [-> | [-> | ->]]]]]];
    vm_compute; discriminate.
Qed.

Ltac ai_system_fields Hai Hev :=
  let a10 := fresh "a10" in
  let a12 := fresh "a12" in
  let acc := fresh "acc" in
  let H10 := fresh "H10" in
  let H12 := fresh "H12" in
  let Hacc := fresh "Hacc" in
  let Hfin := fresh "Hfin" in
  destruct (evaluate_ai_system_inv _ _ _ _ _ _ Hai Hev)
    as (a10 & a12 & acc & H10 & H12 & Hacc & Hfin);
  cbv zeta in Hfin;
  pose proof (finish_fields _ _ _ _ _ _ _ _ _ _ _ _ _ _ _ _ _ _ Hfin) as Hfields;
  cbv zeta in Hfields;
  destruct Hfields as (Hid & Hflags & Hgaps & Hrecs).

(** X1. Every result that evaluate_compliance returns for an AI system
    counts at most 6 compliant articles out of 13 and has a compliance score
    of at most 6/13, hence below the 0.85 that the verdict asks for: the
    validators for Articles 8, 12, 16, 17, 72 and 73 never report
    compliance, the GPAI deployer obligations neither, and Article 9 can
    only be compliant at risk level HIGH, where Article 61 is not. *)
Theorem ai_system_score_at_most_six_thirteenths `{Host}
    (cb : option Path) (now : Timestamp) (bom : AIBOM)
    (doc : option TechnicalDocumentation) (sid : option string)
    (r : ComplianceResult) :
  _is_ai_system bom = true ->
  evaluate_compliance cb now bom doc sid = Ok r ->
  (articles_compliant_count (requirements_check r) <= 6)%nat /\
  (compliance_score (requirements_check r) <= 6 # 13)%Q /\
  (compliance_score (requirements_check r) < 85 # 100)%Q.
Proof.
  intros Hai Hev. ai_system_fields Hai Hev.
  destruct Hflags as (H8 & H9 & _ & _ & _ & H12c & _ & _ & _ & H16 & H17 & H61 &
                      H72 & H73 & _).
  assert (Hcount : (articles_compliant_count (requirements_check r) <= 6)%nat).
  { unfold articles_compliant_count.
    rewrite H8, H9, H12c, H16, H17, H61, H72, H73.
    rewrite (validated_logging_not_compliant bom cb a12 H12).
    cbn [Article8Validator_validate Article8Compliance_compliant all_requirements_met
         andb ProviderObligationsValidator_validate conformity_assessment_completed
         qms QualityManagementSystem_compliant qms_established
         PostMarketMonitoringValidator_validate PostMarketMonitoring_compliant
         monitoring_plan_established incident_reporting_procedure].
    destruct (RiskManagementSystem_compliant _) eqn:Hrm.
    - apply validated_risk_management_high in Hrm as (Hhigh & _).
      rewrite Hhigh, high_risk_not_registered.
      unfold count_true.
      destruct (article_10_compliant (requirements_check r)), (article_11_compliant (requirements_check r)),
        (article_13_compliant (requirements_check r)), (article_14_compliant (requirements_check r)),
        (article_15_compliant (requirements_check r)); simpl; lia.
    - unfold count_true.
      destruct (article_10_compliant (requirements_check r)), (article_11_compliant (requirements_check r)),
        (article_13_compliant (requirements_check r)), (article_14_compliant (requirements_check r)),
        (article_15_compliant (requirements_check r)), (EUDatabaseRegistration_compliant _); simpl; lia. }
  assert (Hscore : (compliance_score (requirements_check r) <= 6 # 13)%Q).
  { destruct (finish_score _ _ _ _ _ _ _ _ _ _ _ _ _ _ _ _ _ r Hfin) as [_ ->].
    change (compliant_as_deployer (GPAIValidator_validate bom)) with false.
    cbv iota. rewrite Nat.add_0_r.
    destruct (0 <? _)%nat; apply small_ratio_bound; auto. }
  repeat split; try assumption.
  eapply Qle_lt_trans; [exact Hscore | reflexivity].
Qed.

Lemma ai_system_score_at_most_six_thirteenths_witness :
  exists r,
    evaluate_compliance (H := Samples.plain_host) None 0%Z Samples.chat_bom None None = Ok r /\
    (articles_compliant_count (requirements_check r) <= 6)%nat /\
    (compliance_score (requirements_check r) <= 6 # 13)%Q /\
    (compliance_score (requirements_check r) < 85 # 100)%Q.
Proof.
  eexists. split.
  - vm_compute. reflexivity.
  - apply (ai_system_score_at_most_six_thirteenths (H := Samples.plain_host)
             None 0%Z Samples.chat_bom None None).
    + vm_compute. reflexivity.
    + vm_compute. reflexivity.
Defined.

Section FinishParts.
Context `{Host}.
Variables (now : Timestamp) (ai_bom : AIBOM) (sid : string)
  (doc : TechnicalDocumentation) (annex : HighRiskClassification)
  (a8 : Article8Compliance) (a9 : RiskManagementSystem) (a10 : DataGovernance)
  (base : AnnexIVRequirements) (a12 : LoggingCapability)
  (acc : AccuracyRequirements) (rob : RobustnessRequirements)
  (cyb : CybersecurityRequirements) (a1617 : ProviderObligations)
  (a61 : EUDatabaseRegistration) (a7273 : PostMarketMonitoring)
  (g : GPAICompliance).

(** The sub-results that the result carries. *)
Lemma finish_parts r :
  finish_evaluation now ai_bom sid doc annex a8 a9 a10 base a12 acc rob cyb
                    a1617 a61 a7273 g = Ok r ->
  let rc := requirements_check r in
  article_9 rc = Some a9 /\ article_10 rc = Some a10 /\ article_12 rc = Some a12 /\
  article_15_accuracy rc = Some acc /\ article_15_robustness rc = Some rob /\
  article_15_cybersecurity rc = Some cyb /\ article_16_17 rc = Some a1617 /\
  article_61 rc = Some a61 /\ article_72_73 rc = Some a7273 /\
  annex_iii rc = Some annex /\ gpai rc = Some g.
Proof.
  intros Hev. unfold finish_evaluation in Hev.
  cbv beta iota delta [bind] in Hev.
  destruct (generate_comprehensive_recommendations _ _ _ _ _ _ _)
    as [recs | e] in Hev; [| discriminate].
  injection Hev as <-.
  cbv zeta.
  cbn [requirements_check set_score_gaps_recs article_9 article_10 article_12
       article_15_accuracy article_15_robustness article_15_cybersecurity
       article_16_17 article_61 article_72_73 annex_iii gpai].
  repeat split.
Qed.

End FinishParts.

Ltac ai_system_parts Hfin :=
  pose proof (finish_parts _ _ _ _ _ _ _ _ _ _ _ _ _ _ _ _ _ _ Hfin) as Hparts;
  cbv zeta in Hparts.

(** X2. For an AI system Article 12 is never compliant: the events that
    LoggingValidator reports are at most timestamp, log_level and message,
    never input_data, which LoggingCapability.compliant requires; so every
    returned result has article_12_compliant false and the Article 12 text
    among its critical gaps. *)
Theorem ai_system_logging_never_compliant `{Host}
    (cb : option Path) (now : Timestamp) (bom : AIBOM)
    (doc : option TechnicalDocumentation) (sid : option string)
    (r : ComplianceResult) :
  _is_ai_system bom = true ->
  evaluate_compliance cb now bom doc sid = Ok r ->
  article_12_compliant (requirements_check r) = false /\
  (exists a12, article_12 (requirements_check r) = Some a12 /\
               LoggingValidator_validate bom cb = Ok a12 /\
               str_in "input_data" (events_logged a12) = false /\
               LoggingCapability_compliant a12 = false) /\
  In "Automatic logging not implemented (Article 12)"
     (critical_gaps (requirements_check r)).
Proof.
  intros Hai Hev. ai_system_fields Hai Hev.
  destruct Hflags as (_ & _ & _ & _ & _ & H12c & _).
  pose proof (validated_logging_not_compliant bom cb a12 H12) as Hnot.
  split; [rewrite H12c; exact Hnot |]. split.
  - exists a12. repeat split; try assumption.
    + ai_system_parts Hfin. apply Hparts.
    + revert H12. unfold LoggingValidator_validate. cbv beta iota zeta delta [bind].
      destruct (validate_retention _) as [ret | e]; [| discriminate].
      intros Hok. injection Hok as <-. cbn [events_logged].
      apply logged_events_lack_input_data.
  - rewrite Hgaps, Hnot. unfold collect_critical_gaps.
    do 2 (apply in_or_app; right). apply in_or_app. left. left. reflexivity.
Qed.

Lemma ai_system_logging_never_compliant_witness :
  exists r,
    evaluate_compliance (H := Samples.plain_host) None 0%Z Samples.chat_bom None None = Ok r /\
    article_12_compliant (requirements_check r) = false /\
    (exists a12, article_12 (requirements_check r) = Some a12 /\
                 LoggingValidator_validate (H := Samples.plain_host) Samples.chat_bom None = Ok a12 /\
                 str_in "input_data" (events_logged a12) = false /\
                 LoggingCapability_compliant a12 = false) /\
    In "Automatic logging not implemented (Article 12)"
       (critical_gaps (requirements_check r)).
Proof.
  eexists. split.
  - vm_compute. reflexivity.
  - apply (ai_system_logging_never_compliant (H := Samples.plain_host)
             None 0%Z Samples.chat_bom None None).
    + vm_compute. reflexivity.
    + vm_compute. reflexivity.
Defined.

(** X3. The risk level of a result for an AI system is HIGH whenever the
    Annex III classifier finds a category, whatever level the supplied
    documentation declares; otherwise it is the level of the supplied
    documentation or, without one, the level assessed from the bill of
    materials. The documentation stored in the result carries that level,
    and the result stores the classification. *)
Theorem annex_iii_classification_forces_high_risk `{Host}
    (cb : option Path) (now : Timestamp) (bom : AIBOM)
    (doc : option TechnicalDocumentation) (sid : option string)
    (r : ComplianceResult) :
  _is_ai_system bom = true ->
  evaluate_compliance cb now bom doc sid = Ok r ->
  risk_level r =
    (if is_high_risk (HighRiskClassifier_classify bom cb) then HIGH
     else match doc with
          | Some d => td_risk_level d
          | None => _assess_risk_level bom
          end) /\
  (exists d, technical_documentation r = Some d /\ td_risk_level d = risk_level r) /\
  annex_iii (requirements_check r) = Some (HighRiskClassifier_classify bom cb).
Proof.
  intros Hai Hev. ai_system_fields Hai Hev.
  destruct Hid as (_ & Hlevel & Hdoc & _).
  split; [| split].
  - rewrite Hlevel. unfold effective_documentation.
    destruct (is_high_risk _); [reflexivity |].
    destruct doc; reflexivity.
  - eexists. split; [exact Hdoc | symmetry; exact Hlevel].
  - ai_system_parts Hfin. apply Hparts.
Qed.

Lemma annex_iii_classification_forces_high_risk_witness :
  exists r,
    evaluate_compliance (H := Samples.plain_host) None 0%Z Samples.chat_bom None None = Ok r /\
    risk_level r =
      (if is_high_risk (HighRiskClassifier_classify (H := Samples.plain_host) Samples.chat_bom None)
       then HIGH
       else match @None TechnicalDocumentation with
            | Some d => td_risk_level d
            | None => _assess_risk_level Samples.chat_bom
            end) /\
    (exists d, technical_documentation r = Some d /\ td_risk_level d = risk_level r) /\
    annex_iii (requirements_check r) =
      Some (HighRiskClassifier_classify (H := Samples.plain_host) Samples.chat_bom None).
Proof.
  eexists. split.
  - vm_compute. reflexivity.
  - apply (annex_iii_classification_forces_high_risk (H := Samples.plain_host)
             None 0%Z Samples.chat_bom None None).
    + vm_compute. reflexivity.
    + vm_compute. reflexivity.
Defined.

Lemma gpai_gap_collected_iff level f9 f10 f11 f12 f14 facc frob fcyb f16 f17 f61 f72 fg fd :
  In "GPAI Compliance not satisfied (Annex X-XIII)"
     (collect_critical_gaps level f9 f10 f11 f12 f14 facc frob fcyb f16 f17 f61 f72 fg fd) <->
  fg = false /\ fd = true.
Proof.
  unfold collect_critical_gaps.
  rewrite !in_app_iff, !in_when_iff.
  split.
  - intros Hin.
    repeat (destruct Hin as [[_ Hin] | Hin]; [discriminate |]).
    destruct Hin as [Hin _].
    apply andb_true_iff in Hin as [Hg Hd]. apply negb_true_iff in Hg. auto.
  - intros [-> ->]. do 12 right. split; reflexivity.
Qed.

(** X4. In a result for an AI system gpai_compliant is true exactly when no
    GPAI model is detected, and the GPAI text is among the critical gaps
    exactly when one is detected: the compliance that GPAIValidator builds
    never satisfies compliant_as_deployer. *)
Theorem gpai_compliant_iff_no_gpai_model `{Host}
    (cb : option Path) (now : Timestamp) (bom : AIBOM)
    (doc : option TechnicalDocumentation) (sid : option string)
    (r : ComplianceResult) :
  _is_ai_system bom = true ->
  evaluate_compliance cb now bom doc sid = Ok r ->
  (gpai_compliant (requirements_check r) = true <-> _detect_gpai_models bom = []) /\
  (In "GPAI Compliance not satisfied (Annex X-XIII)"
      (critical_gaps (requirements_check r)) <-> _detect_gpai_models bom <> []) /\
  (exists g, gpai (requirements_check r) = Some g /\
             gpai_models_detected g = _detect_gpai_models bom /\
             compliant_as_deployer g = false).
Proof.
  intros Hai Hev. ai_system_fields Hai Hev. ai_system_parts Hfin.
  destruct Hflags as (_ & _ & _ & _ & _ & _ & _ & _ & _ & _ & _ & _ & _ & _ & Hg).
  clear Hfin Hrecs Hid.
  split; [| split].
  - rewrite Hg.
    change (compliant_as_deployer (GPAIValidator_validate bom)) with false.
    change (gpai_models_detected (GPAIValidator_validate bom))
      with (_detect_gpai_models bom).
    destruct (_detect_gpai_models bom); simpl; split;
      intros; try discriminate; reflexivity.
  - rewrite Hgaps, gpai_gap_collected_iff.
    change (compliant_as_deployer (GPAIValidator_validate bom)) with false.
    change (gpai_models_detected (GPAIValidator_validate bom))
      with (_detect_gpai_models bom).
    destruct (_detect_gpai_models bom) as [| m ms]; simpl.
    + split; [intros [_ Hx]; discriminate | intros Hne; exfalso; apply Hne; reflexivity].
    + split; [intros _; discriminate | intros _; split; reflexivity].
  - exists (GPAIValidator_validate bom). repeat split. apply Hparts.
Qed.

Lemma gpai_compliant_iff_no_gpai_model_witness :
  exists r,
    evaluate_compliance (H := Samples.plain_host) None 0%Z Samples.chat_bom None None = Ok r /\
    (gpai_compliant (requirements_check r) = true <->
     _detect_gpai_models Samples.chat_bom = []) /\
    (In "GPAI Compliance not satisfied (Annex X-XIII)"
        (critical_gaps (requirements_check r)) <->
     _detect_gpai_models Samples.chat_bom <> []) /\
    (exists g, gpai (requirements_check r) = Some g /\
               gpai_models_detected g = _detect_gpai_models Samples.chat_bom /\
               compliant_as_deployer g = false).
Proof.
  eexists. split.
  - vm_compute. reflexivity.
  - apply (gpai_compliant_iff_no_gpai_model (H := Samples.plain_host)
             None 0%Z Samples.chat_bom None None).
    + vm_compute. reflexivity.
    + vm_compute. reflexivity.
Defined.

Lemma when_cons_sublist (b : bool) (text : string) (l k : list string) :
  sublist l k -> sublist (when b text ++ l) (text :: k).
Proof.
  intros Hlk. destruct b; simpl; [apply sublist_skip | apply sublist_cons]; exact Hlk.
Qed.

Lemma collected_gaps_sublist level f9 f10 f11 f12 f14 facc frob fcyb f16 f17 f61 f72 fg fd :
  sublist
    (collect_critical_gaps level f9 f10 f11 f12 f14 facc frob fcyb f16 f17 f61 f72 fg fd)
    possible_critical_gaps.
Proof.
  unfold collect_critical_gaps, possible_critical_gaps.
  repeat apply when_cons_sublist.
  destruct (_ && _); simpl; [apply sublist_skip | apply sublist_cons]; constructor.
Qed.

Lemma possible_critical_gaps_distinct : base.NoDup possible_critical_gaps.
Proof.
  apply (bool_decide_unpack (base.NoDup possible_critical_gaps)).
  vm_compute. reflexivity.
Qed.

(** X5. The critical gaps of every result of evaluate_compliance are a
    subsequence of one fixed list of thirteen texts: they come in the order
    Article 10, 9, 12, 11, 14, 15 (accuracy, robustness, cybersecurity), 16,
    17, 61, 72, GPAI, none of them twice, so there are at most thirteen. *)
Theorem critical_gaps_in_fixed_order `{Host}
    (cb : option Path) (now : Timestamp) (bom : AIBOM)
    (doc : option TechnicalDocumentation) (sid : option string)
    (r : ComplianceResult) :
  evaluate_compliance cb now bom doc sid = Ok r ->
  sublist (critical_gaps (requirements_check r)) possible_critical_gaps /\
  List.NoDup (critical_gaps (requirements_check r)) /\
  (List.length (critical_gaps (requirements_check r)) <= 13)%nat.
Proof.
  intros Hev.
  assert (Hsub : sublist (critical_gaps (requirements_check r)) possible_critical_gaps).
  { destruct (_is_ai_system bom) eqn:Hai.
    - ai_system_fields Hai Hev. rewrite Hgaps. apply collected_gaps_sublist.
    - rewrite (non_ai_system_short_circuit cb now bom doc sid Hai) in Hev.
      injection Hev as <-. apply sublist_nil_l. }
  split; [exact Hsub |]. split.
  - apply NoDup_ListNoDup.
    exact (sublist_NoDup _ _ possible_critical_gaps_distinct Hsub).
  - apply sublist_length in Hsub. exact Hsub.
Qed.

Lemma critical_gaps_in_fixed_order_witness :
  exists r,
    evaluate_compliance (H := Samples.plain_host) None 0%Z Samples.chat_bom None None = Ok r /\
    sublist (critical_gaps (requirements_check r)) possible_critical_gaps /\
    List.NoDup (critical_gaps (requirements_check r)) /\
    (List.length (critical_gaps (requirements_check r)) <= 13)%nat.
Proof.
  eexists. split.
  - vm_compute. reflexivity.
  - apply (critical_gaps_in_fixed_order (H := Samples.plain_host)
             None 0%Z Samples.chat_bom None None).
    vm_compute. reflexivity.
Defined.

Lemma capped_list_bounds (l : list string) (text : string) :
  (1 <= List.length (take_upto 15 (l ++ when (List.length l <? 3)%nat text)) <= 15)%nat.
Proof.
  unfold take_upto. rewrite List.length_firstn, List.length_app.
  destruct (List.length l <? 3)%nat eqn:Hlen; cbn [when List.length].
  - lia.
  - apply Nat.ltb_ge in Hlen. lia.
Qed.

Lemma comprehensive_recommendations_bounds `{Host} rc a9 a10 a12 annex g level recs :
  generate_comprehensive_recommendations rc a9 a10 a12 annex g level = Ok recs ->
  (1 <= List.length recs <= 15)%nat.
Proof.
  unfold generate_comprehensive_recommendations.
  destruct (data_quality_metrics a10) as [m |];
    [destruct (overall_score m) as [s |] |];
    cbv beta iota zeta delta [bind]; intros Hok; try discriminate;
    injection Hok as <-; apply capped_list_bounds.
Qed.

(** X6. Every result of evaluate_compliance carries at least one and at most
    fifteen recommendations: the list is cut after fifteen entries, and a
    list of fewer than three entries gets the closing entry appended. *)
Theorem recommendations_between_one_and_fifteen `{Host}
    (cb : option Path) (now : Timestamp) (bom : AIBOM)
    (doc : option TechnicalDocumentation) (sid : option string)
    (r : ComplianceResult) :
  evaluate_compliance cb now bom doc sid = Ok r ->
  (1 <= List.length (recommendations (requirements_check r)) <= 15)%nat.
Proof.
  intros Hev. destruct (_is_ai_system bom) eqn:Hai.
  - ai_system_fields Hai Hev. destruct Hrecs as [rc0 Hrecs].
    exact (comprehensive_recommendations_bounds _ _ _ _ _ _ _ _ Hrecs).
  - rewrite (non_ai_system_short_circuit cb now bom doc sid Hai) in Hev.
    injection Hev as <-. simpl. lia.
Qed.

Lemma recommendations_between_one_and_fifteen_witness :
  exists r,
    evaluate_compliance (H := Samples.plain_host) None 0%Z Samples.chat_bom None None = Ok r /\
    (1 <= List.length (recommendations (requirements_check r)) <= 15)%nat.
Proof.
  eexists. split.
  - vm_compute. reflexivity.
  - apply (recommendations_between_one_and_fifteen (H := Samples.plain_host)
             None 0%Z Samples.chat_bom None None).
    vm_compute. reflexivity.
Defined.

(** X7. When evaluate_compliance is called without technical documentation,
    as the GitHub action does, the documentation extracted from the bill of
    materials leaves technical_specifications, accuracy_metrics and
    risk_management empty: for an AI system Article 11 is not compliant with
    exactly these three missing fields, Article 15 is not compliant, Article
    13 is compliant, Article 14 is compliant exactly when the risk level is
    not HIGH, and the matching texts are among the critical gaps. *)
Theorem extracted_documentation_fails_article_11 `{Host}
    (cb : option Path) (now : Timestamp) (bom : AIBOM) (sid : option string)
    (r : ComplianceResult) :
  _is_ai_system bom = true ->
  evaluate_compliance cb now bom None sid = Ok r ->
  article_11_compliant (requirements_check r) = false /\
  article_11_missing_fields (requirements_check r) =
    ["technical_specifications"; "accuracy_metrics"; "risk_management"] /\
  article_13_compliant (requirements_check r) = true /\
  article_14_compliant (requirements_check r) = negb (RiskLevel_eqb (risk_level r) HIGH) /\
  article_15_compliant (requirements_check r) = false /\
  In "Incomplete technical documentation (Article 11)"
     (critical_gaps (requirements_check r)) /\
  (risk_level r = HIGH ->
   In "Human Oversight missing for HIGH-RISK system (Article 14)"
      (critical_gaps (requirements_check r))).
Proof.
  intros Hai Hev. ai_system_fields Hai Hev.
  destruct Hflags as (_ & _ & _ & H11 & H11m & _ & H13 & H14 & H15 & _).
  destruct Hid as (_ & Hlevel & _).
  clear Hfin Hrecs.
  assert (Hdoc : forall d,
            d = effective_documentation cb bom None ->
            technical_specifications d = [] /\ accuracy_metrics d = [] /\
            risk_management d = [] /\ human_oversight d = None).
  { intros d ->. unfold effective_documentation.
    destruct (is_high_risk _); repeat split. }
  destruct (Hdoc _ eq_refl) as (Hts & Ham & Hrm & Hho).
  assert (Hbase11 : article_11_compliant
                      (validate_technical_documentation
                         (effective_documentation cb bom None)) = false).
  { unfold validate_technical_documentation, missing_article_11_fields.
    cbn [article_11_compliant]. rewrite Hts, Ham, Hrm. reflexivity. }
  assert (Hbase14 : article_14_compliant
                      (validate_technical_documentation
                         (effective_documentation cb bom None)) =
                    negb (RiskLevel_eqb
                            (td_risk_level (effective_documentation cb bom None)) HIGH)).
  { unfold validate_technical_documentation.
    cbn [article_14_compliant]. rewrite Hho.
    destruct (RiskLevel_eqb _ HIGH); reflexivity. }
  repeat split.
  - rewrite H11. exact Hbase11.
  - rewrite H11m. unfold validate_technical_documentation, missing_article_11_fields.
    cbn [article_11_missing_fields]. rewrite Hts, Ham, Hrm. reflexivity.
  - rewrite H13. reflexivity.
  - rewrite H14, Hlevel. exact Hbase14.
  - rewrite H15. unfold validate_technical_documentation.
    cbn [article_15_compliant]. rewrite Ham. reflexivity.
  - rewrite Hgaps, Hbase11. unfold collect_critical_gaps.
    do 3 (apply in_or_app; right). apply in_or_app. left. left. reflexivity.
  - intros Hhigh. rewrite Hgaps, Hbase14. rewrite Hlevel in Hhigh. rewrite Hhigh.
    unfold collect_critical_gaps.
    do 4 (apply in_or_app; right). apply in_or_app. left. left. reflexivity.
Qed.

Lemma extracted_documentation_fails_article_11_witness :
  exists r,
    evaluate_compliance (H := Samples.plain_host) None 0%Z Samples.chat_bom None None = Ok r /\
    article_11_compliant (requirements_check r) = false /\
    article_11_missing_fields (requirements_check r) =
      ["technical_specifications"; "accuracy_metrics"; "risk_management"] /\
    article_13_compliant (requirements_check r) = true /\
    article_14_compliant (requirements_check r) = negb (RiskLevel_eqb (risk_level r) HIGH) /\
    article_15_compliant (requirements_check r) = false /\
    In "Incomplete technical documentation (Article 11)"
       (critical_gaps (requirements_check r)) /\
    (risk_level r = HIGH ->
     In "Human Oversight missing for HIGH-RISK system (Article 14)"
        (critical_gaps (requirements_check r))).
Proof.
  eexists. split.
  - vm_compute. reflexivity.
  - apply (extracted_documentation_fails_article_11 (H := Samples.plain_host)
             None 0%Z Samples.chat_bom None).
    + vm_compute. reflexivity.
    + vm_compute. reflexivity.
Defined.

(** ** Error behaviour *)

Lemma short_retention_rejected `{Host} (bom : AIBOM) (cb : option Path) (v : PyVal) :
  dict_get "log_retention_months" (metadata bom) = Some v ->
  v <> PyNone ->
  (pydantic_int v = None \/ exists n, pydantic_int v = Some n /\ (n < 6)%Z) ->
  LoggingValidator_validate bom cb = Raise (ValidationError ["retention_period_months"]).
Proof.
  intros Hget Hv Hint. unfold LoggingValidator_validate, _detect_retention_period.
  rewrite Hget.
  assert (Hret : validate_retention v = Raise (ValidationError ["retention_period_months"])).
  { unfold validate_retention.
    destruct Hint as [Hnone | (n & Hsome & Hn)].
    - rewrite Hnone. destruct v; try reflexivity. exfalso. apply Hv. reflexivity.
    - rewrite Hsome. apply Z.leb_gt in Hn. rewrite Hn.
      destruct v; try reflexivity. exfalso. apply Hv. reflexivity. }
  rewrite Hret. reflexivity.
Qed.

(** X8. A log_retention_months entry in the metadata that is not None and
    that pydantic cannot read as an integer of at least 6 does not produce a
    critical gap: once the data governance validator has returned, the
    evaluation of an AI system raises a ValidationError on
    retention_period_months and returns no result. *)
Theorem retention_below_six_months_raises `{Host}
    (cb : option Path) (now : Timestamp) (bom : AIBOM)
    (doc : option TechnicalDocumentation) (sid : option string) (v : PyVal) :
  _is_ai_system bom = true ->
  (exists a10, DataGovernanceValidator_validate bom cb = Ok a10) ->
  dict_get "log_retention_months" (metadata bom) = Some v ->
  v <> PyNone ->
  (pydantic_int v = None \/ exists n, pydantic_int v = Some n /\ (n < 6)%Z) ->
  evaluate_compliance cb now bom doc sid =
    Raise (ValidationError ["retention_period_months"]).
Proof.
  intros Hai [a10 H10] Hget Hv Hint.
  unfold evaluate_compliance. rewrite Hai.
  cbv beta iota zeta delta [negb bind]. rewrite H10.
  rewrite (short_retention_rejected bom cb v Hget Hv Hint). reflexivity.
Qed.

Lemma retention_below_six_months_raises_witness :
  evaluate_compliance (H := Samples.plain_host) None 0%Z Samples.short_retention_bom None None =
    Raise (ValidationError ["retention_period_months"]).
Proof.
  apply (retention_below_six_months_raises (H := Samples.plain_host)
           None 0%Z Samples.short_retention_bom None None (PyInt 3)).
  - vm_compute. reflexivity.
  - eexists. vm_compute. reflexivity.
  - reflexivity.
  - discriminate.
  - right. exists 3%Z. split; [reflexivity | lia].
Defined.

(** ** Which systems are assessed, and at which level *)

(** X9. A bill of materials is treated as an AI system exactly when it has a
    model, or a dataset, or a dependency that is flagged AI-related and
    whose lower-cased name contains one of the fourteen core library names;
    a flagged dependency such as numpy or pandas alone does not make one. *)
Theorem is_ai_system_iff (bom : AIBOM) :
  _is_ai_system bom = true <->
  models bom <> [] \/ datasets bom <> [] \/
  exists d lib,
    In d (dependencies bom) /\ dep_is_ai_related d = true /\
    In lib core_ai_libs /\ contains lib (lower (dep_name d)) = true.
Proof.
  unfold _is_ai_system.
  destruct (models bom) as [| m ms]; cbn [List.length Nat.ltb Nat.leb].
  2: { split; [intros _; left; discriminate | reflexivity]. }
  destruct (datasets bom) as [| ds dss]; cbn [List.length Nat.ltb Nat.leb].
  2: { split; [intros _; right; left; discriminate | reflexivity]. }
  rewrite existsb_exists. split.
  - intros (d & Hd & Hany). apply filter_In in Hd as [Hin Hflag].
    unfold any_in in Hany. apply existsb_exists in Hany as (lib & Hlib & Hc).
    right. right. exists d, lib. auto.
  - intros [Hm | [Hd | (d & lib & Hin & Hflag & Hlib & Hc)]];
      [exfalso; apply Hm; reflexivity | exfalso; apply Hd; reflexivity |].
    exists d. split; [apply filter_In; auto |].
    unfold any_in. apply existsb_exists. exists lib. auto.
Qed.

Lemma model_type_is_llm (t : ModelType) :
  String.eqb (ModelType_value t) "llm" = true <-> t = MT_LLM.
Proof. destruct t; simpl; split; intros Hx; try discriminate; reflexivity. Qed.

(** X10. _assess_risk_level gives MINIMAL exactly for a bill of materials
    without models, LIMITED exactly for a single model that is not of type
    LLM, HIGH exactly when some model is of type LLM or there are at least
    two models, and never PROHIBITED. *)
Theorem assessed_risk_level_cases (bom : AIBOM) :
  (_assess_risk_level bom = MINIMAL <-> models bom = []) /\
  (_assess_risk_level bom = LIMITED <->
   exists m, models bom = [m] /\ mc_model_type m <> MT_LLM) /\
  (_assess_risk_level bom = HIGH <->
   (exists m, In m (models bom) /\ mc_model_type m = MT_LLM) \/
   (2 <= List.length (models bom))%nat) /\
  _assess_risk_level bom <> PROHIBITED.
Proof.
  unfold _assess_risk_level.
  destruct (existsb _ (models bom)) eqn:Hllm.
  - apply existsb_exists in Hllm as (m & Hin & Hm). apply model_type_is_llm in Hm.
    simpl. repeat split; try discriminate.
    + intros Hnil. rewrite Hnil in Hin. destruct Hin.
    + intros (m' & Hone & Hnot). rewrite Hone in Hin.
      destruct Hin as [<- | []]. contradiction.
    + intros _. left. exists m. auto.
  - assert (Hnone : forall m, In m (models bom) -> mc_model_type m <> MT_LLM).
    { intros m Hin Hm. apply model_type_is_llm in Hm.
      assert (Hex : existsb (fun m => String.eqb (ModelType_value (mc_model_type m)) "llm")
                            (models bom) = true).
      { apply existsb_exists. exists m. auto. }
      congruence. }
    destruct (models bom) as [| m [| m' ms]]; simpl.
    + repeat split; try discriminate; try reflexivity.
      * intros (m & Hx & _). discriminate.
      * intros [(m & [] & _) | Hlen]. simpl in Hlen. lia.
    + repeat split; try discriminate.
      * intros _. exists m. split; [reflexivity |]. apply Hnone. left. reflexivity.
      * intros [(m0 & Hin & Hm) | Hlen].
        -- exfalso. exact (Hnone m0 Hin Hm).
        -- simpl in Hlen. lia.
    + repeat split; try discriminate.
      * intros (m0 & Hx & _). discriminate.
      * intros _. right. simpl. lia.
Qed.

(** ** The validators *)

Lemma common_risks_model_types (t : ModelType) :
  (exists entries, COMMON_RISKS (ModelType_value t) = Some entries) <->
  t = MT_LLM \/ t = MT_VISION.
Proof.
  destruct t; simpl; split;
    try (intros [entries Hx]; discriminate);
    try (intros [Hx | Hx]; discriminate);
    try (intros _; eexists; reflexivity); auto.
Qed.

Lemma model_risks_empty (ms : list ModelComponent) :
  (forall m, In m ms -> mc_model_type m <> MT_LLM /\ mc_model_type m <> MT_VISION) ->
  List.concat
    (List.map (fun model =>
                 let model_type := ModelType_value (mc_model_type model) in
                 match COMMON_RISKS model_type with
                 | Some entries => common_risks_from model_type 0 entries
                 | None => []
                 end) ms) = [].
Proof.
  induction ms as [| m rest IH]; intros Hnone; simpl; [reflexivity |].
  destruct (COMMON_RISKS (ModelType_value (mc_model_type m))) as [entries |] eqn:Hc.
  - exfalso. destruct (Hnone m (or_introl eq_refl)) as [Hl Hv].
    assert (Hex : exists e, COMMON_RISKS (ModelType_value (mc_model_type m)) = Some e)
      by (eexists; exact Hc).
    apply common_risks_model_types in Hex as [Hx | Hx]; contradiction.
  - simpl. apply IH. intros m' Hin. apply Hnone. right. exact Hin.
Qed.

Lemma existsb_concat_map {A B : Type} (p : B -> bool) (f : A -> list B) (l : list A) :
  existsb p (List.concat (List.map f l)) = existsb (fun a => existsb p (f a)) l.
Proof.
  induction l as [| a rest IH]; simpl; [reflexivity |].
  rewrite existsb_app, IH. reflexivity.
Qed.

Lemma model_risks_of_catalogued (ms : list ModelComponent) (m : ModelComponent) :
  In m ms -> mc_model_type m = MT_LLM \/ mc_model_type m = MT_VISION ->
  existsb (fun r => is_critical (severity r))
    (List.concat
       (List.map (fun model =>
                    let model_type := ModelType_value (mc_model_type model) in
                    match COMMON_RISKS model_type with
                    | Some entries => common_risks_from model_type 0 entries
                    | None => []
                    end) ms)) = true.
Proof.
  intros Hin Ht. rewrite existsb_concat_map. apply existsb_exists.
  exists m. split; [exact Hin |].
  cbv zeta. destruct Ht as [-> | ->]; reflexivity.
Qed.

Lemma register_of_catalogued_model (bom : AIBOM) (level : RiskLevel)
    (cat : option AnnexIIICategory) (m : ModelComponent) :
  In m (models bom) -> mc_model_type m = MT_LLM \/ mc_model_type m = MT_VISION ->
  existsb (fun r => is_critical (severity r))
          (_generate_risk_register bom level cat) = true.
Proof.
  intros Hin Ht. pose proof (model_risks_of_catalogued _ m Hin Ht) as Hm.
  unfold _generate_risk_register.
  set (from_models := List.concat _) in *.
  assert (Hw : existsb (fun r => is_critical (severity r))
                 match cat with
                 | Some c =>
                     if negb (AnnexIIICategory_eqb c CAT_NONE)
                     then from_models ++ _get_category_specific_risks c
                     else from_models
                 | None => from_models
                 end = true).
  { destruct cat as [c |]; [| exact Hm].
    destruct (negb _); [| exact Hm]. rewrite existsb_app, Hm. reflexivity. }
  destruct (_ && _); [rewrite existsb_app, Hw; reflexivity | exact Hw].
Qed.

(** X11. The risk management system that RiskManagementValidator builds is
    compliant exactly when the metadata has the key risk_management_process,
    the risk level is HIGH, no model is of type LLM or VISION and the Annex
    III category is neither EMPLOYMENT nor BIOMETRIC: every catalogue of
    risks holds a CRITICAL one, so only the generic entry added for an empty
    HIGH-risk register passes. *)
Theorem validated_risk_management_compliant_iff (bom : AIBOM) (level : RiskLevel)
    (cat : option AnnexIIICategory) :
  RiskManagementSystem_compliant (RiskManagementValidator_validate bom level cat) = true <->
  dict_has "risk_management_process" (metadata bom) = true /\
  level = HIGH /\
  (forall m, In m (models bom) ->
             mc_model_type m <> MT_LLM /\ mc_model_type m <> MT_VISION) /\
  cat <> Some EMPLOYMENT /\ cat <> Some BIOMETRIC.
Proof.
  split.
  - intros Hc. pose proof Hc as Hc'.
    apply validated_risk_management_high in Hc' as (Hhigh & Hproc & Hids).
    unfold RiskManagementSystem_compliant, critical_risks_count in Hc.
    cbn [RiskManagementValidator_validate continuous_process_established risk_register
         residual_risks_acceptable] in Hc, Hids.
    rewrite !andb_true_iff, Nat.ltb_lt, Nat.eqb_eq, no_critical_count in Hc.
    destruct Hc as [[[_ _] Hcrit] _].
    repeat split; try assumption.
    + intros Hm.
      rewrite (register_of_catalogued_model bom level cat m H (or_introl Hm)) in Hcrit.
      discriminate.
    + intros Hm.
      rewrite (register_of_catalogued_model bom level cat m H (or_intror Hm)) in Hcrit.
      discriminate.
    + intros ->. revert Hcrit. unfold _generate_risk_register.
      change (negb (AnnexIIICategory_eqb EMPLOYMENT CAT_NONE)) with true.
      cbv iota. set (from_models := List.concat _).
      destruct (_ && _); rewrite !existsb_app; simpl;
        rewrite ?orb_true_r; simpl; discriminate.
    + intros ->. revert Hcrit. unfold _generate_risk_register.
      change (negb (AnnexIIICategory_eqb BIOMETRIC CAT_NONE)) with true.
      cbv iota. set (from_models := List.concat _).
      destruct (_ && _); rewrite !existsb_app; simpl;
        rewrite ?orb_true_r; simpl; discriminate.
  - intros (Hproc & -> & Hmodels & Hemp & Hbio).
    assert (Hreg : exists generic,
               _generate_risk_register bom HIGH cat = [generic] /\
               severity generic = SEV_HIGH).
    { pose proof (model_risks_empty _ Hmodels) as Hnone. cbv zeta in Hnone.
      unfold _generate_risk_register. rewrite Hnone.
      destruct cat as [c |].
      - destruct c; try (exfalso; apply Hemp; reflexivity);
          try (exfalso; apply Hbio; reflexivity);
          simpl; eexists; split; reflexivity.
      - simpl. eexists. split; reflexivity. }
    destruct Hreg as (generic & Hreg & Hsev).
    unfold RiskManagementSystem_compliant, critical_risks_count,
      RiskManagementValidator_validate, _check_continuous_process, _check_residual_risks.
    cbn [continuous_process_established risk_register residual_risks_acceptable].
    rewrite Hreg, Hproc. simpl. rewrite Hsev. reflexivity.
Qed.

Lemma validated_risk_management_compliant_iff_witness :
  RiskManagementSystem_compliant
    (RiskManagementValidator_validate
       (Samples.with_metadata Samples.empty_bom [("risk_management_process", PyBool true)])
       HIGH None) = true.
Proof.
  apply (validated_risk_management_compliant_iff
           (Samples.with_metadata Samples.empty_bom [("risk_management_process", PyBool true)])
           HIGH None).
  repeat split; try discriminate; simpl in H; destruct H.
Defined.

(** X12. A Hugging Face model whose lower-cased name contains one of the
    eleven language-model markers (bert, gpt, llama, ...) is given the type
    LLM, whatever else the name contains; a bill of materials that lists it
    is an AI system, is assessed as HIGH risk, and never has a compliant
    risk management system, at any risk level and category. *)
Theorem llm_named_model_is_high_risk
    (model_name file_path marker : string) (bom : AIBOM) :
  In marker [ "bert"; "gpt"; "llama"; "mistral"; "falcon"; "gemma"; "phi";
              "qwen"; "t5"; "bart"; "roberta" ] ->
  contains marker (lower model_name) = true ->
  In (huggingface_component model_name file_path) (models bom) ->
  _infer_model_type model_name = MT_LLM /\
  _is_ai_system bom = true /\
  _assess_risk_level bom = HIGH /\
  (forall level cat,
     RiskManagementSystem_compliant
       (RiskManagementValidator_validate bom level cat) = false).
Proof.
  intros Hmarker Hc Hin.
  assert (Htype : _infer_model_type model_name = MT_LLM).
  { unfold _infer_model_type. cbv zeta.
    assert (Hany : any_in [ "bert"; "gpt"; "llama"; "mistral"; "falcon"; "gemma"; "phi";
                            "qwen"; "t5"; "bart"; "roberta" ] (lower model_name) = true).
    { unfold any_in. apply existsb_exists. exists marker. auto. }
    rewrite Hany. reflexivity. }
  assert (Hm : mc_model_type (huggingface_component model_name file_path) = MT_LLM)
    by exact Htype.
  repeat split.
  - exact Htype.
  - unfold _is_ai_system. destruct (models bom); [destruct Hin | reflexivity].
  - unfold _assess_risk_level.
    assert (Hex : existsb (fun m => String.eqb (ModelType_value (mc_model_type m)) "llm")
                          (models bom) = true).
    { apply existsb_exists. eexists. split; [exact Hin |]. rewrite Hm. reflexivity. }
    rewrite Hex. reflexivity.
  - intros level cat.
    pose proof (register_of_catalogued_model bom level cat _ Hin (or_introl Hm)) as Hcrit.
    destruct (RiskManagementSystem_compliant _) eqn:Hcomp; [| reflexivity].
    unfold RiskManagementSystem_compliant, critical_risks_count in Hcomp.
    cbn [RiskManagementValidator_validate continuous_process_established risk_register
         residual_risks_acceptable] in Hcomp.
    rewrite !andb_true_iff, Nat.ltb_lt, Nat.eqb_eq, no_critical_count in Hcomp.
    destruct Hcomp as [[[_ _] Hnone] _]. congruence.
Qed.

Lemma llm_named_model_is_high_risk_witness :
  let bom :=
    Samples.with_models Samples.empty_bom
      [huggingface_component "google/flan-T5-base" "train.py"] in
  _infer_model_type "google/flan-T5-base" = MT_LLM /\
  _is_ai_system bom = true /\
  _assess_risk_level bom = HIGH /\
  (forall level cat,
     RiskManagementSystem_compliant
       (RiskManagementValidator_validate bom level cat) = false).
Proof.
  apply (llm_named_model_is_high_risk "google/flan-T5-base" "train.py" "t5").
  - simpl. tauto.
  - vm_compute. reflexivity.
  - simpl. left. reflexivity.
Defined.

(** X13. The data governance that DataGovernanceValidator returns is
    compliant exactly when there is a dataset, some dataset has purpose or
    relevance among the keys of its metadata, some dataset has
    representativeness or demographics among them, and every dataset has
    gdpr_compliant set; so an AI system without datasets never satisfies
    Article 10. *)
Theorem validated_data_governance_compliant_iff `{Host}
    (bom : AIBOM) (cb : option Path) (a10 : DataGovernance) :
  DataGovernanceValidator_validate bom cb = Ok a10 ->
  (DataGovernance_compliant a10 = true <->
   datasets bom <> [] /\
   (exists ds m, In ds (datasets bom) /\ ds_metadata ds = Some m /\
                 (dict_has "purpose" m = true \/ dict_has "relevance" m = true)) /\
   (exists ds m, In ds (datasets bom) /\ ds_metadata ds = Some m /\
                 (dict_has "representativeness" m = true \/
                  dict_has "demographics" m = true)) /\
   (forall ds, In ds (datasets bom) -> ds_gdpr_compliant ds <> None)).
Proof.
  unfold DataGovernanceValidator_validate.
  cbv beta iota zeta delta [bind].
  destruct (_assess_bias (datasets bom)) as [bias | e]; [| discriminate].
  destruct (_extract_data_lineage (datasets bom)) as [lineage | e]; [| discriminate].
  destruct (match _extract_governance_policies bom with
            | Some v => pydantic_list_str v
            | None => Some []
            end) as [policies |]; [| discriminate].
  intros Hok. injection Hok as <-.
  unfold DataGovernance_compliant.
  cbn [datasets_documented data_relevance_documented representativeness_assessed
       gdpr_compliance_verified].
  unfold _check_data_relevance, _check_representativeness, _check_gdpr_compliance.
  destruct (datasets bom) as [| d0 rest] eqn:Hds.
  - simpl. split; [discriminate | intros [Hne _]; exfalso; apply Hne; reflexivity].
  - cbn [nonempty negb List.length Nat.ltb Nat.leb andb].
    rewrite !andb_true_iff, !existsb_exists, forallb_forall.
    split.
    + intros [[(ds & Hin & Hrel) (ds' & Hin' & Hrep)] Hgdpr].
      split; [discriminate |]. split; [| split].
      * destruct (ds_metadata ds) as [[| kv m] |] eqn:Hmeta; try discriminate.
        exists ds, (kv :: m). repeat split; try assumption.
        apply orb_true_iff in Hrel. exact Hrel.
      * destruct (ds_metadata ds') as [[| kv m] |] eqn:Hmeta; try discriminate.
        exists ds', (kv :: m). repeat split; try assumption.
        apply orb_true_iff in Hrep. exact Hrep.
      * intros ds0 Hin0. specialize (Hgdpr ds0 Hin0).
        apply bool_decide_eq_true in Hgdpr. exact Hgdpr.
    + intros (_ & (ds & m & Hin & Hmeta & Hrel) & (ds' & m' & Hin' & Hmeta' & Hrep) & Hgdpr).
      split; [split |].
      * exists ds. split; [exact Hin |]. rewrite Hmeta.
        destruct m as [| kv m]; [destruct Hrel; discriminate |].
        apply orb_true_iff. exact Hrel.
      * exists ds'. split; [exact Hin' |]. rewrite Hmeta'.
        destruct m' as [| kv m']; [destruct Hrep; discriminate |].
        apply orb_true_iff. exact Hrep.
      * intros ds0 Hin0. apply bool_decide_eq_true. apply Hgdpr. exact Hin0.
Qed.

Lemma validated_data_governance_compliant_iff_witness :
  exists a10,
    DataGovernanceValidator_validate (H := Samples.plain_host) Samples.census_bom None = Ok a10 /\
    DataGovernance_compliant a10 = true.
Proof.
  eexists. split.
  - vm_compute. reflexivity.
  - apply (validated_data_governance_compliant_iff (H := Samples.plain_host)
             Samples.census_bom None).
    + vm_compute. reflexivity.
    + split; [discriminate |]. split; [| split].
      * exists Samples.census_dataset. eexists. split; [left; reflexivity |].
        split; [reflexivity |]. left. reflexivity.
      * exists Samples.census_dataset. eexists. split; [left; reflexivity |].
        split; [reflexivity |]. right. reflexivity.
      * intros ds [<- | []]. discriminate.
Defined.

Lemma annex_category_eqb_eq (a b : AnnexIIICategory) :
  AnnexIIICategory_eqb a b = true <-> a = b.
Proof.
  split; [| intros ->; destruct b; reflexivity].
  destruct a, b; intros Hx; try reflexivity; discriminate.
Qed.

Lemma category_in_iff (c : AnnexIIICategory) (l : list AnnexIIICategory) :
  category_in c l = true <-> In c l.
Proof.
  unfold category_in. rewrite existsb_exists. split.
  - intros (x & Hin & Heq). apply annex_category_eqb_eq in Heq. subst. exact Hin.
  - intros Hin. exists c. split; [exact Hin | apply annex_category_eqb_eq; reflexivity].
Qed.

Lemma nonempty_filter_iff {A : Type} (p : A -> bool) (l : list A) :
  nonempty (List.filter p l) = true <-> exists x, In x l /\ p x = true.
Proof.
  split.
  - destruct (List.filter p l) as [| x rest] eqn:Hf; [discriminate |].
    intros _. exists x. apply filter_In. rewrite Hf. left. reflexivity.
  - intros (x & Hin & Hp).
    assert (Hx : In x (List.filter p l)) by (apply filter_In; auto).
    destruct (List.filter p l); [destruct Hx | reflexivity].
Qed.

Lemma scan_fold (text : string) (entries : list (AnnexIIICategory * list string)) :
  forall detected found,
    let result := fold_left (scan_step text) entries (detected, found) in
    (forall c, In c (fst result) <->
               In c detected \/
               exists keywords k,
                 In (c, keywords) entries /\ In k keywords /\ contains k text = true) /\
    (List.NoDup detected -> List.NoDup (fst result)) /\
    snd result =
      found ++ List.concat
                 (List.map (fun e => List.filter (fun k => contains k text) (snd e))
                           entries).
Proof.
  induction entries as [| [cat keywords] rest IH]; intros detected found.
  - simpl. repeat split; auto.
    + intros [Hin | (kw & k & [] & _)]. exact Hin.
    + rewrite List.app_nil_r. reflexivity.
  - cbn [fold_left].
    pose (hits := List.filter (fun k => contains k text) keywords).
    pose (detected' := if nonempty hits && negb (category_in cat detected)
                       then detected ++ [cat] else detected).
    change (scan_step text (detected, found) (cat, keywords))
      with (detected', found ++ hits).
    destruct (IH detected' (found ++ hits)) as (Hmem & Hnodup & Hfound).
    cbv zeta in Hmem, Hnodup, Hfound |- *. split; [| split].
    + intros c. rewrite Hmem.
      assert (Hd : In c detected' <->
                   In c detected \/ (c = cat /\ nonempty hits = true)).
      { subst detected'. destruct (nonempty hits) eqn:Hne; simpl.
        - destruct (category_in cat detected) eqn:Hcat; simpl.
          + apply category_in_iff in Hcat. split; [auto |].
            intros [Hin | [-> _]]; assumption.
          + rewrite in_app_iff. simpl. split.
            * intros [Hin | [<- | []]]; auto.
            * intros [Hin | [-> _]]; auto.
        - split; [auto | intros [Hin | [_ Hx]]; [exact Hin | discriminate]]. }
      rewrite Hd. subst hits. rewrite nonempty_filter_iff. split.
      * intros [[Hin | [-> (k & Hk & Hc)]] | (kw & k & Hin & Hk & Hc)].
        -- left. exact Hin.
        -- right. exists keywords, k. repeat split; auto. left. reflexivity.
        -- right. exists kw, k. repeat split; auto. right. exact Hin.
      * intros [Hin | (kw & k & [Heq | Hin] & Hk & Hc)].
        -- left. left. exact Hin.
        -- injection Heq as <- <-. left. right. split; [reflexivity |].
           exists k. auto.
        -- right. exists kw, k. auto.
    + intros Hnd. apply Hnodup. subst detected'.
      destruct (nonempty hits); simpl; [| exact Hnd].
      destruct (category_in cat detected) eqn:Hcat; simpl; [exact Hnd |].
      apply NoDup_ListNoDup. apply list.NoDup_app. repeat split.
      * apply NoDup_ListNoDup. exact Hnd.
      * intros x Hx Hx'. apply list_elem_of_In in Hx.
        apply list_elem_of_singleton in Hx'. subst x.
        apply category_in_iff in Hx. congruence.
      * apply NoDup_singleton.
    + rewrite Hfound. cbn [List.map List.concat snd].
      rewrite <- List.app_assoc. reflexivity.
Qed.

Lemma no_hits_concat (text : string) (entries : list (AnnexIIICategory * list string)) :
  (forall kw k, In kw entries -> In k (snd kw) -> contains k text = false) ->
  List.concat
    (List.map (fun e => List.filter (fun k => contains k text) (snd e)) entries) = [].
Proof.
  induction entries as [| e rest IH]; intros Hnone; [reflexivity |].
  cbn [List.map List.concat].
  assert (He : List.filter (fun k => contains k text) (snd e) = []).
  { assert (Hall : forall k, In k (snd e) -> contains k text = false)
      by (intros k Hk; apply (Hnone e k); [left; reflexivity | exact Hk]).
    clear -Hall. induction (snd e) as [| k ks IHk]; [reflexivity |].
    simpl. rewrite (Hall k (or_introl eq_refl)). apply IHk.
    intros k' Hk'. apply Hall. right. exact Hk'. }
  rewrite He. simpl. apply IH. intros kw k Hin Hk. apply (Hnone kw k); [right |]; assumption.
Qed.

(** X14. HighRiskClassifier.classify lists an Annex III category exactly
    when one of the keywords of that category occurs as a substring of the
    combined text; no category is listed twice and NONE never is;
    is_high_risk is true exactly when some category has such a keyword,
    notified_body_required exactly when BIOMETRIC has one, and without a
    detected category no keyword is reported. *)
Theorem annex_iii_categories_detected_iff `{Host} (bom : AIBOM) (cb : option Path) :
  let c := HighRiskClassifier_classify bom cb in
  (forall cat, In cat (annex_iii_categories c) <-> keyword_occurs (combined_text bom) cat) /\
  (is_high_risk c = true <-> exists cat, keyword_occurs (combined_text bom) cat) /\
  (notified_body_required c = true <-> keyword_occurs (combined_text bom) BIOMETRIC) /\
  List.NoDup (annex_iii_categories c) /\
  (is_high_risk c = false -> keywords_detected c = []) /\
  ~ In CAT_NONE (annex_iii_categories c).
Proof.
  cbv zeta. unfold HighRiskClassifier_classify.
  change (scan_categories (combined_text bom))
    with (fold_left (scan_step (combined_text bom)) CATEGORY_KEYWORDS ([], [])).
  destruct (scan_fold (combined_text bom) CATEGORY_KEYWORDS [] [])
    as (Hmem & Hnodup & Hfound).
  cbv zeta in Hmem, Hnodup, Hfound.
  destruct (fold_left _ CATEGORY_KEYWORDS _) as [detected found].
  cbn [fst snd] in Hmem, Hnodup, Hfound.
  cbn [annex_iii_categories is_high_risk notified_body_required keywords_detected].
  assert (Hcat : forall cat, In cat detected <-> keyword_occurs (combined_text bom) cat).
  { intros cat. rewrite Hmem. unfold keyword_occurs. split; [| auto].
    intros [[] | Hx]. exact Hx. }
  split; [exact Hcat |]. split; [| split; [| split; [| split]]].
  - rewrite Nat.ltb_lt. split.
    + destruct detected as [| cat rest]; simpl; [lia |].
      intros _. exists cat. apply Hcat. left. reflexivity.
    + intros [cat Hk]. apply Hcat in Hk. destruct detected; [destruct Hk | simpl; lia].
  - rewrite category_in_iff. apply Hcat.
  - apply Hnodup. constructor.
  - rewrite Nat.ltb_ge. intros Hlen.
    assert (Hnil : detected = []) by (destruct detected; [reflexivity | simpl in Hlen; lia]).
    subst detected. rewrite Hfound. cbn [app].
    apply no_hits_concat. intros [cat kws] k Hin Hk.
    destruct (contains k (combined_text bom)) eqn:Hc; [| reflexivity].
    exfalso. assert (Hx : In cat []) by (apply Hcat; exists kws, k; auto). destruct Hx.
  - intros Hin. apply Hcat in Hin. destruct Hin as (kws & k & Hin & _).
    simpl in Hin.
    repeat (destruct Hin as [Hin | Hin]; [discriminate |]). destruct Hin.
Qed.

(** ** More on the diff engine *)

Lemma map_gap_tagged (tag : string) (gaps : list string) :
  List.map gap (List.map (fun g => {| gap := g; gap_status := tag |}) gaps) = gaps.
Proof. induction gaps as [| g rest IH]; simpl; [| rewrite IH]; reflexivity. Qed.

Lemma in_tagged (tag : string) (gaps : list string) (d : ComplianceGapDelta) :
  In d (List.map (fun g => {| gap := g; gap_status := tag |}) gaps) <->
  gap_status d = tag /\ In (gap d) gaps.
Proof.
  rewrite in_map_iff. split.
  - intros (g & <- & Hin). auto.
  - intros [Ht Hin]. exists (gap d). split; [| exact Hin].
    destruct d as [g s]. simpl in *. subst. reflexivity.
Qed.

(** X15. _compute_gap_deltas lists every gap of the base or the head result
    exactly once, and a delta is in the list exactly when it is a gap of the
    head only with status new, a gap of the base only with status resolved,
    or a gap of both with status existing. *)
Theorem gap_deltas_partition (base_gaps head_gaps : list string) :
  let deltas := _compute_gap_deltas base_gaps head_gaps in
  List.NoDup (List.map gap deltas) /\
  (forall g, In g (List.map gap deltas) <-> In g base_gaps \/ In g head_gaps) /\
  (forall d, In d deltas <->
     (gap_status d = "new" /\ In (gap d) head_gaps /\ ~ In (gap d) base_gaps) \/
     (gap_status d = "resolved" /\ In (gap d) base_gaps /\ ~ In (gap d) head_gaps) \/
     (gap_status d = "existing" /\ In (gap d) base_gaps /\ In (gap d) head_gaps)).
Proof.
  cbv zeta. unfold _compute_gap_deltas.
  set (B := list_to_set base_gaps : gset string).
  set (Hd := list_to_set head_gaps : gset string).
  assert (HB : forall g, g ∈ B <-> In g base_gaps)
    by (intros g; subst B; rewrite elem_of_list_to_set, list_elem_of_In; reflexivity).
  assert (HH : forall g, g ∈ Hd <-> In g head_gaps)
    by (intros g; subst Hd; rewrite elem_of_list_to_set, list_elem_of_In; reflexivity).
  split; [| split].
  - rewrite !List.map_app, !map_gap_tagged.
    apply NoDup_ListNoDup. rewrite !list.NoDup_app.
    repeat split; try apply NoDup_elements.
    + intros g Hn Hx. apply elem_of_app in Hx.
      apply elem_of_elements, elem_of_difference in Hn as [Hh Hb].
      destruct Hx as [Hx | Hx].
      * apply elem_of_elements, elem_of_difference in Hx as [Hb' _]. contradiction.
      * apply elem_of_elements, elem_of_intersection in Hx as [Hb' _]. contradiction.
    + intros g Hr Hx.
      apply elem_of_elements, elem_of_difference in Hr as [Hb Hh].
      apply elem_of_elements, elem_of_intersection in Hx as [_ Hh']. contradiction.
  - intros g. rewrite !List.map_app, !map_gap_tagged, !in_app_iff.
    rewrite <- !list_elem_of_In, !elem_of_elements, !elem_of_difference,
      elem_of_intersection, !HB, !HH.
    rewrite ?list_elem_of_In.
    destruct (in_dec string_dec g base_gaps), (in_dec string_dec g head_gaps); tauto.
  - intros d. rewrite !in_app_iff, !in_tagged.
    rewrite <- !list_elem_of_In, !elem_of_elements, !elem_of_difference,
      elem_of_intersection, !HB, !HH.
    rewrite !list_elem_of_In. tauto.
Qed.

Lemma article_delta_direction (base_req head_req : AnnexIVRequirements)
    (article_name field_name : string) (field : AnnexIVRequirements -> bool) :
  direction (article_delta base_req head_req article_name field_name field) =
    (if negb (Bool.eqb (field base_req) (field head_req))
     then (if field head_req && negb (field base_req) then "improved" else "degraded")
     else "unchanged") /\
  article (article_delta base_req head_req article_name field_name field) = article_name.
Proof. split; reflexivity. Qed.

Lemma moved_articles (base_req head_req : AnnexIVRequirements) (wanted : string) :
  List.map article
    (List.filter (fun a => String.eqb (direction a) wanted)
                 (_compute_article_deltas base_req head_req)) =
  List.map fst
    (List.filter
       (fun entry : string * (AnnexIVRequirements -> bool) =>
          String.eqb
            (if negb (Bool.eqb (snd entry base_req) (snd entry head_req))
             then (if snd entry head_req && negb (snd entry base_req)
                   then "improved" else "degraded")
             else "unchanged") wanted)
       [ ("Article 11 (Technical Documentation)", article_11_compliant);
         ("Article 13 (Transparency)", article_13_compliant);
         ("Article 14 (Human Oversight)", article_14_compliant);
         ("Article 15 (Accuracy & Robustness)", article_15_compliant) ]).
Proof.
  unfold _compute_article_deltas.
  cbn [List.filter List.map fst snd].
  repeat match goal with
         | |- context [direction (article_delta ?b ?h ?n ?f ?p)] =>
             rewrite (proj1 (article_delta_direction b h n f p))
         end.
  repeat match goal with
         | |- context [if ?c then _ :: _ else _] => destruct c
         end; reflexivity.
Qed.

(** X16. A diff has one article delta for each of Articles 11, 13, 14 and 15
    and for no other article: improved_articles and degraded_articles are
    subsequences of these four names with no name in both, and when the two
    results agree on these four flags both lists are empty, whatever the
    results say about Articles 8, 9, 10, 12, 16, 17, 61, 72 and 73. *)
Theorem diff_compares_four_articles `{Host}
    (now : Timestamp) (base head : ComplianceResult)
    (repo bc hc : string) (files : option (list ChangedFile)) :
  let d := compute_diff now base head repo bc hc files in
  let four := [ "Article 11 (Technical Documentation)"; "Article 13 (Transparency)";
                "Article 14 (Human Oversight)"; "Article 15 (Accuracy & Robustness)" ] in
  List.map article (article_deltas d) = four /\
  sublist (improved_articles d) four /\
  sublist (degraded_articles d) four /\
  (forall a, In a (improved_articles d) -> ~ In a (degraded_articles d)) /\
  (article_11_compliant (requirements_check base) =
     article_11_compliant (requirements_check head) ->
   article_13_compliant (requirements_check base) =
     article_13_compliant (requirements_check head) ->
   article_14_compliant (requirements_check base) =
     article_14_compliant (requirements_check head) ->
   article_15_compliant (requirements_check base) =
     article_15_compliant (requirements_check head) ->
   improved_articles d = [] /\ degraded_articles d = []).
Proof.
  cbv zeta. unfold compute_diff, model_post_init.
  cbn [diff_hash String.eqb set_diff_hash article_deltas improved_articles
       degraded_articles].
  rewrite !moved_articles. cbn [List.filter List.map fst snd].
  set (b11 := article_11_compliant (requirements_check base)).
  set (h11 := article_11_compliant (requirements_check head)).
  set (b13 := article_13_compliant (requirements_check base)).
  set (h13 := article_13_compliant (requirements_check head)).
  set (b14 := article_14_compliant (requirements_check base)).
  set (h14 := article_14_compliant (requirements_check head)).
  set (b15 := article_15_compliant (requirements_check base)).
  set (h15 := article_15_compliant (requirements_check head)).
  split; [reflexivity |].
  split; [| split; [| split]].
  - destruct b11, h11, b13, h13, b14, h14, b15, h15; simpl;
      repeat first [apply sublist_skip | apply sublist_cons | apply sublist_nil].
  - destruct b11, h11, b13, h13, b14, h14, b15, h15; simpl;
      repeat first [apply sublist_skip | apply sublist_cons | apply sublist_nil].
  - intros a.
    destruct b11, h11, b13, h13, b14, h14, b15, h15; simpl; intros Hi Hd;
      repeat (destruct Hi as [Hi | Hi]; [subst a |]); try destruct Hi;
      repeat (destruct Hd as [Hd | Hd]; [discriminate |]); destruct Hd.
  - intros -> -> -> ->. destruct h11, h13, h14, h15; split; reflexivity.
Qed.

(** X17. Exchanging the base and the head result mirrors the diff: new and
    resolved gaps change places, so do improved and degraded articles and
    the two result hashes, the score delta changes sign, the direction
    improved becomes degraded and back, and unchanged stays. *)
Theorem diff_of_exchanged_results `{Host}
    (now : Timestamp) (base head : ComplianceResult)
    (repo bc hc : string) (files : option (list ChangedFile)) :
  let forth := compute_diff now base head repo bc hc files in
  let back := compute_diff now head base repo hc bc files in
  new_critical_gaps back = resolved_gaps forth /\
  resolved_gaps back = new_critical_gaps forth /\
  improved_articles back = degraded_articles forth /\
  degraded_articles back = improved_articles forth /\
  (score_delta back == - score_delta forth)%Q /\
  (score_direction back = "improved" <-> score_direction forth = "degraded") /\
  (score_direction back = "degraded" <-> score_direction forth = "improved") /\
  (score_direction back = "unchanged" <-> score_direction forth = "unchanged") /\
  base_result_hash back = head_result_hash forth /\
  head_result_hash back = base_result_hash forth.
Proof.
  cbv zeta.
  rewrite !compute_diff_new_gaps, !compute_diff_resolved_gaps.
  split; [reflexivity |]. split; [reflexivity |].
  unfold compute_diff, model_post_init.
  cbn [diff_hash String.eqb set_diff_hash improved_articles degraded_articles
       score_delta score_direction base_result_hash head_result_hash].
  rewrite !moved_articles. cbn [List.filter List.map fst snd].
  set (b11 := article_11_compliant (requirements_check base)).
  set (h11 := article_11_compliant (requirements_check head)).
  set (b13 := article_13_compliant (requirements_check base)).
  set (h13 := article_13_compliant (requirements_check head)).
  set (b14 := article_14_compliant (requirements_check base)).
  set (h14 := article_14_compliant (requirements_check head)).
  set (b15 := article_15_compliant (requirements_check base)).
  set (h15 := article_15_compliant (requirements_check head)).
  set (sb := compliance_score (requirements_check base)).
  set (sh := compliance_score (requirements_check head)).
  assert (Hneg : (float_sub sb sh == - float_sub sh sb)%Q)
    by apply float_sub_exchanged.
  split; [destruct b11, h11, b13, h13, b14, h14, b15, h15; reflexivity |].
  split; [destruct b11, h11, b13, h13, b14, h14, b15, h15; reflexivity |].
  split; [exact Hneg |].
  destruct (classify_direction_cases (float_sub sb sh)) as (Hu & Hi & Hd).
  destruct (classify_direction_cases (float_sub sh sb)) as (Hu' & Hi' & Hd').
  rewrite Hu, Hi, Hd, Hu', Hi', Hd', Hneg.
  repeat split; try reflexivity; intros Hx;
    try (rewrite Qabs_opp in Hx; exact Hx);
    try (rewrite Qabs_opp; exact Hx);
    apply Qopp_le_compat in Hx; rewrite ?Qopp_involutive in Hx; exact Hx.
Qed.

Lemma self_diff_unchanged `{Host}
    (now : Timestamp) (r : ComplianceResult)
    (repo bc hc : string) (files : option (list ChangedFile)) :
  let d := compute_diff now r r repo bc hc files in
  score_direction d = "unchanged" /\
  (score_delta d == 0)%Q /\
  new_critical_gaps d = [] /\
  resolved_gaps d = [] /\
  improved_articles d = [] /\
  degraded_articles d = [] /\
  risk_level_changed d = false /\
  base_result_hash d = head_result_hash d.
Proof.
  cbv zeta.
  rewrite compute_diff_new_gaps, compute_diff_resolved_gaps.
  assert (Hdiff : elements ((list_to_set (critical_gaps (requirements_check r)) : gset string) ∖
                            list_to_set (critical_gaps (requirements_check r))) = []).
  { apply elements_empty_iff, elem_of_equiv_empty. intros x Hx.
    apply elem_of_difference in Hx as [Hin Hout]. contradiction. }
  rewrite Hdiff.
  unfold compute_diff, model_post_init.
  cbn [diff_hash String.eqb set_diff_hash improved_articles degraded_articles
       score_delta score_direction base_result_hash head_result_hash risk_level_changed].
  rewrite !moved_articles. cbn [List.filter List.map fst snd].
  set (s := compliance_score (requirements_check r)).
  rewrite (float_sub_self s).
  split; [apply classify_direction_cases; exact hundredth_positive |].
  split; [reflexivity |].
  repeat split.
  - destruct (article_11_compliant _), (article_13_compliant _),
      (article_14_compliant _), (article_15_compliant _); reflexivity.
  - destruct (article_11_compliant _), (article_13_compliant _),
      (article_14_compliant _), (article_15_compliant _); reflexivity.
  - destruct (risk_level r); reflexivity.
Qed.

Lemma in_firstn {A : Type} (n : nat) (l : list A) (x : A) :
  In x (firstn n l) -> In x l.
Proof.
  intros Hin. rewrite <- (firstn_skipn n l). apply in_or_app. left. exact Hin.
Qed.

(** X18. _analyze_file_changes returns at most ten file deltas, the first
    ten changed files in their order, and none when no file list is given; a
    delta names at most two affected articles, namely the first two degraded
    articles and only for a path that contains .py, .js, .ts or .java; when
    no article degraded no file is blamed. *)
Theorem file_changes_are_capped (changed_files : option (list ChangedFile))
    (degraded_articles : list string) :
  let deltas := _analyze_file_changes changed_files degraded_articles in
  (List.length deltas <= 10)%nat /\
  (List.length deltas <= List.length (default [] changed_files))%nat /\
  List.map file_path deltas =
    take_upto 10 (List.map (fun f => default EmptyString (cf_path f))
                           (default [] changed_files)) /\
  (forall d, In d deltas ->
     (List.length (affected_articles d) <= 2)%nat /\
     (affected_articles d = [] \/
      affected_articles d = take_upto 2 degraded_articles /\
      exists ext, In ext [".py"; ".js"; ".ts"; ".java"] /\
                  contains ext (DiffEngine.file_path d) = true)) /\
  (degraded_articles = [] -> forall d, In d deltas -> affected_articles d = []).
Proof.
  cbv zeta. unfold _analyze_file_changes, take_upto.
  destruct changed_files as [[| f rest] |]; simpl default.
  1, 3: (simpl; repeat split; try lia; intros; contradiction).
  set (files := f :: rest).
  set (mk := fun file_info : ChangedFile => _).
  assert (Hmk : forall d, In d (List.map mk files) ->
            (List.length (affected_articles d) <= 2)%nat /\
            (affected_articles d = [] \/
             affected_articles d = firstn 2 degraded_articles /\
             exists ext, In ext [".py"; ".js"; ".ts"; ".java"] /\
                         contains ext (DiffEngine.file_path d) = true)).
  { intros d Hin. apply in_map_iff in Hin as (fi & <- & _). subst mk.
    cbn [affected_articles DiffEngine.file_path].
    destruct (nonempty degraded_articles && _) eqn:Hc.
    - split; [rewrite List.length_firstn; lia |]. right. split; [reflexivity |].
      apply andb_true_iff in Hc as [_ Hany]. unfold any_in in Hany.
      apply existsb_exists in Hany as (ext & Hext & Hcont). exists ext. auto.
    - split; [simpl; lia | left; reflexivity]. }
  change (match files with [] => [] | _ :: _ => firstn 10 (List.map mk files) end)
    with (firstn 10 (List.map mk files)).
  split; [rewrite List.length_firstn; lia |].
  split; [rewrite List.length_firstn, List.length_map; lia |].
  split.
  - rewrite <- List.firstn_map, List.map_map. reflexivity.
  - split.
    + intros d Hin. apply Hmk. exact (in_firstn _ _ _ Hin).
    + intros -> d Hin.
      assert (Hd : In d (List.map mk files)) by exact (in_firstn _ _ _ Hin).
      apply in_map_iff in Hd as (fi & <- & _). reflexivity.
Qed.

(** ** The GitHub action *)

(** X19. run_compliance_diff takes the head result as the base result, so
    whenever it returns the direction is unchanged, the score delta is zero,
    there is no new and no resolved gap, and the outputs are diff_direction
    = unchanged and new_gaps_count = 0, for every repository and every pair
    of commits. *)
Theorem action_diff_reports_no_change `{Host}
    (now later : Timestamp) (bom : AIBOM) (repo bc hc : string)
    (rep : GithubAction.DiffReport) :
  GithubAction.run_compliance_diff now later bom repo bc hc = Ok rep ->
  GithubAction.rep_direction rep = "unchanged" /\
  (GithubAction.rep_score_delta rep == 0)%Q /\
  GithubAction.rep_new_gaps rep = [] /\
  GithubAction.rep_resolved_gaps rep = [] /\
  GithubAction.rep_outputs rep =
    [ ("diff_score_delta", fmt_percent1_signed (GithubAction.rep_score_delta rep));
      ("diff_direction", "unchanged");
      ("new_gaps_count", "0") ].
Proof.
  unfold GithubAction.run_compliance_diff.
  destruct (evaluate_compliance None now bom None (Some (spdx_id bom))) as [r | e];
    [| discriminate].
  cbv beta iota zeta delta [bind]. intros Hok. injection Hok as <-.
  cbn [GithubAction.rep_direction GithubAction.rep_score_delta GithubAction.rep_new_gaps
       GithubAction.rep_resolved_gaps GithubAction.rep_outputs].
  destruct (self_diff_unchanged later r repo bc hc None)
    as (Hdir & Hdelta & Hnew & Hres & _).
  cbv zeta in Hdir, Hdelta, Hnew, Hres.
  unfold compute_diff, model_post_init in Hdir, Hdelta, Hnew, Hres.
  cbn [diff_hash String.eqb set_diff_hash score_direction score_delta
       new_critical_gaps resolved_gaps] in Hdir, Hdelta, Hnew, Hres.
  rewrite Hdir, Hnew, Hres. repeat split. exact Hdelta.
Qed.

Lemma action_diff_reports_no_change_witness :
  exists rep,
    GithubAction.run_compliance_diff (H := Samples.plain_host) 0%Z 1%Z Samples.chat_bom
      "repo" "c0" "c1" = Ok rep /\
    GithubAction.rep_direction rep = "unchanged" /\
    (GithubAction.rep_score_delta rep == 0)%Q /\
    GithubAction.rep_new_gaps rep = [] /\
    GithubAction.rep_resolved_gaps rep = [] /\
    GithubAction.rep_outputs rep =
      [ ("diff_score_delta",
         fmt_percent1_signed (Host := Samples.plain_host) (GithubAction.rep_score_delta rep));
        ("diff_direction", "unchanged");
        ("new_gaps_count", "0") ].
Proof.
  eexists. split.
  - vm_compute. reflexivity.
  - apply (action_diff_reports_no_change (H := Samples.plain_host) 0%Z 1%Z Samples.chat_bom
             "repo" "c0" "c1").
    vm_compute. reflexivity.
Defined.

(** X20. run_compliance_check, which evaluates without documentation and
    without a code base path, reports compliant (output compliant = true)
    exactly for a bill of materials that is not an AI system, then with
    score 1, risk level minimal and no critical gap; for an AI system it
    reports false and lists the Article 16 gap. *)
Theorem action_check_passes_iff_not_ai `{Host}
    (now : Timestamp) (bom : AIBOM) (rep : GithubAction.CheckReport) :
  GithubAction.run_compliance_check now bom = Ok rep ->
  (GithubAction.chk_compliant rep = true <-> _is_ai_system bom = false) /\
  GithubAction.chk_output_compliant rep =
    (if _is_ai_system bom then "false" else "true") /\
  (_is_ai_system bom = false ->
   GithubAction.chk_compliance_score rep = 1%Q /\
   GithubAction.chk_risk_level rep = "minimal" /\
   GithubAction.chk_critical_gaps rep = []) /\
  (_is_ai_system bom = true ->
   In "Provider Obligations not satisfied (Article 16)"
      (GithubAction.chk_critical_gaps rep)).
Proof.
  unfold GithubAction.run_compliance_check.
  destruct (evaluate_compliance None now bom None (Some (spdx_id bom))) as [r | e] eqn:Hev;
    [| discriminate].
  cbv beta iota zeta delta [bind]. intros Hok. injection Hok as <-.
  cbn [GithubAction.chk_compliant GithubAction.chk_output_compliant
       GithubAction.chk_compliance_score GithubAction.chk_risk_level
       GithubAction.chk_critical_gaps].
  destruct (_is_ai_system bom) eqn:Hai.
  - destruct (evaluate_ai_system_inv _ _ _ _ _ _ Hai Hev)
      as (a10 & a12 & acc & _ & _ & _ & Hfin).
    cbv zeta in Hfin.
    destruct (finish_never_compliant _ _ _ _ _ _ _ _ _ _ _ _ _ _ _ _ _ r
                (provider_obligations_never_assessed _ _) Hfin)
      as (Hc & _ & _ & Hgap).
    rewrite Hc. repeat split; try discriminate. intros _. exact Hgap.
  - rewrite (non_ai_system_short_circuit None now bom None (Some (spdx_id bom)) Hai) in Hev.
    injection Hev as <-. repeat split; discriminate.
Qed.

Lemma action_check_passes_iff_not_ai_witness :
  exists rep,
    GithubAction.run_compliance_check (H := Samples.plain_host) 0%Z Samples.webshop_bom = Ok rep /\
    (GithubAction.chk_compliant rep = true <-> _is_ai_system Samples.webshop_bom = false) /\
    GithubAction.chk_output_compliant rep =
      (if _is_ai_system Samples.webshop_bom then "false" else "true") /\
    (_is_ai_system Samples.webshop_bom = false ->
     GithubAction.chk_compliance_score rep = 1%Q /\
     GithubAction.chk_risk_level rep = "minimal" /\
     GithubAction.chk_critical_gaps rep = []) /\
    (_is_ai_system Samples.webshop_bom = true ->
     In "Provider Obligations not satisfied (Article 16)"
        (GithubAction.chk_critical_gaps rep)).
Proof.
  eexists. split.
  - vm_compute. reflexivity.
  - apply (action_check_passes_iff_not_ai (H := Samples.plain_host) 0%Z Samples.webshop_bom).
    vm_compute. reflexivity.
Defined.

(** ** The import pattern *)

Lemma span_spec (p : ascii -> bool) (s a b : string) :
  span p s = (a, b) ->
  s = (a ++ b)%string /\
  Forall (fun c => p c = true) (list_ascii_of_string a) /\
  match b with
  | EmptyString => True
  | String c _ => p c = false
  end.
Proof.
  revert a b. induction s as [| c r IH]; intros a b Hspan; simpl in Hspan.
  - injection Hspan as <- <-. repeat split. constructor.
  - destruct (p c) eqn:Hc.
    + destruct (span p r) as [a' b'] eqn:Hr. injection Hspan as <- <-.
      destruct (IH a' b' eq_refl) as (Hs & Hall & Hb).
      repeat split.
      * rewrite Hs at 1. reflexivity.
      * simpl. constructor; assumption.
      * exact Hb.
    + injection Hspan as <- <-. repeat split; [constructor | exact Hc].
Qed.

Lemma prefix_drop (p s : string) :
  String.prefix p s = true -> s = (p ++ str_drop (String.length p) s)%string.
Proof.
  revert s. induction p as [| c p IH]; intros s Hp; [reflexivity |].
  destruct s as [| d s]; simpl in Hp; [discriminate |].
  destruct (Ascii.ascii_dec c d) as [<- | Hne]; [| discriminate].
  rewrite (IH s Hp) at 1. reflexivity.
Qed.

Lemma span_blanks_spec (n : nat) (s a b : string) :
  (String.length s <= n)%nat ->
  span_blanks s = (a, b) ->
  s = (a ++ b)%string /\
  exists blanks : list string,
    Forall (fun c => is_blank c = true) blanks /\
    a = fold_right String.append EmptyString blanks.
Proof.
  revert s a b. induction n as [| n IH]; intros s a b Hlen Hspan.
  - destruct s; [| simpl in Hlen; lia].
    injection Hspan as <- <-. split; [reflexivity |].
    exists []. split; [constructor | reflexivity].
  - destruct s as [| c1 r1].
    { injection Hspan as <- <-. split; [reflexivity |].
      exists []. split; [constructor | reflexivity]. }
    assert (Hstop : (EmptyString, String c1 r1) = (a, b) ->
                    String c1 r1 = (a ++ b)%string /\
                    exists blanks : list string,
                      Forall (fun c => is_blank c = true) blanks /\
                      a = fold_right String.append EmptyString blanks).
    { intros Hab. injection Hab as <- <-. split; [reflexivity |].
      exists []. split; [constructor | reflexivity]. }
    cbn [span_blanks] in Hspan. simpl in Hlen.
    destruct (is_space c1) eqn:H1.
    { destruct (span_blanks r1) as [a' b'] eqn:Hr. injection Hspan as <- <-.
      destruct (IH r1 a' b' ltac:(lia) Hr) as (Hs & bl & Hall & Ha).
      split; [rewrite Hs at 1; reflexivity |].
      exists (String c1 EmptyString :: bl). split.
      - constructor; [exact H1 | exact Hall].
      - cbn [fold_right]. rewrite Ha. reflexivity. }
    destruct r1 as [| c2 r2]; [exact (Hstop Hspan) |].
    simpl in Hlen.
    destruct (is_space2 c1 c2) eqn:H2.
    { destruct (span_blanks r2) as [a' b'] eqn:Hr. injection Hspan as <- <-.
      destruct (IH r2 a' b' ltac:(lia) Hr) as (Hs & bl & Hall & Ha).
      split; [rewrite Hs at 1; reflexivity |].
      exists (String c1 (String c2 EmptyString) :: bl). split.
      - constructor; [exact H2 | exact Hall].
      - cbn [fold_right]. rewrite Ha. reflexivity. }
    destruct r2 as [| c3 r3]; [exact (Hstop Hspan) |].
    simpl in Hlen.
    destruct (is_space3 c1 c2 c3) eqn:H3; [| exact (Hstop Hspan)].
    destruct (span_blanks r3) as [a' b'] eqn:Hr. injection Hspan as <- <-.
    destruct (IH r3 a' b' ltac:(lia) Hr) as (Hs & bl & Hall & Ha).
    split; [rewrite Hs at 1; reflexivity |].
    exists (String c1 (String c2 (String c3 EmptyString)) :: bl). split.
    + constructor; [exact H3 | exact Hall].
    + cbn [fold_right]. rewrite Ha. reflexivity.
Qed.

Lemma match_import_here_spec (s w : string) :
  match_import_here s = Some w ->
  w <> EmptyString /\
  Forall (fun c => is_word_char c = true) (list_ascii_of_string w) /\
  exists ws rest,
    s = ("import" ++ ws ++ w ++ rest)%string /\
    blank_run ws /\
    match rest with
    | EmptyString => True
    | String c _ => is_word_char c = false
    end.
Proof.
  unfold match_import_here.
  destruct (String.prefix "import" s) eqn:Hp; [| discriminate].
  destruct (span_blanks (str_drop 6 s)) as [ws rest0] eqn:Hws.
  destruct (String.eqb ws EmptyString) eqn:Hwe; [discriminate |].
  destruct (span is_word_char rest0) as [word rest] eqn:Hword.
  destruct (String.eqb word EmptyString) eqn:Hwd; [discriminate |].
  intros Hsome. injection Hsome as <-.
  apply String.eqb_neq in Hwe, Hwd.
  destruct (span_blanks_spec _ _ _ _ (Nat.le_refl _) Hws) as (Hs1 & blanks & Hblank & Hcat).
  destruct (span_spec _ _ _ _ Hword) as (Hs2 & Hall & Hrest).
  split; [exact Hwd |]. split; [exact Hall |].
  exists ws, rest. split; [| split; [| exact Hrest]].
  - rewrite (prefix_drop "import" s Hp). change (String.length "import") with 6%nat.
    rewrite Hs1, Hs2. reflexivity.
  - exists blanks. split; [| split; [exact Hblank | exact Hcat]].
    intros ->. apply Hwe. exact Hcat.
Qed.

Lemma search_import_spec (s g : string) :
  search_import s = Some g ->
  g <> EmptyString /\
  Forall (fun c => is_word_char c = true) (list_ascii_of_string g) /\
  exists before ws rest,
    s = (before ++ "import" ++ ws ++ g ++ rest)%string /\
    blank_run ws /\
    match rest with
    | EmptyString => True
    | String c _ => is_word_char c = false
    end.
Proof.
  induction s as [| c r IH]; intros Hfound.
  - exfalso. revert Hfound. reflexivity || (vm_compute; discriminate).
  - cbn [search_import] in Hfound.
    destruct (match_import_here (String c r)) as [w |] eqn:Hhere.
    + injection Hfound as <-.
      destruct (match_import_here_spec _ _ Hhere) as (Hne & Hall & ws & rest & Hs & Hrest).
      split; [exact Hne |]. split; [exact Hall |].
      exists EmptyString, ws, rest. split; [exact Hs | exact Hrest].
    + destruct (IH Hfound) as (Hne & Hall & before & ws & rest & Hs & Hrest).
      split; [exact Hne |]. split; [exact Hall |].
      exists (String c before), ws, rest. split; [| exact Hrest].
      rewrite Hs at 1. reflexivity.
Qed.

(** X21. The search for import\s+([a-zA-Z0-9_]+) in a match text returns,
    when it returns a name, a non-empty run of the characters a-z, A-Z,
    0-9 and underscore (so its lower-case form is not empty either) that
    stands in the text after the word import and at least one blank
    character, one of those that Python's \s accepts, the blanks beyond
    ASCII included, and is not followed by a character of the name class;
    a text without the word import gives no match. *)
Theorem import_pattern_finds_a_word (s : string) :
  (forall g, search_import s = Some g ->
     g <> EmptyString /\
     lower g <> EmptyString /\
     Forall (fun c => is_word_char c = true) (list_ascii_of_string g) /\
     exists before ws rest,
       s = (before ++ "import" ++ ws ++ g ++ rest)%string /\
       blank_run ws /\
       match rest with
       | EmptyString => True
       | String c _ => is_word_char c = false
       end) /\
  (contains "import" s = false -> search_import s = None).
Proof.
  split.
  - intros g Hfound.
    destruct (search_import_spec s g Hfound) as (Hne & Hall & Hdec).
    split; [exact Hne |]. split; [exact (lower_empty g Hne) |].
    split; [exact Hall | exact Hdec].
  - induction s as [| c r IH]; intros Hc.
    + reflexivity.
    + cbn [contains] in Hc. apply orb_false_iff in Hc as [Hp Hr].
      cbn [search_import]. unfold match_import_here at 1. rewrite Hp.
      exact (IH Hr).
Qed.

Lemma import_pattern_finds_a_word_witness :
  search_import "from x import Torch, nn" = Some "Torch" /\
  lower "Torch" = "torch" /\
  "Torch" <> EmptyString.
Proof.
  split; [vm_compute; reflexivity |]. split; [vm_compute; reflexivity |].
  apply (proj1 (import_pattern_finds_a_word "from x import Torch, nn") "Torch").
  vm_compute. reflexivity.
Defined.

(** ** The dependency list of the generator *)

Lemma names_recorded_start : names_recorded ([], ∅).
Proof.
  split; [| constructor].
  intros n. unfold names_of. simpl. split; [intros Hx | intros []].
  exact (not_elem_of_empty (C := gset string) n Hx).
Qed.

Lemma names_of_snoc (deps : list DependencyComponent) (seen seen' : gset string)
    (d : DependencyComponent) :
  names_of (deps ++ [d], seen') = names_of (deps, seen) ++ [dep_name d].
Proof. unfold names_of. simpl. rewrite List.map_app. reflexivity. Qed.

Lemma names_recorded_snoc (deps : list DependencyComponent) (seen : gset string)
    (d : DependencyComponent) :
  names_recorded (deps, seen) -> dep_name d ∉ seen ->
  names_recorded (deps ++ [d], {[ dep_name d ]} ∪ seen).
Proof.
  intros [Hseen Hnd] Hnew. split.
  - intros n. rewrite (names_of_snoc deps seen), in_app_iff. cbn [snd].
    rewrite elem_of_union, elem_of_singleton, (Hseen n). simpl.
    split; [intros [-> | Hin] | intros [Hin | [-> | []]]]; auto.
  - rewrite (names_of_snoc deps seen). apply NoDup_ListNoDup. apply list.NoDup_app.
    repeat split.
    + apply NoDup_ListNoDup. exact Hnd.
    + intros x Hx Hx'. apply list_elem_of_singleton in Hx'. subst x.
      apply list_elem_of_In, Hseen in Hx. contradiction.
    + apply NoDup_singleton.
Qed.

Lemma add_config_dep_spec (st : DepState) (dep : ConfigDep) :
  names_recorded st ->
  names_recorded (add_config_dep st dep) /\
  (fst (add_config_dep st dep) = fst st \/
   exists d, fst (add_config_dep st dep) = fst st ++ [d] /\ from_manifest_entry dep d) /\
  (forall n, In n (names_of (add_config_dep st dep)) <->
             In n (names_of st) \/ (n <> EmptyString /\ cd_name dep = Some n)).
Proof.
  destruct st as [deps seen]. intros Hrec. unfold add_config_dep.
  destruct (cd_name dep) as [name |] eqn:Hname; cbn [from_option id].
  2: { cbn [String.eqb negb andb].
       split; [exact Hrec |]. split; [left; reflexivity |].
       intros n. split; [auto |].
       intros [Hin | [_ Hx]]; [exact Hin | discriminate]. }
  destruct (String.eqb name EmptyString) eqn:Hempty; cbn [negb andb].
  { apply String.eqb_eq in Hempty. subst name.
    split; [exact Hrec |]. split; [left; reflexivity |].
    intros n. split; [auto |].
    intros [Hin | [Hne Hx]]; [exact Hin |]. injection Hx as <-. contradiction. }
  apply String.eqb_neq in Hempty.
  destruct (bool_decide (name ∉ seen)) eqn:Hseen.
  - apply bool_decide_eq_true in Hseen.
    set (d := {| dep_name := name; dep_version := cd_version dep;
                 dep_package_manager := cd_package_manager dep;
                 dep_is_ai_related := is_ai_related name;
                 dep_detected_in := [default EmptyString (cd_source_file dep)] |}).
    split; [exact (names_recorded_snoc deps seen d Hrec Hseen) |]. split.
    + right. exists d. split; [reflexivity |].
      split; [exact Hname |]. split; [exact Hempty |]. repeat split.
    + intros n. rewrite (names_of_snoc deps seen _ d), in_app_iff. simpl. split.
      * intros [Hin | [<- | []]]; auto.
      * intros [Hin | [_ Hx]]; [auto |]. injection Hx as ->. auto.
  - apply bool_decide_eq_false in Hseen.
    assert (Hin : In name (names_of (deps, seen))).
    { apply (proj1 Hrec). destruct (decide (name ∈ seen)); [assumption | contradiction]. }
    split; [exact Hrec |]. split; [left; reflexivity |].
    intros n. split; [auto |].
    intros [Hx | [_ Hx]]; [exact Hx |]. injection Hx as <-. exact Hin.
Qed.

Lemma add_import_dep_spec (st : DepState) (detection : Generator.Detection) :
  names_recorded st ->
  names_recorded (add_import_dep st detection) /\
  (fst (add_import_dep st detection) = fst st \/
   exists d, fst (add_import_dep st detection) = fst st ++ [d] /\
             from_import detection d /\ ~ In (dep_name d) (names_of st)) /\
  (forall n, In n (names_of (add_import_dep st detection)) <->
             In n (names_of st) \/
             exists g, search_import (det_match_text detection) = Some g /\ n = lower g).
Proof.
  destruct st as [deps seen]. intros Hrec. unfold add_import_dep.
  destruct (search_import (det_match_text detection)) as [g |] eqn:Hg.
  2: { split; [exact Hrec |]. split; [left; reflexivity |].
       intros n. split; [auto |].
       intros [Hin | (g & Hx & _)]; [exact Hin | discriminate]. }
  destruct (bool_decide (lower g ∉ seen)) eqn:Hseen.
  - apply bool_decide_eq_true in Hseen.
    set (d := {| dep_name := lower g; dep_version := None; dep_package_manager := None;
                 dep_is_ai_related := true; dep_detected_in := [det_file detection] |}).
    split; [exact (names_recorded_snoc deps seen d Hrec Hseen) |]. split.
    + right. exists d. split; [reflexivity |]. split.
      * exists g. repeat split. exact Hg.
      * intros Hin. apply (proj1 Hrec) in Hin. contradiction.
    + intros n. rewrite (names_of_snoc deps seen _ d), in_app_iff. simpl. split.
      * intros [Hin | [<- | []]]; [auto |]. right. exists g. auto.
      * intros [Hin | (g' & Hx & ->)]; [auto |]. injection Hx as <-. auto.
  - apply bool_decide_eq_false in Hseen.
    assert (Hin : In (lower g) (names_of (deps, seen))).
    { apply (proj1 Hrec). destruct (decide (lower g ∈ seen)); [assumption | contradiction]. }
    split; [exact Hrec |]. split; [left; reflexivity |].
    intros n. split; [auto |].
    intros [Hx | (g' & Hx & ->)]; [exact Hx |]. injection Hx as <-. exact Hin.
Qed.

Lemma config_fold (config : list ConfigDep) :
  forall st, names_recorded st ->
    let st' := fold_left add_config_dep config st in
    names_recorded st' /\
    (exists added, fst st' = fst st ++ added /\
                   Forall (fun d => exists dep, In dep config /\ from_manifest_entry dep d)
                          added) /\
    (forall n, In n (names_of st') <-> In n (names_of st) \/ manifest_name config n).
Proof.
  induction config as [| dep rest IH]; intros st Hrec; cbn [fold_left]; cbv zeta.
  - split; [exact Hrec |]. split.
    + exists []. rewrite List.app_nil_r. split; [reflexivity | constructor].
    + intros n. split; [auto |]. intros [Hin | (_ & dep & [] & _)]. exact Hin.
  - destruct (add_config_dep_spec st dep Hrec) as (Hrec1 & Hstep & Hnames1).
    destruct (IH _ Hrec1) as (Hrec2 & (added & Hadded & Hall) & Hnames2).
    cbv zeta in Hrec2, Hadded, Hnames2.
    split; [exact Hrec2 |]. split.
    + assert (Hall' : Forall (fun d => exists dep0, In dep0 (dep :: rest) /\
                                                   from_manifest_entry dep0 d) added).
      { eapply List.Forall_impl; [| exact Hall].
        intros d (dep0 & Hin & Hfrom). exists dep0. split; [right |]; assumption. }
      destruct Hstep as [Hsame | (d & Hd & Hfrom)].
      * exists added. rewrite Hadded, Hsame. split; [reflexivity | exact Hall'].
      * exists (d :: added). rewrite Hadded, Hd, <- List.app_assoc.
        split; [reflexivity |]. constructor; [| exact Hall'].
        exists dep. split; [left; reflexivity | exact Hfrom].
    + intros n. rewrite Hnames2, Hnames1. unfold manifest_name. split.
      * intros [[Hin | [Hne Hx]] | (Hne & dep0 & Hin & Hx)]; auto.
        -- right. split; [exact Hne |]. exists dep. split; [left; reflexivity | exact Hx].
        -- right. split; [exact Hne |]. exists dep0. split; [right |]; assumption.
      * intros [Hin | (Hne & dep0 & [<- | Hin] & Hx)]; auto.
        right. split; [exact Hne |]. exists dep0. auto.
Qed.

Lemma import_fold (ml : list Generator.Detection) :
  forall st, names_recorded st ->
    let st' := fold_left add_import_dep ml st in
    names_recorded st' /\
    (exists added, fst st' = fst st ++ added /\
                   Forall (fun d => (exists detection, In detection ml /\
                                                       from_import detection d) /\
                                    ~ In (dep_name d) (names_of st))
                          added) /\
    (forall n, In n (names_of st') <-> In n (names_of st) \/ import_name ml n).
Proof.
  induction ml as [| detection rest IH]; intros st Hrec; cbn [fold_left]; cbv zeta.
  - split; [exact Hrec |]. split.
    + exists []. rewrite List.app_nil_r. split; [reflexivity | constructor].
    + intros n. split; [auto |]. intros [Hin | (det & g & [] & _)]. exact Hin.
  - destruct (add_import_dep_spec st detection Hrec) as (Hrec1 & Hstep & Hnames1).
    destruct (IH _ Hrec1) as (Hrec2 & (added & Hadded & Hall) & Hnames2).
    cbv zeta in Hrec2, Hadded, Hnames2.
    split; [exact Hrec2 |]. split.
    + assert (Hall' : Forall (fun d => (exists det, In det (detection :: rest) /\
                                                    from_import det d) /\
                                       ~ In (dep_name d) (names_of st)) added).
      { eapply List.Forall_impl; [| exact Hall].
        intros d [(det & Hin & Hfrom) Hnot]. split.
        - exists det. split; [right |]; assumption.
        - intros Hx. apply Hnot. apply Hnames1. left. exact Hx. }
      destruct Hstep as [Hsame | (d & Hd & Hfrom & Hnot)].
      * exists added. rewrite Hadded, Hsame. split; [reflexivity | exact Hall'].
      * exists (d :: added). rewrite Hadded, Hd, <- List.app_assoc.
        split; [reflexivity |]. constructor; [| exact Hall'].
        split; [| exact Hnot]. exists detection. split; [left; reflexivity | exact Hfrom].
    + intros n. rewrite Hnames2, Hnames1. unfold import_name. split.
      * intros [[Hin | (g & Hg & ->)] | (det & g & Hin & Hg & ->)]; auto.
        -- right. exists detection, g. split; [left; reflexivity |]. auto.
        -- right. exists det, g. split; [right; exact Hin |]. auto.
      * intros [Hin | (det & g & [<- | Hin] & Hg & ->)]; auto.
        -- left. right. exists g. auto.
        -- right. exists det, g. auto.
Qed.

(** X22. _extract_dependencies returns no two components with the same name
    and none with the empty name, and a name is in the list exactly when it
    is the non-empty name of a manifest entry or the lower-cased name found
    in a detected import. *)
Theorem extracted_dependency_names (ml_libraries : list Generator.Detection)
    (config_dependencies : list ConfigDep) :
  let names := List.map dep_name (_extract_dependencies ml_libraries config_dependencies) in
  List.NoDup names /\
  (forall n, In n names <->
             manifest_name config_dependencies n \/ import_name ml_libraries n) /\
  ~ In EmptyString names.
Proof.
  cbv zeta. unfold _extract_dependencies.
  destruct (config_fold config_dependencies _ names_recorded_start)
    as (Hrec1 & _ & Hnames1).
  cbv zeta in Hrec1, Hnames1.
  destruct (import_fold ml_libraries _ Hrec1) as (Hrec2 & _ & Hnames2).
  cbv zeta in Hrec2, Hnames2.
  split; [exact (proj2 Hrec2) |]. split.
  - intros n. unfold names_of in Hnames1, Hnames2. rewrite Hnames2, Hnames1.
    simpl. tauto.
  - unfold names_of in Hnames1, Hnames2. rewrite Hnames2, Hnames1.
    intros [[[] | [Hne _]] | (detection & g & _ & Hg & Hx)].
    + apply Hne. reflexivity.
    + destruct (search_import_spec _ _ Hg) as (Hne & _).
      exact (lower_empty g Hne (eq_sym Hx)).
Qed.

(** X23. The list that _extract_dependencies returns is the components of
    the manifest entries followed by those of the imports. A component of
    the first part has the version, package manager and source file of a
    manifest entry of its name and the flag that is_ai_related gives for the
    name; a component of the second part comes from a detected import, has
    no version and no package manager, is always flagged AI-related, and its
    name is no manifest name: a library named in a manifest is never listed
    from an import. *)
Theorem extracted_dependency_provenance (ml_libraries : list Generator.Detection)
    (config_dependencies : list ConfigDep) :
  exists from_manifests from_imports,
    _extract_dependencies ml_libraries config_dependencies =
      from_manifests ++ from_imports /\
    from_manifests = _extract_dependencies [] config_dependencies /\
    Forall (fun d => exists dep, In dep config_dependencies /\ from_manifest_entry dep d)
           from_manifests /\
    Forall (fun d => (exists detection, In detection ml_libraries /\
                                        from_import detection d) /\
                     ~ manifest_name config_dependencies (dep_name d))
           from_imports.
Proof.
  unfold _extract_dependencies.
  destruct (config_fold config_dependencies _ names_recorded_start)
    as (Hrec1 & (added1 & Hadded1 & Hall1) & Hnames1).
  cbv zeta in Hrec1, Hadded1, Hnames1.
  destruct (import_fold ml_libraries _ Hrec1) as (Hrec2 & (added2 & Hadded2 & Hall2) & _).
  cbv zeta in Hadded2.
  exists added1, added2. cbn [fold_left fst] in *.
  rewrite Hadded2, Hadded1. repeat split; try assumption.
  eapply List.Forall_impl; [| exact Hall2].
  intros d [Hfrom Hnot]. split; [exact Hfrom |].
  intros Hm. apply Hnot. apply Hnames1. right. exact Hm.
Qed.

(** ** Keyword matching on package names *)

Lemma append_cons (c : ascii) (a b : string) :
  (String c a ++ b)%string = String c (a ++ b)%string.
Proof. reflexivity. Qed.

Lemma map_string_app (f : ascii -> ascii) (a b : string) :
  map_string f (a ++ b)%string = (map_string f a ++ map_string f b)%string.
Proof.
  induction a as [| c a IH]; [reflexivity |].
  rewrite append_cons. cbn [map_string]. rewrite append_cons, IH. reflexivity.
Qed.

Lemma prefix_app (k s q : string) :
  String.prefix k s = true -> String.prefix k (s ++ q)%string = true.
Proof.
  revert s. induction k as [| c k IH]; intros s Hp;
    [destruct (s ++ q)%string; reflexivity |].
  destruct s as [| d s]; [discriminate |].
  rewrite append_cons. cbn [String.prefix] in *.
  destruct (Ascii.ascii_dec c d); [apply IH; exact Hp | discriminate].
Qed.

Lemma contains_app_r (k s q : string) :
  contains k s = true -> contains k (s ++ q)%string = true.
Proof.
  induction s as [| c s IH]; intros Hc.
  - cbn [contains] in Hc. rewrite orb_false_r in Hc.
    destruct k; [| discriminate]. destruct q; reflexivity.
  - rewrite append_cons. cbn [contains] in *.
    apply orb_true_iff in Hc as [Hp | Hr].
    + rewrite <- append_cons, (prefix_app _ _ q Hp). reflexivity.
    + rewrite (IH Hr). apply orb_true_r.
Qed.

Lemma contains_app_l (k p s : string) :
  contains k s = true -> contains k (p ++ s)%string = true.
Proof.
  intros Hc. induction p as [| c p IH]; [exact Hc |].
  rewrite append_cons. cbn [contains]. rewrite IH. apply orb_true_r.
Qed.

(** X24. is_ai_related matches keywords as substrings: if a package name is
    AI-related, so is every name that contains it, with any text before and
    after it (for example ray makes xarray-utils AI-related). *)
Theorem is_ai_related_by_substring (before name after : string) :
  is_ai_related name = true ->
  is_ai_related (before ++ name ++ after)%string = true.
Proof.
  unfold is_ai_related. cbv zeta.
  rewrite !existsb_exists. intros (keyword & Hin & Hc).
  exists keyword. split; [exact Hin |].
  unfold lower, replace_char in *. rewrite !map_string_app.
  apply contains_app_l, contains_app_r. exact Hc.
Qed.

Lemma is_ai_related_by_substring_witness :
  is_ai_related "ray" = true /\ is_ai_related ("xar" ++ "ray" ++ "-utils")%string = true.
Proof.
  split.
  - vm_compute. reflexivity.
  - apply (is_ai_related_by_substring "xar" "ray" "-utils"). vm_compute. reflexivity.
Defined.

(** ** The evidence pack *)

Section EvidencePackProperties.
Import EvidencePack.
Context `{Host}.

Lemma file_hashes_of_pack_files (written : list (string * string)) :
  file_hashes (List.map pack_file written) =
  inr (List.map (fun w => sha256_hex (snd w)) written).
Proof.
  induction written as [| w rest IH]; [reflexivity |].
  cbn [List.map file_hashes]. rewrite IH. reflexivity.
Qed.

Lemma written_lookup (written : list (string * string)) :
  base.NoDup (List.map fst written) ->
  forall (zipf : gmap string string) (k v : string),
    In (k, v) written ->
    fold_left (fun z w => <[ fst w := snd w ]> z) written zipf !! k = Some v.
Proof.
  induction written as [| [k0 v0] rest IH]; intros Hnd zipf k v Hin; [destruct Hin |].
  cbn [List.map fst] in Hnd. apply list.NoDup_cons in Hnd as [Hnot Hnd].
  cbn [fold_left fst snd]. destruct Hin as [Heq | Hin].
  - injection Heq as -> ->. clear IH.
    assert (Hkeep : forall (l : list (string * string)) (z : gmap string string),
              k ∉ List.map fst l -> z !! k = Some v ->
              fold_left (fun z w => <[ fst w := snd w ]> z) l z !! k = Some v).
    { induction l as [| [k1 v1] l IHl]; intros z Hk Hz; [exact Hz |].
      cbn [fold_left fst snd List.map] in *.
      apply not_elem_of_cons in Hk as [Hne Hk].
      apply IHl; [exact Hk |]. rewrite lookup_insert_ne; [exact Hz | congruence]. }
    apply Hkeep; [exact Hnot | apply lookup_insert_eq].
  - apply IH; assumption.
Qed.

Lemma no_mismatch_in_written (zipf : gmap string string)
    (part : list (string * string)) :
  (forall k v, In (k, v) part -> zipf !! k = Some v) ->
  find_mismatches zipf (List.map pack_file part) = inr [].
Proof.
  induction part as [| [k v] rest IH]; intros Hlook; [reflexivity |].
  cbn [List.map find_mismatches pack_file info_get fst snd String.eqb Ascii.eqb
       Bool.eqb check_bind].
  unfold zip_read. rewrite (Hlook k v (or_introl eq_refl)).
  cbn [check_bind]. rewrite IH by (intros k' v' Hin; apply Hlook; right; exact Hin).
  cbn [check_bind]. rewrite String.eqb_refl. reflexivity.
Qed.

Lemma written_names_distinct (c : PackContents) :
  base.NoDup (List.map fst (written_files c)).
Proof.
  unfold written_files.
  destruct (bom_content c), (policy_content c) as [[p g] |], (rag_content c),
    (fairness_content c); cbn [List.map fst app];
    apply (bool_decide_unpack _); vm_compute; reflexivity.
Qed.

Lemma written_count (c : PackContents) :
  (2 <= List.length (written_files c) <= 7)%nat.
Proof.
  unfold written_files.
  destruct (bom_content c), (policy_content c) as [[p g] |], (rag_content c),
    (fairness_content c); simpl; lia.
Qed.

Lemma compute_root_of_pack (m : EvidenceManifest) (written : list (string * string)) :
  files m = List.map pack_file written -> written <> [] ->
  compute_root_hash m =
  inr (sha256_hex
         (join EmptyString
               (sorted (List.map (fun w => sha256_hex (snd w)) written)))).
Proof.
  intros Hfiles Hne. unfold compute_root_hash. rewrite Hfiles.
  destruct written as [| w rest]; [contradiction |].
  cbn [List.map nonempty negb]. 
  change (pack_file w :: List.map pack_file rest) with (List.map pack_file (w :: rest)).
  rewrite file_hashes_of_pack_files. reflexivity.
Qed.

Lemma post_init_of_pack (m : EvidenceManifest) (written : list (string * string)) :
  files m = List.map pack_file written -> written <> [] ->
  root_hash m = EmptyString \/
  root_hash m = sha256_hex
                  (join EmptyString
                        (sorted (List.map (fun w => sha256_hex (snd w)) written))) ->
  exists m',
    model_post_init m = inr m' /\
    files m' = files m /\
    root_hash m' = sha256_hex
                     (join EmptyString
                           (sorted (List.map (fun w => sha256_hex (snd w)) written))).
Proof.
  intros Hfiles Hne Hroot. unfold model_post_init.
  destruct (String.eqb (root_hash m) EmptyString && nonempty (files m)) eqn:Hblank.
  - rewrite (compute_root_of_pack m written Hfiles Hne). cbn [check_bind].
    eexists. split; [reflexivity |]. split; reflexivity.
  - exists m. split; [reflexivity |]. split; [reflexivity |].
    destruct Hroot as [Hempty | Hroot]; [| exact Hroot].
    exfalso. rewrite Hempty, Hfiles in Hblank.
    destruct written; [contradiction | discriminate].
Qed.

Lemma written_not_manifest (c : PackContents) (name text : string) :
  In (name, text) (written_files c) -> name <> "manifest.json".
Proof.
  unfold written_files.
  destruct (bom_content c), (policy_content c) as [[p g] |], (rag_content c),
    (fairness_content c); cbn [app In]; intros Hin;
    repeat (destruct Hin as [Hin | Hin]; [injection Hin as <- _; discriminate |]);
    destruct Hin.
Qed.

(** X25. generate_pack never raises on its own manifest, and the archive it
    writes passes verify_pack_integrity: valid is true, there is no
    mismatch, the root hash check passes, file_count is the number of files
    written besides the manifest, between 2 and 7, every written file is a
    member with its text, and manifest.json is a member holding a manifest
    that lists their hashes and the root hash. *)
Theorem generated_pack_verifies (dumps : EvidenceManifest -> string)
    (now : Timestamp) (repo : string)
    (commit scan_run : option string) (c : PackContents) :
  exists pack v,
    generate_pack dumps now repo commit scan_run c = inr pack /\
    verify_pack_integrity pack = inr v /\
    valid v = true /\
    mismatches v = [] /\
    root_hash_valid v = true /\
    file_count v = List.length (written_files c) /\
    (2 <= file_count v <= 7)%nat /\
    (forall name text, In (name, text) (written_files c) ->
                       members pack !! name = Some text) /\
    (exists data, manifest_data pack = Some data /\
                  members pack !! "manifest.json" = Some (dumps data) /\
                  files data = List.map pack_file (written_files c) /\
                  root_hash data = computed_root_hash v).
Proof.
  pose proof (written_count c) as Hcount.
  assert (Hne : written_files c <> []).
  { intros Hnil. rewrite Hnil in Hcount. simpl in Hcount. lia. }
  unfold generate_pack. cbv zeta.
  set (m0 := {| em_schema_version := "1.0.0"; em_generated_at := now;
                em_repo_id := repo; em_commit := commit;
                em_scan_run_id := scan_run;
                files := List.map pack_file (written_files c);
                root_hash := EmptyString; audit_trail_ref := None |}).
  destruct (post_init_of_pack m0 (written_files c) eq_refl Hne (or_introl eq_refl))
    as (m1 & Hm1 & Hf1 & Hr1).
  rewrite Hm1. cbn [check_bind].
  rewrite (compute_root_of_pack m1 (written_files c) Hf1 Hne). cbn [check_bind].
  eexists. eexists. split; [reflexivity |].
  unfold verify_pack_integrity. cbn [manifest_data members check_bind].
  destruct (post_init_of_pack (set_root_hash m1 _) (written_files c) Hf1 Hne
              (or_intror eq_refl)) as (m2 & Hm2 & Hf2 & Hr2).
  rewrite Hm2. cbn [check_bind]. cbn [files set_root_hash] in Hf2.
  rewrite Hf2, Hf1. change (files m0) with (List.map pack_file (written_files c)).
  assert (Hlook : forall name text, In (name, text) (written_files c) ->
            <[ "manifest.json" := dumps (set_root_hash m1
                 (sha256_hex
                    (join EmptyString
                       (sorted (List.map (fun w => sha256_hex (snd w))
                                         (written_files c)))))) ]>
              (fold_left (fun z w => <[ fst w := snd w ]> z) (written_files c)
                         (∅ : gmap string string)) !! name = Some text).
  { intros name text Hin.
    rewrite lookup_insert_ne by (apply not_eq_sym; exact (written_not_manifest c name text Hin)).
    apply written_lookup; [apply written_names_distinct | exact Hin]. }
  rewrite (no_mismatch_in_written _ _ Hlook). cbn [check_bind].
  rewrite file_hashes_of_pack_files. cbn [check_bind].
  rewrite Hr2, String.eqb_refl.
  cbn [List.length Nat.eqb andb]. rewrite List.length_map.
  split; [reflexivity |].
  cbn [valid mismatches root_hash_valid file_count computed_root_hash].
  split; [reflexivity |]. split; [reflexivity |]. split; [reflexivity |].
  split; [reflexivity |]. split; [lia |]. split; [exact Hlook |].
  eexists. split; [reflexivity |]. split; [apply lookup_insert_eq |].
  split; [exact Hf1 | reflexivity].
Qed.

Lemma post_init_keeps_files (data manifest : EvidenceManifest) :
  model_post_init data = inr manifest -> files manifest = files data.
Proof.
  unfold model_post_init.
  destruct (String.eqb (root_hash data) EmptyString && nonempty (files data)).
  - destruct (compute_root_hash data) as [e | h]; cbn [check_bind]; [discriminate |].
    intros Hok. injection Hok as <-. reflexivity.
  - intros Hok. injection Hok as <-. reflexivity.
Qed.

Lemma find_mismatches_spec (zipf : gmap string string) (fs : list FileInfo)
    (found : list Mismatch) :
  find_mismatches zipf fs = inr found ->
  (found = [] <->
   Forall (fun fi => exists name text,
                       info_get "filename" fi = inr name /\
                       zipf !! name = Some text /\
                       info_get "hash" fi = inr (sha256_hex text)) fs) /\
  (forall mm, In mm found ->
     exists fi text,
       In fi fs /\
       info_get "filename" fi = inr (mm_filename mm) /\
       zipf !! mm_filename mm = Some text /\
       computed_hash mm = sha256_hex text /\
       info_get "hash" fi = inr (expected_hash mm) /\
       computed_hash mm <> expected_hash mm).
Proof.
  revert found. induction fs as [| fi rest IH]; intros found Hfound.
  - injection Hfound as <-. split; [split; [constructor | reflexivity] |].
    intros mm [].
  - cbn [find_mismatches] in Hfound.
    destruct (info_get "filename" fi) as [e | name] eqn:Hname; [discriminate |].
    cbn [check_bind] in Hfound. unfold zip_read in Hfound.
    destruct (zipf !! name) as [text |] eqn:Htext; [| discriminate].
    cbn [check_bind] in Hfound.
    destruct (info_get "hash" fi) as [e | expected] eqn:Hhash; [discriminate |].
    cbn [check_bind] in Hfound.
    destruct (find_mismatches zipf rest) as [e | more]; [discriminate |].
    cbn [check_bind] in Hfound. injection Hfound as <-.
    destruct (IH more eq_refl) as (Hnil & Hmm).
    destruct (String.eqb (sha256_hex text) expected) eqn:Heq; cbn [negb].
    + apply String.eqb_eq in Heq. subst expected. split.
      * rewrite Hnil. split.
        -- intros Hall. constructor; [| exact Hall]. exists name, text. auto.
        -- intros Hall. inversion Hall; assumption.
      * intros mm Hin. destruct (Hmm mm Hin) as (fi' & text' & Hin' & Hrest).
        exists fi', text'. split; [right; exact Hin' | exact Hrest].
    + apply String.eqb_neq in Heq. split.
      * split; [discriminate |]. intros Hall. exfalso. inversion Hall as [| ? ? Hfi _]; subst.
        destruct Hfi as (name' & text' & Hn & Ht & Hh).
        rewrite Hname in Hn. injection Hn as <-. rewrite Htext in Ht. injection Ht as <-.
        rewrite Hhash in Hh. injection Hh as Hh. apply Heq. symmetry. exact Hh.
      * intros mm [<- | Hin].
        -- exists fi, text. cbn [mm_filename computed_hash expected_hash].
           repeat split; auto. left. reflexivity.
        -- destruct (Hmm mm Hin) as (fi' & text' & Hin' & Hrest).
           exists fi', text'. split; [right; exact Hin' | exact Hrest].
Qed.

(** X26. When verify_pack_integrity returns, file_count is the number of
    files the manifest lists, valid is true exactly when there is no
    mismatch and the root hash check passes, there is no mismatch exactly
    when every listed file is a member whose SHA-256 is the listed hash, and
    every reported mismatch names a listed file with the listed hash and the
    different hash computed from the member. *)
Theorem verification_checks_listed_files (pack : Archive) (data : EvidenceManifest)
    (v : Verification) :
  manifest_data pack = Some data ->
  verify_pack_integrity pack = inr v ->
  file_count v = List.length (files data) /\
  (valid v = true <-> mismatches v = [] /\ root_hash_valid v = true) /\
  (mismatches v = [] <->
   Forall (fun fi => exists name text,
                       info_get "filename" fi = inr name /\
                       members pack !! name = Some text /\
                       info_get "hash" fi = inr (sha256_hex text)) (files data)) /\
  (forall mm, In mm (mismatches v) ->
     exists fi text,
       In fi (files data) /\
       info_get "filename" fi = inr (mm_filename mm) /\
       members pack !! mm_filename mm = Some text /\
       computed_hash mm = sha256_hex text /\
       info_get "hash" fi = inr (expected_hash mm) /\
       computed_hash mm <> expected_hash mm).
Proof.
  intros Hdata Hv. unfold verify_pack_integrity in Hv. rewrite Hdata in Hv.
  cbn [check_bind] in Hv.
  destruct (model_post_init data) as [e | manifest] eqn:Hinit; [discriminate |].
  cbn [check_bind] in Hv. rewrite (post_init_keeps_files _ _ Hinit) in Hv.
  destruct (find_mismatches (members pack) (files data)) as [e | found] eqn:Hfound;
    [discriminate |].
  cbn [check_bind] in Hv.
  destruct (file_hashes (files data)) as [e | hashes]; [discriminate |].
  cbn [check_bind] in Hv. injection Hv as <-.
  cbn [valid file_count mismatches root_hash_valid].
  destruct (find_mismatches_spec _ _ _ Hfound) as (Hnil & Hmm).
  split; [reflexivity |]. split; [| split; [exact Hnil | exact Hmm]].
  rewrite andb_true_iff, length_zero_nil. reflexivity.
Qed.

(** X27. A manifest that lists files and has an empty root_hash always
    passes the root hash check of verify_pack_integrity: constructing the
    manifest fills the root hash in from the listed hashes, so the expected
    and the computed root hash are the same and valid depends on the file
    hashes only. *)
Theorem blank_root_hash_is_not_checked (pack : Archive) (data : EvidenceManifest)
    (v : Verification) :
  manifest_data pack = Some data ->
  root_hash data = EmptyString ->
  files data <> [] ->
  verify_pack_integrity pack = inr v ->
  root_hash_valid v = true /\
  expected_root_hash v = computed_root_hash v /\
  (valid v = true <-> mismatches v = []).
Proof.
  intros Hdata Hroot Hfiles Hv. unfold verify_pack_integrity in Hv. rewrite Hdata in Hv.
  cbn [check_bind] in Hv. unfold model_post_init, compute_root_hash in Hv.
  rewrite Hroot in Hv.
  destruct (files data) as [| fi rest] eqn:Hfs; [contradiction |].
  cbn [String.eqb nonempty andb negb] in Hv.
  destruct (file_hashes (fi :: rest)) as [e | hashes] eqn:Hh; [discriminate |].
  cbn [check_bind files set_root_hash root_hash] in Hv. rewrite Hfs in Hv.
  destruct (find_mismatches (members pack) (fi :: rest)) as [e | found]; [discriminate |].
  cbn [check_bind] in Hv. rewrite Hh in Hv. cbn [check_bind] in Hv.
  injection Hv as <-.
  cbn [valid mismatches root_hash_valid expected_root_hash computed_root_hash].
  rewrite String.eqb_refl, andb_true_r, length_zero_nil.
  repeat split; auto.
Qed.

Lemma find_mismatches_unlisted (zipf : gmap string string) (name text : string)
    (fs : list FileInfo) :
  (forall fi, In fi fs -> info_get "filename" fi <> inr name) ->
  find_mismatches (<[ name := text ]> zipf) fs = find_mismatches zipf fs.
Proof.
  induction fs as [| fi rest IH]; intros Hno; [reflexivity |].
  cbn [find_mismatches].
  destruct (info_get "filename" fi) as [e | fname] eqn:Hname; [reflexivity |].
  cbn [check_bind]. unfold zip_read.
  assert (Hne : name <> fname).
  { intros ->. apply (Hno fi (or_introl eq_refl)). exact Hname. }
  rewrite (lookup_insert_ne zipf name fname text Hne).
  rewrite IH by (intros fi' Hin; apply Hno; right; exact Hin). reflexivity.
Qed.

(** X28. verify_pack_integrity looks only at the manifest and at the
    members that it lists: adding or replacing a member of the archive
    other than manifest.json, whose name is not the filename of a listed
    file, leaves the outcome, result or error, unchanged. *)
Theorem unlisted_member_is_not_checked (pack : Archive) (name text : string) :
  name <> "manifest.json" ->
  (forall data fi, manifest_data pack = Some data -> In fi (files data) ->
                   info_get "filename" fi <> inr name) ->
  verify_pack_integrity
    {| members := <[ name := text ]> (members pack);
       manifest_data := manifest_data pack |} =
  verify_pack_integrity pack.
Proof.
  intros _ Hno. unfold verify_pack_integrity. cbn [manifest_data members].
  destruct (manifest_data pack) as [data |] eqn:Hdata; [| reflexivity].
  cbn [check_bind].
  destruct (model_post_init data) as [e | manifest] eqn:Hinit; [reflexivity |].
  cbn [check_bind]. rewrite find_mismatches_unlisted; [reflexivity |].
  rewrite (post_init_keeps_files _ _ Hinit). intros fi Hin. exact (Hno data fi eq_refl Hin).
Qed.

Lemma hash_error (fi : FileInfo) (e : KeyError) :
  info_get "hash" fi = inl e -> e = MissingKey "hash".
Proof.
  induction fi as [| [k x] fi IH]; intros He; cbn [info_get] in He.
  - injection He as <-. reflexivity.
  - destruct (String.eqb k "hash"); [discriminate | exact (IH He)].
Qed.

Lemma file_hashes_all_or_error (fs : list FileInfo) :
  file_hashes fs =
  if forallb (fun fi => match info_get "hash" fi with inr _ => true | inl _ => false end) fs
  then inr (List.map (fun fi => match info_get "hash" fi with
                                | inr h => h
                                | inl _ => EmptyString
                                end) fs)
  else inl (MissingKey "hash").
Proof.
  induction fs as [| fi rest IH]; [reflexivity |].
  cbn [file_hashes forallb List.map].
  destruct (info_get "hash" fi) as [e | h] eqn:Hfi; cbn [check_bind andb].
  - rewrite (hash_error fi e Hfi). reflexivity.
  - rewrite IH. destruct (forallb _ rest); reflexivity.
Qed.

Lemma forallb_permutation {A : Type} (p : A -> bool) (l1 l2 : list A) :
  l1 ≡ₚ l2 -> forallb p l1 = forallb p l2.
Proof.
  induction 1 as [| x l1 l2 _ IH | x y l | l1 l2 l3 _ IH12 _ IH23]; simpl.
  - reflexivity.
  - rewrite IH. reflexivity.
  - destruct (p x), (p y); reflexivity.
  - congruence.
Qed.

(** X29. compute_root_hash does not depend on the order of the files in the
    manifest: two manifests whose file lists are permutations of each other
    have the same root hash, or both raise KeyError on a missing hash. *)
Theorem root_hash_ignores_file_order (m1 m2 : EvidenceManifest) :
  files m1 ≡ₚ files m2 ->
  compute_root_hash m1 = compute_root_hash m2.
Proof.
  intros Hperm. unfold compute_root_hash.
  assert (Hne : nonempty (files m1) = nonempty (files m2)).
  { apply Permutation_length in Hperm.
    destruct (files m1), (files m2); simpl in Hperm; try discriminate; reflexivity. }
  rewrite Hne. destruct (negb (nonempty (files m2))); [reflexivity |].
  rewrite !file_hashes_all_or_error, (forallb_permutation _ _ _ Hperm).
  destruct (forallb _ (files m2)); [| reflexivity]. cbn [check_bind].
  rewrite (sorted_order_independent _ _
             (Permutation_map (fun fi => match info_get "hash" fi with
                                         | inr h => h
                                         | inl _ => EmptyString
                                         end) Hperm)).
  reflexivity.
Qed.

End EvidencePackProperties.

Section EvidencePackWitnesses.
Import EvidencePack.

Lemma verification_checks_listed_files_witness :
  exists v,
    verify_pack_integrity (H := Samples.plain_host)
      (Samples.pack_of (Samples.manifest_of [Samples.readme_info] "tampered")) = inr v /\
    file_count v = 1%nat /\
    (valid v = true <-> mismatches v = [] /\ root_hash_valid v = true) /\
    mismatches v = [] /\
    valid v = false.
Proof.
  eexists. split; [vm_compute; reflexivity |].
  destruct (verification_checks_listed_files (H := Samples.plain_host)
              (Samples.pack_of (Samples.manifest_of [Samples.readme_info] "tampered"))
              (Samples.manifest_of [Samples.readme_info] "tampered")
              _ eq_refl eq_refl) as (Hcount & Hvalid & Hnone & _).
  split; [exact Hcount |]. split; [exact Hvalid |]. split; reflexivity.
Defined.

Lemma blank_root_hash_is_not_checked_witness :
  exists v,
    verify_pack_integrity (H := Samples.plain_host)
      (Samples.pack_of (Samples.manifest_of [Samples.readme_info] EmptyString)) = inr v /\
    root_hash_valid v = true /\
    expected_root_hash v = computed_root_hash v /\
    (valid v = true <-> mismatches v = []).
Proof.
  eexists. split; [vm_compute; reflexivity |].
  apply (blank_root_hash_is_not_checked (H := Samples.plain_host)
           (Samples.pack_of (Samples.manifest_of [Samples.readme_info] EmptyString))
           (Samples.manifest_of [Samples.readme_info] EmptyString)).
  - reflexivity.
  - reflexivity.
  - discriminate.
  - vm_compute. reflexivity.
Defined.

Lemma unlisted_member_is_not_checked_witness :
  verify_pack_integrity (H := Samples.plain_host)
    {| members :=
         <[ "evidence/evidence_index.json" := "forged" ]>
           (members (Samples.pack_of (Samples.manifest_of [Samples.readme_info] "hello")));
       manifest_data :=
         manifest_data (Samples.pack_of (Samples.manifest_of [Samples.readme_info] "hello")) |} =
  verify_pack_integrity (H := Samples.plain_host)
    (Samples.pack_of (Samples.manifest_of [Samples.readme_info] "hello")).
Proof.
  apply (unlisted_member_is_not_checked (H := Samples.plain_host)
           (Samples.pack_of (Samples.manifest_of [Samples.readme_info] "hello"))
           "evidence/evidence_index.json" "forged").
  - discriminate.
  - intros data fi Hdata Hin. injection Hdata as <-.
    destruct Hin as [<- | []]. vm_compute. discriminate.
Defined.

Lemma root_hash_ignores_file_order_witness :
  compute_root_hash (H := Samples.plain_host)
    (Samples.manifest_of [Samples.readme_info; Samples.index_info] EmptyString) =
  compute_root_hash (H := Samples.plain_host)
    (Samples.manifest_of [Samples.index_info; Samples.readme_info] EmptyString).
Proof.
  apply (root_hash_ignores_file_order (H := Samples.plain_host)).
  simpl. apply perm_swap.
Defined.

End EvidencePackWitnesses.

(** ** Totality *)

(** X30. evaluate_compliance returns a result, and raises nothing, for every
    bill of materials whose metadata is empty and whose datasets carry no
    metadata, on every host, with or without documentation: only untyped
    metadata can make a validator fail. *)
Theorem evaluation_without_metadata_returns `{Host}
    (cb : option Path) (now : Timestamp) (bom : AIBOM)
    (doc : option TechnicalDocumentation) (sid : option string) :
  metadata bom = [] ->
  Forall (fun ds => Validators.dict_truthy (ds_metadata ds) = false) (datasets bom) ->
  exists r, evaluate_compliance cb now bom doc sid = Ok r.
Proof.
  intros Hmeta Hplain. destruct (_is_ai_system bom) eqn:Hai.
  - apply evaluate_ai_system_returns; [exact Hai |].
    exact (plain_bom_validates cb bom Hmeta Hplain).
  - eexists. exact (non_ai_system_short_circuit cb now bom doc sid Hai).
Qed.

Lemma evaluation_without_metadata_returns_witness :
  exists r,
    evaluate_compliance (H := Samples.plain_host) None 0%Z Samples.chat_bom None None = Ok r.
Proof.
  apply (evaluation_without_metadata_returns (H := Samples.plain_host)
           None 0%Z Samples.chat_bom None None).
  - reflexivity.
  - constructor.
Defined.
(** ** Worked cases *)

(** A bill of materials with no model, dataset or dependency. *)
Example empty_bom_is_compliant :
  match evaluate_compliance (H := Samples.plain_host) None 0%Z Samples.empty_bom None None with
  | Ok r =>
      compliant r = true /\
      compliance_score (requirements_check r) = 1%Q /\
      risk_level r = MINIMAL
  | Raise _ => False
  end.
Proof. vm_compute. repeat split. Qed.

(** A service with one large language model: the risk level is HIGH, human
    oversight is required, one article of fourteen is compliant and the
    verdict is negative. *)
Example chat_service_is_high_risk :
  match evaluate_compliance (H := Samples.plain_host) None 0%Z Samples.chat_bom None None with
  | Ok r =>
      risk_level r = HIGH /\
      human_oversight_required (requirements_check r) = true /\
      compliance_score (requirements_check r) = (1 # 14)%Q /\
      List.length (critical_gaps (requirements_check r)) = 13%nat /\
      List.length (recommendations (requirements_check r)) = 15%nat /\
      compliant r = false
  | Raise _ => False
  end.
Proof. vm_compute. repeat split. Qed.

(** A log retention of three months in the metadata fails the validation
    of [LoggingCapability], and the evaluation raises. *)
Example short_retention_raises :
  evaluate_compliance (H := Samples.plain_host) None 0%Z
    Samples.short_retention_bom None None =
  Raise (ValidationError ["retention_period_months"]).
Proof. vm_compute. reflexivity. Qed.

(** Base gaps A and B, head gaps B and C. *)
Example gap_deltas_of_two_results :
  let d := compute_diff (H := Samples.plain_host) 0%Z
             (Samples.result_with (10 # 13) ["A"; "B"])
             (Samples.result_with (9 # 13) ["B"; "C"]) "repo" "c0" "c1" None in
  new_critical_gaps d = ["C"] /\
  resolved_gaps d = ["A"] /\
  In {| gap := "B"; gap_status := "existing" |} (gap_deltas d) /\
  score_direction d = "degraded".
Proof. vm_compute. repeat split. right. right. left. reflexivity. Qed.

Example import_of_a_library :
  search_import "from x importfoo import  os.path" = Some "os" /\
  List.map dep_name
    (_extract_dependencies
       [ {| det_match_text := "import Torch"; det_file := "train.py" |};
         {| det_match_text := "import torch.nn"; det_file := "model.py" |} ]
       [Samples.config_dep "numpy"]) = ["numpy"; "torch"].
Proof. vm_compute. split; reflexivity. Qed.

Example document_name_of_a_bom :
  system_name (_extract_documentation_from_bom Samples.chat_bom) = "webshop".
Proof. vm_compute. reflexivity. Qed.

(** The doubles that 0.1 and 0.01 stand for.  The difference of the scores
    0.11 and 0.10 is a double below 0.01, so the direction is unchanged;
    0.01 minus 5e-19 is rounded back to 0.01, so the direction is
    improved; the difference of the ratios 12/13 and 1/13 is a double and
    not 11/13. *)
Example differences_of_doubles :
  nearest_double (1 # 10) = (3602879701896397 # 36028797018963968)%Q /\
  nearest_double (1 # 100) = (5764607523034235 # 576460752303423488)%Q /\
  float_sub (11 # 100) (10 # 100) = (720575940379279 # 72057594037927936)%Q /\
  score_direction
    (compute_diff (H := Samples.plain_host) 0%Z
       (Samples.result_with (10 # 100) []) (Samples.result_with (11 # 100) [])
       "repo" "c0" "c1" None) = "unchanged" /\
  score_direction
    (compute_diff (H := Samples.plain_host) 0%Z
       (Samples.result_with (5 # 10000000000000000000) [])
       (Samples.result_with (1 # 100) [])
       "repo" "c0" "c1" None) = "improved" /\
  float_sub (12 # 13) (1 # 13) = (1905369073118287 # 2251799813685248)%Q.
Proof. vm_compute. repeat split. Qed.

(** A no-break space (U+00A0, the bytes 194 and 160) and an em space
    (U+2003, the bytes 226, 128 and 131) are blanks of the pattern. *)
Example import_after_wide_blanks :
  search_import
    ("import" ++ String (ascii_of_nat 194) (String (ascii_of_nat 160) "torch")) =
    Some "torch" /\
  search_import
    ("import" ++
     String (ascii_of_nat 226) (String (ascii_of_nat 128)
       (String (ascii_of_nat 131) "numpy as np"))) = Some "numpy" /\
  search_import ("import" ++ String (ascii_of_nat 194) "torch") = None.
Proof. vm_compute. repeat split. Qed.
